(** * utils-databricks: merge management and data quality checks

    A shallow embedding of
      - [custom_utils/dp_storage/merge_management.py] and
      - [custom_utils/quality/quality.py]
    together with the properties of the two modules.

    Both modules are sequencing layers over an external engine (a Spark
    session, its DataFrame API and a logger).  The embedding keeps the
    Python control flow (try/except, early raise, loops over the rule
    parameters) in a state-and-exception monad.  The engine is a
    parameter: the text-based entry point [spark.sql] is a field of the
    session value and the DataFrame calls of quality.py are the fields of
    a record, so every statement about them holds for any engine.  A
    reference engine (frames as lists of rows of integers) serves to run
    the code on concrete inputs. *)

From stdpp Require Import base decidable option list numbers strings pretty gmap.
From Stdlib Require Import Ascii ZArith Lia.

Local Open Scope Z_scope.
Local Open Scope stdpp_scope.

(* ===================================================================== *)
(** * Python strings *)
(* ===================================================================== *)

(** Python [str] values are modelled by [string]; a character is a code
    point below 256. *)
Module Py.

(** [str.isspace] on one character, for the code points below 256. *)
Definition isspace (c : ascii) : bool :=
  match c with
  | "009" | "010" | "011" | "012" | "013"
  | "028" | "029" | "030" | "031" | " "
  | "133" | "160" => true
  | _ => false
  end%char.

Fixpoint lstrip (s : string) : string :=
  match s with
  | EmptyString => EmptyString
  | String c s' => if isspace c then lstrip s' else s
  end.

Fixpoint rstrip (s : string) : string :=
  match s with
  | EmptyString => EmptyString
  | String c s' =>
      match rstrip s' with
      | EmptyString => if isspace c then EmptyString else String c EmptyString
      | r => String c r
      end
  end.

(** [s.strip()] *)
Definition strip (s : string) : string := rstrip (lstrip s).

(** [s.split(sep)] for a one-character separator: never the empty list,
    and [split sep ""] is [[""]]. *)
Fixpoint split (sep : ascii) (s : string) : list string :=
  match s with
  | EmptyString => [EmptyString]
  | String c s' =>
      if decide (c = sep) then EmptyString :: split sep s'
      else match split sep s' with
           | hd :: tl => String c hd :: tl
           | [] => [String c EmptyString]
           end
  end.

(** [sep.join(l)] *)
Fixpoint join (sep : string) (l : list string) : string :=
  match l with
  | [] => EmptyString
  | [x] => x
  | x :: tl => x +:+ sep +:+ join sep tl
  end.

(** [repr] of a string without quotes, backslashes or control
    characters, and of a list of such strings, as an f-string prints it. *)
Definition repr_str (s : string) : string := "'" +:+ s +:+ "'".
Definition repr_list (l : list string) : string :=
  "[" +:+ join ", " (repr_str <$> l) +:+ "]".
Definition repr_pairs (l : list (string * string)) : string :=
  "[" +:+ join ", "
            ((fun p => "(" +:+ repr_str p.1 +:+ ", " +:+ repr_str p.2 +:+ ")") <$> l)
      +:+ "]".

(** The characters of a string, and strings made of white space only. *)
Fixpoint chars (s : string) : list ascii :=
  match s with
  | EmptyString => []
  | String c s' => c :: chars s'
  end.

Definition blank (s : string) : Prop := Forall (fun c => isspace c = true) (chars s).

(** End of line inside a triple-quoted literal. *)
Definition nl : string := String "010"%char EmptyString.

End Py.

(* ===================================================================== *)
(** * The engine: DataFrames, exceptions, session state *)
(* ===================================================================== *)

(** A cell holds an integer or SQL NULL ([None]); a row is the list of its
    cells in schema order. *)
Abbreviation cell := (option Z).
Abbreviation row := (list (option Z)).

Record DataFrame := mkDataFrame { columns : list string; rows : list row }.

(** Python exception classes that occur; all of them derive from
    [Exception]. *)
Inductive ExnClass :=
| AnalysisException   (* pyspark.sql.utils.AnalysisException *)
| EngineError         (* any other exception coming out of the engine *)
| RuntimeError
| TypeError
| IndexError.

#[global] Instance ExnClass_eq_dec : EqDecision ExnClass.
Proof. solve_decision. Defined.

Record exn := mkExn { exn_class : ExnClass; exn_msg : string }.

(** [str(e)], as interpolated by [f"...{e}"]. *)
Definition str_exn (e : exn) : string := exn_msg e.

Inductive Outcome (A : Type) :=
| Returns (a : A)
| Raises (e : exn).
Arguments Returns {A} a.
Arguments Raises {A} e.

Inductive Pass :=
| HandlingMultipleFiles
| DuplicateCheck
| NullValuesCheck
| ValueRangeCheck
| ReferentialIntegrityCheck
| FieldConsistencyCheck
| ExcludeColumns.

(** What the code does to its collaborators, in program order: calls on the
    logger, on the optional helper, on [spark.sql], on
    [createOrReplaceTempView] and on the notebook's [display]; [Enter p]
    marks the start of a validation pass. *)
Inductive Event :=
| LogMessage (message level : string)
| LogBlock (header : string) (content_lines : list string)
| LogStart (name : string)
| LogEnd (name : string) (success : bool) (additional_message : option string)
| WriteMessage (message : string)
| SqlQuery (query : string)
| TempView (name : string) (df : DataFrame)
| Display (df : DataFrame)
| Enter (p : Pass).

(** The session's temporary views and the events so far (latest last). *)
Record World := mkWorld {
  catalog : gmap string DataFrame;
  events : list Event
}.

(** [spark]: the engine behind [spark.sql], from the registered views and
    the query text to a result (and the views it defines) or an exception. *)
Record SparkSession := mkSpark {
  sql_engine : gmap string DataFrame -> string ->
               Outcome (gmap string DataFrame * DataFrame)
}.

(** ** State and exception monad *)

Definition M (A : Type) : Type := World -> World * Outcome A.

Definition ret {A} (a : A) : M A := fun w => (w, Returns a).

Definition bind {A B} (m : M A) (k : A -> M B) : M B :=
  fun w => match m w with
           | (w', Returns a) => k a w'
           | (w', Raises e) => (w', Raises e)
           end.

(** [raise e] *)
Definition raise {A} (e : exn) : M A := fun w => (w, Raises e).

(** [try: body except Exception as e: handler e] *)
Definition try_except {A} (body : M A) (handler : exn -> M A) : M A :=
  fun w => match body w with
           | (w', Returns a) => (w', Returns a)
           | (w', Raises e) => handler e w'
           end.

(** [try: body except C as e: handler e] for one class [C]; an exception
    of another class propagates. *)
Definition try_except_class {A} (c : ExnClass) (body : M A)
    (handler : exn -> M A) : M A :=
  try_except body
    (fun e => if decide (exn_class e = c) then handler e else raise e).

Definition lift {A} (o : Outcome A) : M A := fun w => (w, o).

Definition emit (ev : Event) : M unit :=
  fun w => (mkWorld (catalog w) (events w ++ [ev]), Returns tt).

Definition when (b : bool) (m : M unit) : M unit := if b then m else ret tt.

Notation "x <- m ;; k" := (bind m (fun x => k))
  (at level 100, m at next level, right associativity).
Notation "m ;;; k" := (bind m (fun _ => k))
  (at level 100, right associativity).

(** [for x in xs: body x] *)
Fixpoint for_each {A} (xs : list A) (body : A -> M unit) : M unit :=
  match xs with
  | [] => ret tt
  | x :: xs' => body x ;;; for_each xs' body
  end.

(** ** A reference engine *)

(** Frames as lists of rows: columns are found by their exact name and a
    cell holds an integer or NULL.  This engine answers what
    merge_management.py asks of the table history and runs quality.py on
    concrete inputs; the general properties of quality.py are stated for
    any engine and do not depend on it. *)
Module DF.

Fixpoint index_of (c : string) (cols : list string) : option nat :=
  match cols with
  | [] => None
  | c' :: cols' => if decide (c' = c) then Some 0%nat
                   else S <$> index_of c cols'
  end.

Definition unresolved (c : string) : exn :=
  mkExn AnalysisException ("cannot resolve column " +:+ Py.repr_str c).
Definition ambiguous (c : string) : exn :=
  mkExn AnalysisException ("reference " +:+ Py.repr_str c +:+ " is ambiguous").

(** Name resolution against the schema (names compared exactly): a name
    that is absent, or present more than once, is an
    [AnalysisException]. *)
Definition resolve (df : DataFrame) (c : string) : Outcome nat :=
  match index_of c (columns df) with
  | Some i =>
      if decide (c ∈ drop (S i) (columns df)) then Raises (ambiguous c)
      else Returns i
  | None => Raises (unresolved c)
  end.

Fixpoint resolve_all (df : DataFrame) (cs : list string) : Outcome (list nat) :=
  match cs with
  | [] => Returns []
  | c :: cs' =>
      match resolve df c with
      | Raises e => Raises e
      | Returns i =>
          match resolve_all df cs' with
          | Raises e => Raises e
          | Returns ixs => Returns (i :: ixs)
          end
      end
  end.

(** The cell of a row at a resolved position. *)
Definition at_ (r : row) (i : nat) : cell := default None (r !! i).

Definition project (ixs : list nat) (r : row) : list cell := at_ r <$> ixs.

(** [df.count()] *)
Definition count (df : DataFrame) : nat := length (rows df).

(** [df.limit(n)] *)
Definition limit (n : nat) (df : DataFrame) : DataFrame :=
  mkDataFrame (columns df) (take n (rows df)).

(** [df.select(c1, ..., cn)] *)
Definition select (df : DataFrame) (cs : list string) : Outcome DataFrame :=
  match resolve_all df cs with
  | Raises e => Raises e
  | Returns ixs => Returns (mkDataFrame cs (project ixs <$> rows df))
  end.

(** [df.collect()] *)
Definition collect (df : DataFrame) : list row := rows df.

(** SQL comparisons are three-valued: a comparison with NULL is NULL. *)
Definition lt3 (a b : cell) : option bool :=
  match a, b with
  | Some x, Some y => Some (bool_decide (x < y))
  | _, _ => None
  end.
Definition gt3 (a b : cell) : option bool := lt3 b a.
Definition eq3 (a b : cell) : option bool :=
  match a, b with
  | Some x, Some y => Some (bool_decide (x = y))
  | _, _ => None
  end.
Definition or3 (p q : option bool) : option bool :=
  match p, q with
  | Some true, _ | _, Some true => Some true
  | Some false, Some false => Some false
  | _, _ => None
  end.
Definition isNull (a : cell) : option bool := Some (bool_decide (a = None)).

(** [df.filter(cond)]: keeps the rows on which the condition is TRUE. *)
Definition where_ (cond : row -> option bool) (df : DataFrame) : DataFrame :=
  mkDataFrame (columns df) (filter (fun r => cond r = Some true) (rows df)).

(** [df.filter(F.col(c).isNull())] *)
Definition filter_isNull (df : DataFrame) (c : string) : Outcome DataFrame :=
  match resolve df c with
  | Raises e => Raises e
  | Returns i => Returns (where_ (fun r => isNull (at_ r i)) df)
  end.

(** [df.filter((F.col(c) < lo) | (F.col(c) > hi))] *)
Definition filter_out_of_range (df : DataFrame) (c : string) (lo hi : Z)
    : Outcome DataFrame :=
  match resolve df c with
  | Raises e => Raises e
  | Returns i =>
      Returns (where_ (fun r => or3 (lt3 (at_ r i) (Some lo))
                                    (gt3 (at_ r i) (Some hi))) df)
  end.

(** [df.filter(F.col(c1) > F.col(c2))] *)
Definition filter_gt_columns (df : DataFrame) (c1 c2 : string) : Outcome DataFrame :=
  match resolve df c1 with
  | Raises e => Raises e
  | Returns i =>
      match resolve df c2 with
      | Raises e => Raises e
      | Returns j => Returns (where_ (fun r => gt3 (at_ r i) (at_ r j)) df)
      end
  end.

(** [df.filter(F.col(c) > n)] and [df.filter(F.col(c) == n)] *)
Definition filter_gt (df : DataFrame) (c : string) (n : Z) : Outcome DataFrame :=
  match resolve df c with
  | Raises e => Raises e
  | Returns i => Returns (where_ (fun r => gt3 (at_ r i) (Some n)) df)
  end.
Definition filter_eq (df : DataFrame) (c : string) (n : Z) : Outcome DataFrame :=
  match resolve df c with
  | Raises e => Raises e
  | Returns i => Returns (where_ (fun r => eq3 (at_ r i) (Some n)) df)
  end.

(** How often a key occurs among the projections. *)
Definition occurrences (k : list cell) (projs : list (list cell)) : nat :=
  length (filter (fun p => p = k) projs).

(** [df.groupBy(keys).count()]: one row per distinct combination of the
    key cells (NULL groups with NULL), followed by the size of the group
    in a column named [count]; without keys, the single global group. *)
Definition groupBy_count (df : DataFrame) (keys : list string) : Outcome DataFrame :=
  match resolve_all df keys with
  | Raises e => Raises e
  | Returns ixs =>
      let projs := project ixs <$> rows df in
      Returns (mkDataFrame (keys ++ ["count"])
        match keys with
        | [] => [[Some (Z.of_nat (length (rows df)))]]
        | _ => (fun k => k ++ [Some (Z.of_nat (occurrences k projs))])
                 <$> remove_dups projs
        end)
  end.

(** [df.join(ref, df[c] == ref[c], "left_anti")]: the rows of [df] that no
    row of [ref] matches. *)
Definition join_left_anti (df ref : DataFrame) (c : string) : Outcome DataFrame :=
  match resolve df c with
  | Raises e => Raises e
  | Returns i =>
      match resolve ref c with
      | Raises e => Raises e
      | Returns j =>
          Returns (mkDataFrame (columns df)
            (filter (fun r => Forall (fun r' => eq3 (at_ r i) (at_ r' j) <> Some true)
                                     (rows ref))
                    (rows df)))
      end
  end.

(** Keeps the entries of [l] whose schema name is not in [names]. *)
Fixpoint without {A} (names cols : list string) (l : list A) : list A :=
  match cols, l with
  | c :: cols', x :: l' =>
      if decide (c ∈ names) then without names cols' l'
      else x :: without names cols' l'
  | _, _ => []
  end.

(** [df.drop] of the listed names: unknown names are ignored. *)
Definition drop_columns (names : list string) (df : DataFrame) : DataFrame :=
  mkDataFrame (without names (columns df) (columns df))
              (without names (columns df) <$> rows df).

(** ** Window functions *)

(** [a] sorts strictly before [b] under [col.desc()] (NULLs last). *)
Definition cell_desc_before (a b : cell) : bool :=
  match a, b with
  | Some x, Some y => bool_decide (y < x)
  | Some _, None => true
  | None, _ => false
  end.

(** Lexicographic extension to the cells of the ORDER BY columns. *)
Fixpoint desc_before (a b : list cell) : bool :=
  match a, b with
  | x :: a', y :: b' =>
      cell_desc_before x y || (bool_decide (x = y) && desc_before a' b')
  | _, _ => false
  end.

(** Stable insertion sort of a partition under the ORDER BY columns. *)
Fixpoint insert_desc (o : list nat) (r : row) (l : list row) : list row :=
  match l with
  | [] => [r]
  | e :: l' =>
      if desc_before (project o e) (project o r) then e :: insert_desc o r l'
      else r :: l
  end.
Definition sort_desc (o : list nat) (l : list row) : list row :=
  foldr (insert_desc o) [] l.

(** The rows of one partition, numbered from 1 in sort order. *)
Fixpoint number_from (n : Z) (l : list row) : list (row * Z) :=
  match l with
  | [] => []
  | r :: l' => (r, n) :: number_from (n + 1) l'
  end.
Definition number (l : list row) : list (row * Z) := number_from 1 l.

(** [F.row_number().over(Window.partitionBy(p).orderBy(o desc))]: the rows
    partition by partition, each with its row number.  (The engine leaves
    the order among ties and among partitions open; the model takes the
    input order.) *)
Definition row_number_over (p o : list nat) (rs : list row) : list (row * Z) :=
  concat ((fun k => number (sort_desc o (filter (fun r => project p r = k) rs)))
            <$> remove_dups (project p <$> rs)).

(** The row with the cell of column [name] set: replaced where the schema
    has the name, appended otherwise. *)
Definition set_cell (cols : list string) (name : string) (v : cell) (r : row) : row :=
  if decide (name ∈ cols)
  then zip_with (fun c x => if decide (c = name) then v else x) cols r
  else r ++ [v].

(** [df.withColumn(name, F.row_number().over(
       Window.partitionBy(partition_by).orderBy(order_by desc)))] *)
Definition withColumn_row_number (name : string) (partition_by order_by : list string)
    (df : DataFrame) : Outcome DataFrame :=
  match resolve_all df partition_by with
  | Raises e => Raises e
  | Returns p =>
      match resolve_all df order_by with
      | Raises e => Raises e
      | Returns o =>
          Returns (mkDataFrame
            (if decide (name ∈ columns df) then columns df else columns df ++ [name])
            ((fun rn => set_cell (columns df) name (Some rn.2) rn.1)
               <$> row_number_over p o (rows df)))
      end
  end.

(** Every row has one cell per column. *)
Definition well_formed (df : DataFrame) : Prop :=
  Forall (fun r => length r = length (columns df)) (rows df).

End DF.

(** [xs[i]] on a Python sequence. *)
Definition py_index {A} (what : string) (xs : list A) (i : nat) : Outcome A :=
  match xs !! i with
  | Some x => Returns x
  | None => Raises (mkExn IndexError (what +:+ " index out of range"))
  end.

(** [spark.sql(query)] *)
Definition spark_sql (spark : SparkSession) (query : string) : M DataFrame :=
  fun w =>
    let w1 := mkWorld (catalog w) (events w ++ [SqlQuery query]) in
    match sql_engine spark (catalog w) query with
    | Returns (views, df) => (mkWorld views (events w1), Returns df)
    | Raises e => (w1, Raises e)
    end.

(** [df.createOrReplaceTempView(name)] *)
Definition createOrReplaceTempView (df : DataFrame) (name : string) : M unit :=
  fun w => (mkWorld (<[name := df]> (catalog w)) (events w ++ [TempView name df]),
            Returns tt).

(** [display(df)] of the notebook *)
Definition display (df : DataFrame) : M unit := emit (Display df).

(** ** The DataFrame API as quality.py calls it *)

(** Each call that quality.py makes on a frame is answered by the engine
    behind the frame, which may raise instead (an [AnalysisException] for
    a column it does not resolve, or whatever else goes wrong while it
    plans or runs the query).  [Number] is the type of the bounds of a
    range.  [drop] only builds a plan. *)
Record DataFrameAPI (Number : Type) := mkAPI {
  (** [df.count()] *)
  api_count : DataFrame -> Outcome nat;
  (** [df.filter(F.col(c).isNull())] *)
  api_filter_isNull : DataFrame -> string -> Outcome DataFrame;
  (** [df.filter((F.col(c) < lo) | (F.col(c) > hi))] *)
  api_filter_out_of_range : DataFrame -> string -> Number -> Number ->
                            Outcome DataFrame;
  (** [df.filter(F.col(c1) > F.col(c2))] *)
  api_filter_gt_columns : DataFrame -> string -> string -> Outcome DataFrame;
  (** [df.filter(F.col(c) > n)] and [df.filter(F.col(c) == n)] *)
  api_filter_gt : DataFrame -> string -> Z -> Outcome DataFrame;
  api_filter_eq : DataFrame -> string -> Z -> Outcome DataFrame;
  (** [df.groupBy(keys).count()] *)
  api_groupBy_count : DataFrame -> list string -> Outcome DataFrame;
  (** [df.join(ref, df[c] == ref[c], "left_anti")] *)
  api_join_left_anti : DataFrame -> DataFrame -> string -> Outcome DataFrame;
  (** [df.withColumn(name, F.row_number().over(
         Window.partitionBy(partition_by).orderBy(order_by desc)))] *)
  api_withColumn_row_number : string -> list string -> list string ->
                              DataFrame -> Outcome DataFrame;
  (** [df.drop] of the listed names *)
  api_drop : list string -> DataFrame -> DataFrame
}.
Arguments mkAPI {Number}.
Arguments api_count {Number}.
Arguments api_filter_isNull {Number}.
Arguments api_filter_out_of_range {Number}.
Arguments api_filter_gt_columns {Number}.
Arguments api_filter_gt {Number}.
Arguments api_filter_eq {Number}.
Arguments api_groupBy_count {Number}.
Arguments api_join_left_anti {Number}.
Arguments api_withColumn_row_number {Number}.
Arguments api_drop {Number}.

(** The reference engine: the list semantics of the module [DF], over
    integer bounds. *)
Definition reference_api : DataFrameAPI Z :=
  mkAPI (fun df => Returns (DF.count df))
        DF.filter_isNull DF.filter_out_of_range DF.filter_gt_columns
        DF.filter_gt DF.filter_eq DF.groupBy_count DF.join_left_anti
        DF.withColumn_row_number DF.drop_columns.

(** An engine that is out of order: every query raises [e]. *)
Definition failing_api (e : exn) : DataFrameAPI Z :=
  mkAPI (fun _ => Raises e) (fun _ _ => Raises e) (fun _ _ _ _ => Raises e)
        (fun _ _ _ => Raises e) (fun _ _ _ => Raises e) (fun _ _ _ => Raises e)
        (fun _ _ => Raises e) (fun _ _ _ => Raises e) (fun _ _ _ _ => Raises e)
        (fun _ df => df).

(** ** Python sets *)

(** [list(set(xs))]: the distinct elements of [xs], in an order that
    Python leaves to the hashes of the strings. *)
Record SetOrder := mkSetOrder {
  list_set : list string -> list string;
  list_set_distinct : forall xs, list_set xs ≡ₚ remove_dups xs
}.

(** Two such orders: the distinct elements as first seen, and last
    first. *)
Definition first_seen : SetOrder :=
  mkSetOrder remove_dups (fun xs => reflexivity (remove_dups xs)).

Definition last_first : SetOrder :=
  mkSetOrder (fun xs => reverse (remove_dups xs))
             (fun xs => reverse_Permutation (remove_dups xs)).

(* ===================================================================== *)
(** * custom_utils/dp_storage/merge_management.py *)
(* ===================================================================== *)

(** The optional logging helper; only its presence matters. *)
Inductive Helper := LoggingHelper.

Definition write_message (helper : option Helper) (message : string) : M unit :=
  when (bool_decide (is_Some helper)) (emit (WriteMessage message)).

Definition get_pre_merge_version (spark : SparkSession)
    (database_name table_name : string) (helper : option Helper) : M cell :=
  try_except
    (history <- spark_sql spark
        ("DESCRIBE HISTORY " +:+ database_name +:+ "." +:+ table_name +:+ " LIMIT 1") ;;
     version <- lift (DF.select history ["version"]) ;;
     first <- lift (py_index "list" (DF.collect version) 0) ;;
     pre_merge_version <- lift (py_index "tuple" first 0) ;;
     ret pre_merge_version)
    (fun e =>
       write_message helper ("Error retrieving pre-merge version: " +:+ str_exn e) ;;;
       raise e).

(** The ON condition: one equality per comma-separated key column. *)
Definition match_sql (key_columns : string) : string :=
  Py.join " AND "
    ((fun col => "s." +:+ Py.strip col +:+ " = t." +:+ Py.strip col)
       <$> Py.split ","%char key_columns).

Definition merge_sql_text (view_name database_name table_name on : string) : string :=
  Py.nl +:+ "    MERGE INTO " +:+ database_name +:+ "." +:+ table_name +:+ " AS t" +:+
  Py.nl +:+ "    USING " +:+ view_name +:+ " AS s" +:+
  Py.nl +:+ "    ON " +:+ on +:+
  Py.nl +:+ "    WHEN MATCHED THEN" +:+
  Py.nl +:+ "      UPDATE SET *" +:+
  Py.nl +:+ "    WHEN NOT MATCHED THEN" +:+
  Py.nl +:+ "      INSERT *" +:+
  Py.nl +:+ "    ".

Definition generate_merge_sql (view_name database_name table_name key_columns : string)
    (helper : option Helper) : M string :=
  let merge_sql :=
    merge_sql_text view_name database_name table_name (match_sql key_columns) in
  write_message helper ("Executing SQL query: " +:+ merge_sql) ;;;
  ret merge_sql.

(** [pre_merge_version + 1]; the version read from the history may be
    [None]. *)
Definition py_add_one (v : cell) : Outcome Z :=
  match v with
  | Some n => Returns (n + 1)
  | None => Raises (mkExn TypeError
              "unsupported operand type(s) for +: 'NoneType' and 'int'")
  end.

Definition execute_merge_and_get_post_version (spark : SparkSession)
    (database_name table_name merge_sql : string) (pre_merge_version : cell)
    (helper : option Helper) : M Z :=
  try_except
    (spark_sql spark merge_sql ;;;
     write_message helper "Data merged successfully.")
    (fun e =>
       write_message helper ("Error during data merge: " +:+ str_exn e) ;;;
       raise e) ;;;
  try_except
    (post_merge_version <- lift (py_add_one pre_merge_version) ;;
     ret post_merge_version)
    (fun e =>
       write_message helper ("Error calculating post-merge version: " +:+ str_exn e) ;;;
       raise e).

Definition merged_data_sql (database_name table_name : string)
    (pre_merge_version post_merge_version : Z) : string :=
  Py.nl +:+ "    SELECT * FROM " +:+ database_name +:+ "." +:+ table_name +:+
            " VERSION AS OF " +:+ pretty post_merge_version +:+
  Py.nl +:+ "    EXCEPT" +:+
  Py.nl +:+ "    SELECT * FROM " +:+ database_name +:+ "." +:+ table_name +:+
            " VERSION AS OF " +:+ pretty pre_merge_version +:+
  Py.nl +:+ "    ".

Definition display_newly_merged_data (spark : SparkSession)
    (database_name table_name : string)
    (pre_merge_version post_merge_version : Z) (helper : option Helper) : M unit :=
  let query :=
    merged_data_sql database_name table_name pre_merge_version post_merge_version in
  write_message helper ("Displaying newly merged data with query: " +:+ query) ;;;
  try_except
    (merged_data_df <- spark_sql spark query ;;
     display (DF.limit 10 merged_data_df))
    (fun e =>
       write_message helper ("Error displaying merged data: " +:+ str_exn e) ;;;
       raise e).

(** ** The driver and the destination lookup *)

Section MergeDriver.

(** [writer.get_destination_path_extended] and
    [writer.get_databricks_table_info_extended] of
    custom_utils/dp_storage/writer.py: the module is imported by
    merge_management.py but is not among the sources at hand, so the two
    functions are parameters here, free to change the session and to
    raise. *)
Variable get_destination_path_extended : string -> string -> M string.
Variable get_databricks_table_info_extended : string -> string -> M (string * string).

Definition get_merge_destination_details (spark : SparkSession)
    (destination_environment source_datasetidentifier : string)
    (helper : option Helper) : M (string * string * string) :=
  destination_path <-
    get_destination_path_extended destination_environment source_datasetidentifier ;;
  table_info <-
    get_databricks_table_info_extended destination_environment
      source_datasetidentifier ;;
  let '(database_name, table_name) := table_info in
  write_message helper ("Destination path: " +:+ destination_path) ;;;
  write_message helper ("Database name: " +:+ database_name) ;;;
  write_message helper ("Table name: " +:+ table_name) ;;;
  ret (destination_path, database_name, table_name).

(** The version read from the history is handed on as it is; the display
    is reached only after [pre_merge_version + 1] has succeeded, which it
    does for an integer alone. *)
Definition manage_data_merge (spark : SparkSession)
    (destination_environment source_datasetidentifier view_name key_columns : string)
    (helper : option Helper) : M unit :=
  details <- get_merge_destination_details spark destination_environment
               source_datasetidentifier helper ;;
  let '(destination_path, database_name, table_name) := details in
  pre_merge_version <- get_pre_merge_version spark database_name table_name helper ;;
  merge_sql <- generate_merge_sql view_name database_name table_name key_columns
                 helper ;;
  post_merge_version <- execute_merge_and_get_post_version spark database_name
                          table_name merge_sql pre_merge_version helper ;;
  match pre_merge_version with
  | Some pre =>
      display_newly_merged_data spark database_name table_name pre
        post_merge_version helper
  | None => raise (mkExn TypeError
              "unsupported operand type(s) for +: 'NoneType' and 'int'")
  end.

End MergeDriver.

(* ===================================================================== *)
(** * custom_utils/quality/quality.py *)
(* ===================================================================== *)

(** ** Python values and calls *)

(** [Union[str, List[str]]] *)
Inductive StrOrList :=
| Str (s : string)
| List (l : list string).

(** Truthiness, as tested by [if x:]. *)
Definition truthy_keys (k : StrOrList) : bool :=
  match k with
  | Str s => negb (bool_decide (s = EmptyString))
  | List l => negb (bool_decide (l = []))
  end.
Definition truthy_opt_keys (k : option StrOrList) : bool :=
  match k with Some k => truthy_keys k | None => false end.
Definition truthy_list {A} (o : option (list A)) : bool :=
  match o with Some (_ :: _) => true | _ => false end.
Definition truthy_str (o : option string) : bool :=
  match o with Some s => negb (bool_decide (s = EmptyString)) | None => false end.
(** A DataFrame object is truthy; only [None] is not. *)
Definition truthy_df (o : option DataFrame) : bool := bool_decide (is_Some o).

(** The values passed to [_handle_multiple_files]. *)
Inductive PyVal :=
| PyNone
| PyBool (b : bool)
| PyStr (s : string)
| PyList (l : list string)
| PyDataFrame (df : DataFrame)
| PySparkSession (spark : SparkSession).

Definition of_keys (k : StrOrList) : PyVal :=
  match k with Str s => PyStr s | List l => PyList l end.
Definition of_opt_keys (k : option StrOrList) : PyVal :=
  match k with Some k => of_keys k | None => PyNone end.

(** A signature without [self]: parameter names with their defaults. *)
Definition Signature := list (string * option PyVal).

(** Positional arguments fill the parameters from the left. *)
Fixpoint bind_positional (params : Signature) (args : list PyVal)
    : option (list (string * option PyVal)) :=
  match params, args with
  | [], [] => Some []
  | [], _ :: _ => None
  | (name, _) :: params', [] =>
      cons (name, None) <$> bind_positional params' []
  | (name, _) :: params', v :: args' =>
      cons (name, Some v) <$> bind_positional params' args'
  end.

Definition type_error (fname msg : string) : exn :=
  mkExn TypeError (fname +:+ "() " +:+ msg).

(** One keyword argument fills the slot of its name. *)
Fixpoint bind_keyword (fname : string) (slots : list (string * option PyVal))
    (kw : string) (v : PyVal) : Outcome (list (string * option PyVal)) :=
  match slots with
  | [] => Raises (type_error fname
            ("got an unexpected keyword argument " +:+ Py.repr_str kw))
  | (name, slot) :: slots' =>
      if decide (name = kw) then
        match slot with
        | Some _ => Raises (type_error fname
                      ("got multiple values for argument " +:+ Py.repr_str kw))
        | None => Returns ((name, Some v) :: slots')
        end
      else
        match bind_keyword fname slots' kw v with
        | Raises e => Raises e
        | Returns slots'' => Returns ((name, slot) :: slots'')
        end
  end.

Fixpoint bind_keywords (fname : string) (slots : list (string * option PyVal))
    (kwargs : list (string * PyVal)) : Outcome (list (string * option PyVal)) :=
  match kwargs with
  | [] => Returns slots
  | (kw, v) :: kwargs' =>
      match bind_keyword fname slots kw v with
      | Raises e => Raises e
      | Returns slots' => bind_keywords fname slots' kwargs'
      end
  end.

(** The parameters left without a value and without a default. *)
Fixpoint missing (params : Signature) (slots : list (string * option PyVal))
    : list string :=
  match params, slots with
  | (name, None) :: params', (_, None) :: slots' => name :: missing params' slots'
  | _ :: params', _ :: slots' => missing params' slots'
  | _, _ => []
  end.

Fixpoint with_defaults (params : Signature) (slots : list (string * option PyVal))
    : list PyVal :=
  match params, slots with
  | (_, d) :: params', (_, slot) :: slots' =>
      default (default PyNone d) slot :: with_defaults params' slots'
  | _, _ => []
  end.

(** ['a'], ['a' and 'b'], ['a', 'b', and 'c'] *)
Fixpoint name_list (names : list string) : string :=
  match names with
  | [] => EmptyString
  | [a] => Py.repr_str a
  | [a; b] => Py.repr_str a +:+ " and " +:+ Py.repr_str b
  | a :: rest =>
      Py.repr_str a +:+ ", " +:+
      match rest with
      | [b; c] => Py.repr_str b +:+ ", and " +:+ Py.repr_str c
      | _ => name_list rest
      end
  end.

(** Argument binding of a method call [self.f(args, kwargs)]. *)
Definition py_bind (fname : string) (params : Signature)
    (args : list PyVal) (kwargs : list (string * PyVal)) : Outcome (list PyVal) :=
  match bind_positional params args with
  | None =>
      Raises (type_error fname
        ("takes from " +:+
         pretty (S (length (filter (fun p => p.2 = None) params))) +:+ " to " +:+
         pretty (S (length params)) +:+ " positional arguments but " +:+
         pretty (S (length args)) +:+ " were given"))
  | Some slots =>
      match bind_keywords fname slots kwargs with
      | Raises e => Raises e
      | Returns slots' =>
          match missing params slots' with
          | [] => Returns (with_defaults params slots')
          | [name] =>
              Raises (type_error fname
                ("missing 1 required positional argument: " +:+ Py.repr_str name))
          | names =>
              Raises (type_error fname
                ("missing " +:+ pretty (length names) +:+
                 " required positional arguments: " +:+ name_list names))
          end
      end
  end.

(** ** The manager *)

(** [self]: the logger is the event list of the world. *)
Record DataQualityManager := mkManager { debug : bool }.

(** Keyword arguments of [_list_checks_to_perform]; a missing key reads as
    [None]. *)
Record Kwargs (Number : Type) := mkKwargs {
  kw_key_columns : option StrOrList;
  kw_critical_columns : option (list string);
  kw_column_ranges : option (list (string * (Number * Number)));
  kw_reference_df : option DataFrame;
  kw_join_column : option string;
  kw_consistency_pairs : option (list (string * string));
  kw_columns_to_exclude : option (list string)
}.
Arguments mkKwargs {Number}.
Arguments kw_key_columns {Number}.
Arguments kw_critical_columns {Number}.
Arguments kw_column_ranges {Number}.
Arguments kw_reference_df {Number}.
Arguments kw_join_column {Number}.
Arguments kw_consistency_pairs {Number}.
Arguments kw_columns_to_exclude {Number}.

Section DataQuality.

(** [sqlparse.format(query, reindent=True, keyword_case='upper')]: the
    pretty-printer of the external package; its result only enters a
    log line. *)
Variable sqlparse_format : string -> string.

(** The numbers given as bounds in [column_ranges] (Python floats, or
    ints) and their [str()], as the messages interpolate them. *)
Variable Number : Type.
Variable str_number : Number -> string.

(** The order in which [list(set(...))] gives the names. *)
Variable set_order : SetOrder.

(** The engine behind the frames. *)
Variable api : DataFrameAPI Number.

Definition _log_message (self : DataQualityManager) (message level : string)
    : M unit :=
  when (debug self || negb (bool_decide (level = "info")))
       (emit (LogMessage message level)).

Definition _log_block (self : DataQualityManager) (header : string)
    (content_lines : list string) : M unit :=
  when (debug self) (emit (LogBlock header content_lines)).

Definition _raise_error {A} (self : DataQualityManager) (message : string) : M A :=
  _log_message self message "error" ;;;
  raise (mkExn RuntimeError message).

Definition is_linebreak (c : ascii) : bool :=
  match c with
  | "010" | "011" | "012" | "013" | "028" | "029" | "030" | "133" => true
  | _ => false
  end%char.

(** [s.splitlines()] *)
Fixpoint splitlines (s : string) : list string :=
  match s with
  | EmptyString => []
  | String c s' =>
      if is_linebreak c then
        EmptyString ::
        match s' with
        | String c2 s'' =>
            if bool_decide (c = "013"%char) && bool_decide (c2 = "010"%char)
            then splitlines s'' else splitlines s'
        | EmptyString => splitlines s'
        end
      else
        match splitlines s' with
        | line :: rest => String c line :: rest
        | [] => [String c EmptyString]
        end
  end.

Definition _format_sql_query (query : string) : string :=
  let sql_indent := "       " in
  let formatted_query := sqlparse_format query in
  let indented_query :=
    Py.join Py.nl
      ((fun line => if bool_decide (Py.strip line = EmptyString) then line
                    else sql_indent +:+ line)
         <$> splitlines formatted_query) in
  indented_query +:+ Py.nl.

Definition _list_available_checks : list (string * string) :=
  [ ("Handling Multiple Files",
     "Triggered by 'key_columns'. Uses input_file_name to keep the latest record per key.");
    ("Duplicate Check",
     "Triggered by 'key_columns'. Checks for duplicate records based on specified columns.");
    ("Null Values Check",
     "Triggered by 'critical_columns'. Checks for null values in specified columns.");
    ("Value Range Check",
     "Triggered by 'column_ranges'. Checks if values in specified columns are within the provided ranges.");
    ("Referential Integrity Check",
     "Triggered by 'reference_df' and 'join_column'. Checks if all records have matching references in another dataset.");
    ("Field Consistency Check",
     "Triggered by 'consistency_pairs'. Checks if values in specified column pairs are consistent (e.g., start date < end date).");
    ("Exclude Columns",
     "Triggered by 'columns_to_exclude'. Drops specified columns from the DataFrame.") ].

Definition _list_checks_to_perform (kwargs : Kwargs Number) : list string :=
  (if truthy_opt_keys (kw_key_columns kwargs)
   then ["Handling Multiple Files"; "Duplicate Check"] else []) ++
  (if truthy_list (kw_critical_columns kwargs) then ["Null Values Check"] else []) ++
  (if truthy_list (kw_column_ranges kwargs) then ["Value Range Check"] else []) ++
  (if truthy_df (kw_reference_df kwargs) && truthy_str (kw_join_column kwargs)
   then ["Referential Integrity Check"] else []) ++
  (if truthy_list (kw_consistency_pairs kwargs)
   then ["Field Consistency Check"] else []) ++
  (if truthy_list (kw_columns_to_exclude kwargs) then ["Exclude Columns"] else []).

Definition describe_available_checks (self : DataQualityManager) : M unit :=
  _log_block self "Available Quality Checks"
    ((fun cd => cd.1 +:+ ": " +:+ cd.2) <$> _list_available_checks).

(** *** _handle_multiple_files *)

Definition as_list (key_columns : StrOrList) : list string :=
  match key_columns with Str s => [s] | List l => l end.

(** [list(set(['input_file_name'] + key_columns))] *)
Definition partition_columns (key_columns : StrOrList) : list string :=
  list_set set_order ("input_file_name" :: as_list key_columns).

(** [order_by] after the defaulting of lines 97-100. *)
Definition order_by_columns (order_by : option StrOrList) : list string :=
  if truthy_opt_keys order_by
  then match order_by with
       | Some k => as_list k
       | None => ["input_file_name"]
       end
  else ["input_file_name"].

Definition order_by_clause (order_by : list string) : string :=
  Py.join ", "
    ((fun col => col +:+ " DESC")
       <$> filter (fun col => col ∉ ["input_file_name"])
                  ("input_file_name" :: order_by)).

Definition recent_data_query (key_columns : list string) (order_by_clause : string)
    : string :=
  Py.nl +:+ "                    CREATE OR REPLACE TEMPORARY VIEW temp_recent_data AS" +:+
  Py.nl +:+ "                    SELECT *" +:+
  Py.nl +:+ "                    FROM (" +:+
  Py.nl +:+ "                        SELECT t.*, ROW_NUMBER() OVER (PARTITION BY " +:+
            Py.join ", " key_columns +:+ " ORDER BY " +:+ order_by_clause +:+
            ") AS rnr" +:+
  Py.nl +:+ "                        FROM temp_original_data t" +:+
  Py.nl +:+ "                    ) x" +:+
  Py.nl +:+ "                    WHERE rnr = 1" +:+
  Py.nl +:+ "                ".

Definition _handle_multiple_files (self : DataQualityManager)
    (spark : SparkSession) (df : DataFrame) (key_columns : StrOrList)
    (order_by : option StrOrList) (use_sql : bool) : M DataFrame :=
  emit (Enter HandlingMultipleFiles) ;;;
  let key_columns := partition_columns key_columns in
  let order_by := order_by_columns order_by in
  let order_by_clause := order_by_clause order_by in
  _log_block self "Handling Multiple Files"
    ["Handling multiple files using key columns: " +:+ Py.repr_list key_columns +:+
     " and ordering by: " +:+ Py.repr_list order_by] ;;;
  try_except_class AnalysisException
    (df <- (if use_sql then
              createOrReplaceTempView df "temp_original_data" ;;;
              let recent_data_query := recent_data_query key_columns order_by_clause in
              let formatted_query := _format_sql_query recent_data_query in
              _log_message self
                ("The following SQL query is used to handle multiple files:" +:+
                 Py.nl +:+ formatted_query +:+ Py.nl) "info" ;;;
              spark_sql spark recent_data_query ;;;
              recent <- spark_sql spark "SELECT * FROM temp_recent_data" ;;
              ret (api_drop api ["rnr"] recent)
            else
              numbered <- lift (api_withColumn_row_number api "rnr" key_columns
                                  order_by df) ;;
              first <- lift (api_filter_eq api numbered "rnr" 1) ;;
              let df := api_drop api ["rnr"] first in
              _log_message self
                ("DataFrame operation used: Applied row_number() with partition on " +:+
                 Py.repr_list key_columns +:+ " and ordered by " +:+
                 order_by_clause +:+ ".") "info" ;;;
              ret df) ;;
     _log_message self "Handling multiple files completed successfully." "info" ;;;
     ret df)
    (fun e => _raise_error self ("Failed to handle multiple files: " +:+ str_exn e)).

(** The signature of [_handle_multiple_files] after [self]. *)
Definition handle_multiple_files_signature : Signature :=
  [ ("spark", None); ("df", None); ("key_columns", None);
    ("order_by", Some PyNone); ("use_sql", Some (PyBool false)) ].

(** A call [self._handle_multiple_files(args, kwargs)]: the arguments are
    bound first; a failed binding raises [TypeError] before the body
    starts.  Bound values of another type than the body expects do not
    occur at the call sites of this class; the model raises [TypeError]
    for them. *)
Definition call_handle_multiple_files (self : DataQualityManager)
    (args : list PyVal) (kwargs : list (string * PyVal)) : M DataFrame :=
  match py_bind "DataQualityManager._handle_multiple_files"
                handle_multiple_files_signature args kwargs with
  | Raises e => raise e
  | Returns [PySparkSession spark; PyDataFrame df; key_columns; order_by;
             PyBool use_sql] =>
      match key_columns, order_by with
      | PyStr s, PyNone => _handle_multiple_files self spark df (Str s) None use_sql
      | PyStr s, PyStr o => _handle_multiple_files self spark df (Str s) (Some (Str o)) use_sql
      | PyStr s, PyList o => _handle_multiple_files self spark df (Str s) (Some (List o)) use_sql
      | PyList l, PyNone => _handle_multiple_files self spark df (List l) None use_sql
      | PyList l, PyStr o => _handle_multiple_files self spark df (List l) (Some (Str o)) use_sql
      | PyList l, PyList o => _handle_multiple_files self spark df (List l) (Some (List o)) use_sql
      | _, _ => raise (mkExn TypeError "unsupported argument type")
      end
  | Returns _ => raise (mkExn TypeError "unsupported argument type")
  end.

(** *** The checks *)

Definition duplicate_check_query (key_columns : list string) : string :=
  Py.nl +:+ "                    SELECT " +:+
  Py.nl +:+ "                        COUNT(*) AS duplicate_count, " +:+
            Py.join ", " key_columns +:+
  Py.nl +:+ "                    FROM temp_view_check_duplicates" +:+
  Py.nl +:+ "                    GROUP BY " +:+ Py.join ", " key_columns +:+
  Py.nl +:+ "                    HAVING COUNT(*) > 1" +:+
  Py.nl +:+ "                ".

(** [df.groupBy(key_columns).count().filter(F.col('count') > 1)] *)
Definition duplicates_df (df : DataFrame) (key_columns : list string)
    : Outcome DataFrame :=
  match api_groupBy_count api df key_columns with
  | Raises e => Raises e
  | Returns grouped => api_filter_gt api grouped "count" 1
  end.

Definition _check_for_duplicates (self : DataQualityManager)
    (spark : SparkSession) (df : DataFrame) (key_columns : StrOrList)
    (use_sql : bool) : M unit :=
  emit (Enter DuplicateCheck) ;;;
  let key_columns := as_list key_columns in
  _log_block self "Duplicate Check"
    ["Checking for duplicates using key columns: " +:+ Py.repr_list key_columns] ;;;
  try_except
    (duplicate_count <-
       (if use_sql then
          createOrReplaceTempView df "temp_view_check_duplicates" ;;;
          let duplicate_check_query := duplicate_check_query key_columns in
          let formatted_query := _format_sql_query duplicate_check_query in
          _log_message self
            ("The following SQL query is used to check for duplicates:" +:+
             Py.nl +:+ formatted_query +:+ Py.nl) "info" ;;;
          duplicates_df <- spark_sql spark duplicate_check_query ;;
          lift (api_count api duplicates_df)
        else
          duplicates_df <- lift (duplicates_df df key_columns) ;;
          _log_message self
            ("DataFrame operation used: GroupBy on " +:+ Py.repr_list key_columns +:+
             " and filter where count > 1.") "info" ;;;
          lift (api_count api duplicates_df)) ;;
     if bool_decide (0 < duplicate_count)%nat then
       _raise_error self
         ("Duplicate check failed: Found " +:+ pretty duplicate_count +:+
          " duplicates based on key columns " +:+ Py.repr_list key_columns +:+ ".")
     else
       _log_message self "Duplicate check passed: No duplicates found." "info")
    (fun e => _raise_error self ("Failed to check for duplicates: " +:+ str_exn e)).

Definition _check_for_nulls (self : DataQualityManager) (df : DataFrame)
    (critical_columns : list string) : M unit :=
  emit (Enter NullValuesCheck) ;;;
  _log_block self "Null Values Check"
    ["Checking for null values in columns: " +:+ Py.repr_list critical_columns] ;;;
  for_each critical_columns (fun col =>
    try_except
      (nulls <- lift (api_filter_isNull api df col) ;;
       null_count <- lift (api_count api nulls) ;;
       _log_message self
         ("DataFrame operation used: F.col(" +:+ Py.repr_str col +:+ ").isNull()")
         "info" ;;;
       if bool_decide (0 < null_count)%nat then
         _raise_error self
           ("Null values check failed: Column " +:+ Py.repr_str col +:+ " has " +:+
            pretty null_count +:+ " missing values.")
       else
         _log_message self
           ("Column " +:+ Py.repr_str col +:+ " has no missing values.") "info")
      (fun e =>
         _raise_error self
           ("Failed to check for null values in column " +:+ Py.repr_str col +:+
            ": " +:+ str_exn e))).

Definition _check_value_ranges (self : DataQualityManager) (df : DataFrame)
    (column_ranges : list (string * (Number * Number))) : M unit :=
  emit (Enter ValueRangeCheck) ;;;
  _log_block self "Value Range Check"
    ["Checking value ranges for columns: " +:+ Py.repr_list (fst <$> column_ranges)] ;;;
  for_each column_ranges (fun '(col, (min_val, max_val)) =>
    try_except
      (outside <- lift (api_filter_out_of_range api df col min_val max_val) ;;
       out_of_range_count <- lift (api_count api outside) ;;
       _log_message self
         ("DataFrame operation used: F.col(" +:+ Py.repr_str col +:+ ") < " +:+
          str_number min_val +:+ " or F.col(" +:+ Py.repr_str col +:+ ") > " +:+
          str_number max_val) "info" ;;;
       if bool_decide (0 < out_of_range_count)%nat then
         _raise_error self
           ("Value range check failed: Column " +:+ Py.repr_str col +:+ " has " +:+
            pretty out_of_range_count +:+ " values out of range [" +:+
            str_number min_val +:+ ", " +:+ str_number max_val +:+ "].")
       else
         _log_message self
           ("Column " +:+ Py.repr_str col +:+
            " values are within the specified range [" +:+
            str_number min_val +:+ ", " +:+ str_number max_val +:+ "].") "info")
      (fun e =>
         _raise_error self
           ("Failed to check value ranges for column " +:+ Py.repr_str col +:+
            ": " +:+ str_exn e))).

Definition _check_referential_integrity (self : DataQualityManager)
    (df reference_df : DataFrame) (join_column : string) : M unit :=
  emit (Enter ReferentialIntegrityCheck) ;;;
  _log_block self "Referential Integrity Check"
    ["Checking referential integrity on column " +:+ Py.repr_str join_column] ;;;
  try_except
    (unmatched <- lift (api_join_left_anti api df reference_df join_column) ;;
     unmatched_count <- lift (api_count api unmatched) ;;
     _log_message self
       ("DataFrame operation used: df.join(reference_df, df[" +:+
        Py.repr_str join_column +:+ "] == reference_df[" +:+
        Py.repr_str join_column +:+ "], 'left_anti')") "info" ;;;
     if bool_decide (0 < unmatched_count)%nat then
       _raise_error self
         ("Referential integrity check failed: " +:+ pretty unmatched_count +:+
          " records in " +:+ Py.repr_str join_column +:+
          " do not match the reference data.")
     else
       _log_message self
         ("Referential integrity check passed for column " +:+
          Py.repr_str join_column +:+ ".") "info")
    (fun e =>
       _raise_error self
         ("Failed to check referential integrity for column " +:+
          Py.repr_str join_column +:+ ": " +:+ str_exn e)).

Definition _check_consistency_between_fields (self : DataQualityManager)
    (df : DataFrame) (consistency_pairs : list (string * string)) : M unit :=
  emit (Enter FieldConsistencyCheck) ;;;
  _log_block self "Field Consistency Check"
    ["Checking consistency between field pairs: " +:+ Py.repr_pairs consistency_pairs] ;;;
  for_each consistency_pairs (fun '(col1, col2) =>
    try_except
      (inconsistent <- lift (api_filter_gt_columns api df col1 col2) ;;
       inconsistency_count <- lift (api_count api inconsistent) ;;
       _log_message self
         ("DataFrame operation used: F.col(" +:+ Py.repr_str col1 +:+
          ") > F.col(" +:+ Py.repr_str col2 +:+ ")") "info" ;;;
       if bool_decide (0 < inconsistency_count)%nat then
         _raise_error self
           ("Consistency check failed: " +:+ pretty inconsistency_count +:+
            " records have " +:+ Py.repr_str col1 +:+ " greater than " +:+
            Py.repr_str col2 +:+ ".")
       else
         _log_message self
           ("Consistency check passed for " +:+ Py.repr_str col1 +:+ " and " +:+
            Py.repr_str col2 +:+ ".") "info")
      (fun e =>
         _raise_error self
           ("Failed to check consistency between fields " +:+ Py.repr_str col1 +:+
            " and " +:+ Py.repr_str col2 +:+ ": " +:+ str_exn e))).

(** *** The two drivers *)

(** The column exclusion, written the same way in both drivers. *)
Definition exclude_columns (self : DataQualityManager) (df : DataFrame)
    (columns_to_exclude : option (list string)) : M DataFrame :=
  if truthy_list columns_to_exclude then
    emit (Enter ExcludeColumns) ;;;
    let df := api_drop api (default [] columns_to_exclude) df in
    _log_block self "Excluding Columns"
      ["Excluded columns: " +:+ Py.repr_list (default [] columns_to_exclude)] ;;;
    ret df
  else ret df.

Definition temp_view_name : string := "cleaned_data_view".

Definition run_all_checks (self : DataQualityManager) (spark : SparkSession)
    (df : DataFrame) (key_columns : list string)
    (critical_columns : option (list string))
    (column_ranges : option (list (string * (Number * Number))))
    (reference_df : option DataFrame) (join_column : option string)
    (consistency_pairs : option (list (string * string)))
    (columns_to_exclude : option (list string)) (use_sql : bool) : M string :=
  try_except
    (df <- call_handle_multiple_files self
             [PyDataFrame df; PyList key_columns] [("use_sql", PyBool use_sql)] ;;
     _check_for_duplicates self spark df (List key_columns) use_sql ;;;
     when (truthy_list critical_columns)
          (_check_for_nulls self df (default [] critical_columns)) ;;;
     when (truthy_list column_ranges)
          (_check_value_ranges self df (default [] column_ranges)) ;;;
     when (truthy_df reference_df && truthy_str join_column)
          (_check_referential_integrity self df
             (default (mkDataFrame [] []) reference_df)
             (default EmptyString join_column)) ;;;
     when (truthy_list consistency_pairs)
          (_check_consistency_between_fields self df (default [] consistency_pairs)) ;;;
     df <- exclude_columns self df columns_to_exclude ;;
     createOrReplaceTempView df temp_view_name ;;;
     _log_block self "Finishing Results"
       ["New temporary view " +:+ Py.repr_str temp_view_name +:+ " created.";
        "All quality checks completed successfully."] ;;;
     ret temp_view_name)
    (fun e => _raise_error self ("Data quality checks failed: " +:+ str_exn e)).

(** Lines 309-327 of [perform_data_quality_checks]: the start of the
    process is logged, then the list of checks to perform. *)
Definition announce_checks (self : DataQualityManager) (key_columns : StrOrList)
    (critical_columns : option (list string))
    (column_ranges : option (list (string * (Number * Number))))
    (reference_df : option DataFrame) (join_column : option string)
    (consistency_pairs : option (list (string * string)))
    (columns_to_exclude : option (list string)) : M unit :=
  emit (LogStart "Data Quality Check Process") ;;;
  let checks_to_perform :=
    (if truthy_keys key_columns then ["Handling Multiple Files"] else []) ++
    (if truthy_list critical_columns then ["Null Values Check"] else []) ++
    (if truthy_list column_ranges then ["Value Range Check"] else []) ++
    (if truthy_df reference_df && truthy_str join_column
     then ["Referential Integrity Check"] else []) ++
    (if truthy_list consistency_pairs then ["Field Consistency Check"] else []) ++
    (if truthy_list columns_to_exclude then ["Exclude Columns"] else []) in
  _log_block self "Quality Checks to Perform"
    ["Checks to be performed: " +:+ Py.join ", " checks_to_perform].

Definition perform_data_quality_checks (self : DataQualityManager)
    (spark : SparkSession) (df : DataFrame) (key_columns : StrOrList)
    (critical_columns : option (list string))
    (column_ranges : option (list (string * (Number * Number))))
    (reference_df : option DataFrame) (join_column : option string)
    (consistency_pairs : option (list (string * string)))
    (columns_to_exclude : option (list string))
    (order_by : option StrOrList) (use_sql : bool) : M string :=
  announce_checks self key_columns critical_columns column_ranges reference_df
    join_column consistency_pairs columns_to_exclude ;;;
  try_except
    (df <- (if truthy_keys key_columns then
              call_handle_multiple_files self
                [PySparkSession spark; PyDataFrame df; of_keys key_columns]
                [("order_by", of_opt_keys order_by); ("use_sql", PyBool use_sql)]
            else ret df) ;;
     _check_for_duplicates self spark df key_columns use_sql ;;;
     when (truthy_list critical_columns)
          (_check_for_nulls self df (default [] critical_columns)) ;;;
     when (truthy_list column_ranges)
          (_check_value_ranges self df (default [] column_ranges)) ;;;
     when (truthy_df reference_df && truthy_str join_column)
          (_check_referential_integrity self df
             (default (mkDataFrame [] []) reference_df)
             (default EmptyString join_column)) ;;;
     when (truthy_list consistency_pairs)
          (_check_consistency_between_fields self df (default [] consistency_pairs)) ;;;
     df <- exclude_columns self df columns_to_exclude ;;
     createOrReplaceTempView df temp_view_name ;;;
     _log_block self "Finishing Results"
       ["New temporary view " +:+ Py.repr_str temp_view_name +:+ " created.";
        "All quality checks completed successfully."] ;;;
     emit (LogEnd "Data Quality Check Process" true
             (Some "Proceeding with notebook execution.")) ;;;
     ret temp_view_name)
    (fun e =>
       emit (LogEnd "Data Quality Check Process" false None) ;;;
       _raise_error self ("Data quality checks failed: " +:+ str_exn e)).

End DataQuality.

Arguments _list_checks_to_perform {Number}.
Arguments _handle_multiple_files sqlparse_format {Number}.
Arguments call_handle_multiple_files sqlparse_format {Number}.
Arguments duplicates_df {Number}.
Arguments _check_for_duplicates sqlparse_format {Number}.
Arguments _check_for_nulls {Number}.
Arguments _check_value_ranges {Number}.
Arguments _check_referential_integrity {Number}.
Arguments _check_consistency_between_fields {Number}.
Arguments exclude_columns {Number}.
Arguments run_all_checks sqlparse_format {Number}.
Arguments announce_checks {Number}.
Arguments perform_data_quality_checks sqlparse_format {Number}.

(* ===================================================================== *)
(** * Vocabulary of the statements *)
(* ===================================================================== *)

(** ** Observations on event lists *)

(** The query texts handed to [spark.sql], the frames handed to [display]
    and the validation passes started, each in program order. *)
Definition sql_queries (evs : list Event) : list string :=
  omap (fun ev => match ev with SqlQuery q => Some q | _ => None end) evs.
Definition displayed (evs : list Event) : list DataFrame :=
  omap (fun ev => match ev with Display df => Some df | _ => None end) evs.
Definition passes (evs : list Event) : list Pass :=
  omap (fun ev => match ev with Enter p => Some p | _ => None end) evs.

(** An engine that accepts every statement and answers with one fixed
    frame, and an empty world; used to run the code on concrete inputs. *)
Definition constant_engine (answer : DataFrame) : SparkSession :=
  mkSpark (fun views _ => Returns (views, answer)).
Definition failing_engine (e : exn) : SparkSession :=
  mkSpark (fun _ _ => Raises e).
Definition empty_world : World := mkWorld ∅ [].

(** ** Strings *)

(** [k] neither starts nor ends with white space. *)
Definition trimmed (k : string) : Prop :=
  match head (Py.chars k) with Some c => Py.isspace c = false | None => True end /\
  match last (Py.chars k) with Some c => Py.isspace c = false | None => True end.

(** [k] is [c] without the white space around it. *)
Definition stripped_of (c k : string) : Prop :=
  exists l r, c = l +:+ k +:+ r /\ Py.blank l /\ Py.blank r /\ trimmed k.

(** ** What the rules look for, in terms of rows and cells *)

Definition raises {A} (o : Outcome A) : Prop := exists e, o = Raises e.

(** Some row holds NULL in column [c]. *)
Definition has_null (df : DataFrame) (c : string) : Prop :=
  exists i r, DF.resolve df c = Returns i /\ r ∈ rows df /\ DF.at_ r i = None.

(** Some row holds in column [c] a value below [lo] or above [hi]. *)
Definition has_out_of_range (df : DataFrame) (c : string) (lo hi : Z) : Prop :=
  exists i r v, DF.resolve df c = Returns i /\ r ∈ rows df /\
                DF.at_ r i = Some v /\ (v < lo \/ hi < v).

(** Two rows, at different positions, agree on all key columns. *)
Definition has_duplicate_key (df : DataFrame) (keys : list string) : Prop :=
  exists ixs i j r1 r2,
    DF.resolve_all df keys = Returns ixs /\ i <> j /\
    rows df !! i = Some r1 /\ rows df !! j = Some r2 /\
    DF.project ixs r1 = DF.project ixs r2.

(** Some row of [df] has in column [c] no value that a row of [ref] has
    in its column [c]. *)
Definition has_unmatched (df ref : DataFrame) (c : string) : Prop :=
  exists i j r,
    DF.resolve df c = Returns i /\ DF.resolve ref c = Returns j /\ r ∈ rows df /\
    forall r' v, r' ∈ rows ref -> DF.at_ r i = Some v -> DF.at_ r' j <> Some v.

(** Some row holds in [c1] a value greater than the one in [c2]. *)
Definition has_inconsistent (df : DataFrame) (c1 c2 : string) : Prop :=
  exists i j r a b,
    DF.resolve df c1 = Returns i /\ DF.resolve df c2 = Returns j /\ r ∈ rows df /\
    DF.at_ r i = Some a /\ DF.at_ r j = Some b /\ b < a.

(** In the reference engine: the query fails, or its answer has a row. *)
Definition fails_or_has_rows (o : Outcome DataFrame) : Prop :=
  raises o \/ exists d, o = Returns d /\ (0 < DF.count d)%nat.

(** ** What the engine answers to a check *)

(** [query.count()]: the count of the frame a query came to, or the
    exception of the query or of the count. *)
Definition counted {Number} (api : DataFrameAPI Number) (o : Outcome DataFrame)
    : Outcome nat :=
  match o with
  | Returns d => api_count api d
  | Raises e => Raises e
  end.

(** The engine raises, or counts at least one row. *)
Definition fails_or_finds (o : Outcome nat) : Prop :=
  raises o \/ exists n, o = Returns n /\ (0 < n)%nat.

(** ** Outcomes of the passes *)

(** What one threshold test comes to: the engine's failure or a positive
    count is a [RuntimeError], a count of zero passes. *)
Definition threshold (o : Outcome nat) (failed : exn -> string)
    (found : nat -> string) : Outcome unit :=
  match o with
  | Raises e => Raises (mkExn RuntimeError (failed e))
  | Returns n =>
      if bool_decide (0 < n)%nat
      then Raises (mkExn RuntimeError (failed (mkExn RuntimeError (found n))))
      else Returns tt
  end.

(** The first exception of a loop, if any iteration raises. *)
Definition first_raise (os : list (Outcome unit)) : Outcome unit :=
  foldr (fun o rest => match o with Raises e => Raises e | Returns _ => rest end)
        (Returns tt) os.

(** The rows kept by the filter on row number 1: the first row of each
    partition in sort order. *)
Definition first_rows (p o : list nat) (rs : list row) : list row :=
  omap (fun k => head (DF.sort_desc o (filter (fun r => DF.project p r = k) rs)))
       (remove_dups (DF.project p <$> rs)).

(** The passes a run goes through when none of them raises, in order. *)
Definition expected_passes {Number} (key_columns : StrOrList)
    (critical_columns : option (list string))
    (column_ranges : option (list (string * (Number * Number))))
    (reference_df : option DataFrame) (join_column : option string)
    (consistency_pairs : option (list (string * string)))
    (columns_to_exclude : option (list string)) : list Pass :=
  (if truthy_keys key_columns then [HandlingMultipleFiles] else []) ++
  [DuplicateCheck] ++
  (if truthy_list critical_columns then [NullValuesCheck] else []) ++
  (if truthy_list column_ranges then [ValueRangeCheck] else []) ++
  (if truthy_df reference_df && truthy_str join_column
   then [ReferentialIntegrityCheck] else []) ++
  (if truthy_list consistency_pairs then [FieldConsistencyCheck] else []) ++
  (if truthy_list columns_to_exclude then [ExcludeColumns] else []).

(** ** Exceptions that have been logged *)

(** Whatever [m] raises is a [RuntimeError] whose message is the last
    thing logged, at level error. *)
Definition raises_logged {A} (m : M A) : Prop :=
  forall w e, (m w).2 = Raises e ->
    exn_class e = RuntimeError /\
    exists before, events (m w).1 = before ++ [LogMessage (exn_msg e) "error"].

(** ** Runs that stay away from the engine *)

(** The views are as before and no statement has been handed to the
    engine in between. *)
Definition untouched (w w' : World) : Prop :=
  catalog w' = catalog w /\ sql_queries (events w') = sql_queries (events w).

(** [m] never reaches the session, whatever the world it starts in. *)
Definition offline {A} (m : M A) : Prop := forall w, untouched w (m w).1.

(** ** Concrete inputs *)

(** A formatter, frames and an engine failure to run the code on. *)
Definition plain_format : string -> string := fun query => query.

Definition connection_lost : exn := mkExn EngineError "connection lost".

(** The key 7 arrives in two files. *)
Definition two_files : DataFrame :=
  mkDataFrame ["input_file_name"; "id"] [[Some 1; Some 7]; [Some 2; Some 7]].

(** The key 7 arrives twice in file 1 and once in file 2. *)
Definition arrivals : DataFrame :=
  mkDataFrame ["input_file_name"; "id"; "amount"]
    [[Some 1; Some 7; Some 5]; [Some 1; Some 7; Some 9]; [Some 2; Some 7; Some 3]].

(** A frame without a column [name]. *)
Definition ids_only : DataFrame := mkDataFrame ["id"] [[Some 1]; [Some 2]].

Definition orders : DataFrame :=
  mkDataFrame ["input_file_name"; "id"; "amount"; "start"; "end"; "tmp"]
    [ [Some 1; Some 10; Some 5; Some 1; Some 2; Some 0];
      [Some 1; Some 10; Some 7; Some 1; Some 3; Some 0];
      [Some 2; Some 11; Some 6; Some 2; Some 2; None] ].




(** The history of a table at version 41, an engine that answers the
    statements starting with a given text by a given frame and hands the
    others to another engine, and a writer module. *)
Definition table_history : DataFrame :=
  mkDataFrame ["version"; "timestamp"] [[Some 41; Some 1700000000]].

Definition answering (start : string) (answer : DataFrame)
    (otherwise : SparkSession) : SparkSession :=
  mkSpark (fun views query =>
             if String.prefix start query then Returns (views, answer)
             else sql_engine otherwise views query).

Definition mounted_path (environment dataset : string) : M string :=
  ret ("/mnt/" +:+ environment +:+ "/" +:+ dataset).

Definition named_table (environment dataset : string) : M (string * string) :=
  ret (environment, dataset).

(* ===================================================================== *)
(** * Properties of merge_management.py *)
(* ===================================================================== *)

Ltac run :=
  unfold bind, try_except_class, try_except, ret, raise, lift, when, emit,
         write_message, spark_sql, display, createOrReplaceTempView in *;
  simpl in *.

(** C3.  For every integer pre-merge version [v]: when the engine executes
    the MERGE statement without raising,
    [execute_merge_and_get_post_version] returns exactly [v + 1]; the
    session then holds the views the engine left. *)
Theorem execute_merge_returns_successor
    (spark : SparkSession) (database_name table_name merge_sql : string)
    (v : Z) (helper : option Helper) (w : World)
    (views : gmap string DataFrame) (answer : DataFrame) :
  sql_engine spark (catalog w) merge_sql = Returns (views, answer) ->
  let out := execute_merge_and_get_post_version spark database_name table_name
               merge_sql (Some v) helper w in
  out.2 = Returns (v + 1) /\ catalog out.1 = views /\
  sql_queries (events out.1) = sql_queries (events w) ++ [merge_sql].
Proof.
  intros Hsql. unfold execute_merge_and_get_post_version. run.
  rewrite Hsql. unfold sql_queries.
  destruct helper; simpl; rewrite ?omap_app; simpl; rewrite ?app_nil_r; done.
Qed.

Lemma execute_merge_returns_successor_witness :
  let out := execute_merge_and_get_post_version
               (constant_engine (mkDataFrame [] [])) "sales" "orders"
               "MERGE INTO sales.orders AS t USING v AS s ON s.id = t.id"
               (Some 41) (Some LoggingHelper) empty_world in
  out.2 = Returns 42 /\ catalog out.1 = ∅ /\
  sql_queries (events out.1) =
    ["MERGE INTO sales.orders AS t USING v AS s ON s.id = t.id"].
Proof.
  apply (execute_merge_returns_successor
           (constant_engine (mkDataFrame [] [])) "sales" "orders"
           "MERGE INTO sales.orders AS t USING v AS s ON s.id = t.id"
           41 (Some LoggingHelper) empty_world ∅ (mkDataFrame [] [])).
  reflexivity.
Defined.

(** C8.  For every pair of versions [p] (before) and [q] (after),
    [display_newly_merged_data] hands exactly one query to the engine: the
    whole table at VERSION AS OF [q], EXCEPT the whole table at VERSION AS
    OF [p].  When the engine answers, the first 10 rows of the answer (so
    at most 10 rows) are displayed and nothing else; when it raises,
    nothing is displayed. *)
Theorem display_newly_merged_data_query
    (spark : SparkSession) (database_name table_name : string)
    (p q : Z) (helper : option Helper) (w : World) :
  let query :=
    Py.nl +:+ "    SELECT * FROM " +:+ database_name +:+ "." +:+ table_name +:+
              " VERSION AS OF " +:+ pretty q +:+
    Py.nl +:+ "    EXCEPT" +:+
    Py.nl +:+ "    SELECT * FROM " +:+ database_name +:+ "." +:+ table_name +:+
              " VERSION AS OF " +:+ pretty p +:+
    Py.nl +:+ "    " in
  let out := display_newly_merged_data spark database_name table_name p q helper w in
  sql_queries (events out.1) = sql_queries (events w) ++ [query] /\
  match sql_engine spark (catalog w) query with
  | Returns (_, diff) =>
      out.2 = Returns tt /\
      displayed (events out.1) =
        displayed (events w) ++ [mkDataFrame (columns diff) (take 10 (rows diff))] /\
      (length (take 10 (rows diff)) <= 10)%nat
  | Raises e =>
      out.2 = Raises e /\ displayed (events out.1) = displayed (events w)
  end.
Proof.
  intros query out. subst out. unfold display_newly_merged_data.
  fold (merged_data_sql database_name table_name p q).
  change (merged_data_sql database_name table_name p q) with query.
  generalize query; clear query; intros query.
  unfold sql_queries, displayed. run.
  destruct helper; simpl;
    (destruct (sql_engine spark (catalog w) query) as [[views diff]|e]; simpl;
     rewrite ?omap_app; simpl; rewrite ?app_nil_r;
     repeat split; try done; rewrite length_take; lia).
Qed.

(** ** Strings: splitting, joining, stripping *)

Section StringFacts.

Lemma sapp_nil (s : string) : EmptyString +:+ s = s.
Proof. reflexivity. Qed.

Lemma sapp_cons (c : ascii) (s t : string) : String c s +:+ t = String c (s +:+ t).
Proof. reflexivity. Qed.

Lemma split_not_nil (sep : ascii) (s : string) : Py.split sep s <> [].
Proof.
  induction s as [|c s IH]; simpl; [done|].
  case_decide; [done|]. by destruct (Py.split sep s).
Qed.

(** A piece without separator is returned whole. *)
Lemma split_piece (sep : ascii) (p : string) :
  sep ∉ Py.chars p -> Py.split sep p = [p].
Proof.
  induction p as [|c p IH]; simpl; [done|].
  intros Hn. apply not_elem_of_cons in Hn as [Hc Hp].
  case_decide; [congruence|]. by rewrite (IH Hp).
Qed.

(** A piece without separator, followed by the separator, is split off. *)
Lemma split_piece_sep (sep : ascii) (p rest : string) :
  sep ∉ Py.chars p ->
  Py.split sep (p +:+ String sep rest) = p :: Py.split sep rest.
Proof.
  induction p as [|c p IH]; intros Hn.
  - rewrite sapp_nil. simpl. by case_decide.
  - apply not_elem_of_cons in Hn as [Hc Hp].
    rewrite sapp_cons. simpl. case_decide; [congruence|]. by rewrite (IH Hp).
Qed.

(** [split] undoes [join]: the comma-free pieces of a joined string are
    the pieces it was joined from. *)
Lemma split_join (sep : ascii) (pieces : list string) :
  pieces <> [] ->
  Forall (fun p => sep ∉ Py.chars p) pieces ->
  Py.split sep (Py.join (String sep EmptyString) pieces) = pieces.
Proof.
  induction pieces as [|p [|p' pieces] IH]; intros Hne Hall; [done| |].
  - simpl. apply split_piece. by inversion Hall.
  - inversion Hall as [|?? Hp Hrest]; subst.
    change (Py.join (String sep EmptyString) (p :: p' :: pieces))
      with (p +:+ String sep EmptyString +:+ Py.join (String sep EmptyString) (p' :: pieces)).
    rewrite sapp_cons, sapp_nil, split_piece_sep by done.
    f_equal. by apply IH.
Qed.

(** [join] undoes [split]. *)
Lemma join_split (sep : ascii) (s : string) :
  Py.join (String sep EmptyString) (Py.split sep s) = s.
Proof.
  induction s as [|c s IH]; simpl; [done|].
  case_decide as Hc.
  - subst c. pose proof (split_not_nil sep s) as Hne.
    destruct (Py.split sep s) as [|p ps] eqn:E; [done|].
    change (Py.join (String sep EmptyString) (EmptyString :: p :: ps))
      with (EmptyString +:+ String sep EmptyString +:+
            Py.join (String sep EmptyString) (p :: ps)).
    by rewrite IH.
  - pose proof (split_not_nil sep s) as Hne.
    destruct (Py.split sep s) as [|p ps] eqn:E; [done|].
    destruct ps as [|p' ps].
    + simpl in *. by rewrite IH.
    + change (Py.join (String sep EmptyString) (String c p :: p' :: ps))
        with (String c p +:+ String sep EmptyString +:+
              Py.join (String sep EmptyString) (p' :: ps)).
      rewrite sapp_cons. f_equal. exact IH.
Qed.

Lemma split_no_sep (sep : ascii) (s : string) :
  Forall (fun p => sep ∉ Py.chars p) (Py.split sep s).
Proof.
  induction s as [|c s IH]; simpl.
  - repeat constructor. simpl. apply not_elem_of_nil.
  - case_decide.
    + constructor; [simpl; apply not_elem_of_nil | done].
    + pose proof (split_not_nil sep s) as Hne.
      destruct (Py.split sep s) as [|p ps]; [done|].
      inversion IH; subst. constructor; [|done].
      simpl. apply not_elem_of_cons. split; [congruence | done].
Qed.

(** *** strip *)

Lemma lstrip_blank (l s : string) : Py.blank l -> Py.lstrip (l +:+ s) = Py.lstrip s.
Proof.
  induction l as [|c l IH]; intros Hb; [done|].
  inversion Hb as [|?? Hc Hl]; subst. rewrite sapp_cons. simpl. rewrite Hc.
  by apply IH.
Qed.

Lemma lstrip_head (s : string) :
  match head (Py.chars s) with Some c => Py.isspace c = false | None => True end ->
  Py.lstrip s = s.
Proof. destruct s as [|c s]; simpl; [done|]. by intros ->. Qed.

Lemma rstrip_blank_only (r : string) : Py.blank r -> Py.rstrip r = EmptyString.
Proof.
  induction r as [|c r IH]; intros Hb; [done|].
  inversion Hb as [|?? Hc Hr]; subst. simpl. rewrite (IH Hr). by rewrite Hc.
Qed.

Lemma rstrip_blank (k r : string) : Py.blank r -> Py.rstrip (k +:+ r) = Py.rstrip k.
Proof.
  intros Hb. induction k as [|c k IH].
  - rewrite sapp_nil. by apply rstrip_blank_only.
  - rewrite sapp_cons. simpl. by rewrite IH.
Qed.

Lemma rstrip_last (k : string) :
  match last (Py.chars k) with Some c => Py.isspace c = false | None => True end ->
  Py.rstrip k = k.
Proof.
  induction k as [|c k IH]; [done|].
  simpl. destruct k as [|d k].
  - simpl. by intros ->.
  - intros H. rewrite IH by exact H. done.
Qed.

(** [strip] computes the stripped form, which is unique. *)
Lemma strip_unique (c k : string) : stripped_of c k -> Py.strip c = k.
Proof.
  intros (l & r & -> & Hl & Hr & Hh & Ht). unfold Py.strip.
  rewrite lstrip_blank by done.
  destruct k as [|a k].
  - rewrite sapp_nil in *. clear Hh Ht.
    induction r as [|b r IH]; [done|].
    inversion Hr as [|?? Hb Hr']; subst. simpl. rewrite Hb. by apply IH.
  - rewrite lstrip_head.
    + rewrite rstrip_blank by done. by apply rstrip_last.
    + rewrite sapp_cons. simpl. exact Hh.
Qed.

Lemma lstrip_split (s : string) :
  exists l, s = l +:+ Py.lstrip s /\ Py.blank l /\
    match head (Py.chars (Py.lstrip s)) with
    | Some c => Py.isspace c = false | None => True end.
Proof.
  induction s as [|c s (l & Hs & Hl & Hh)].
  - exists EmptyString. split; [done|]. split; [constructor|done].
  - simpl. destruct (Py.isspace c) eqn:Hc.
    + exists (String c l). rewrite sapp_cons, <- Hs.
      split; [done|]. split; [by constructor|done].
    + exists EmptyString. split; [done|]. split; [constructor|]. simpl. done.
Qed.

Lemma rstrip_split (s : string) :
  exists r, s = Py.rstrip s +:+ r /\ Py.blank r /\
    match last (Py.chars (Py.rstrip s)) with
    | Some c => Py.isspace c = false | None => True end.
Proof.
  induction s as [|c s (r & Hs & Hr & Ht)].
  - exists EmptyString. split; [done|]. split; [constructor|done].
  - simpl. destruct (Py.rstrip s) as [|d k] eqn:E.
    + rewrite sapp_nil in Hs. subst r.
      destruct (Py.isspace c) eqn:Hc.
      * exists (String c s). split; [done|]. split; [by constructor|done].
      * exists s. split; [done|]. split; [done|]. simpl. done.
    + exists r. rewrite sapp_cons, <- Hs. split; [done|]. split; [done|]. exact Ht.
Qed.

Lemma rstrip_head (s : string) :
  match head (Py.chars s) with Some c => Py.isspace c = false | None => True end ->
  match head (Py.chars (Py.rstrip s)) with
  | Some c => Py.isspace c = false | None => True end.
Proof.
  destruct s as [|c s]; simpl; [done|]. intros Hc.
  destruct (Py.rstrip s); [by rewrite Hc|]; done.
Qed.

(** [strip] does produce a stripped form. *)
Lemma strip_stripped (c : string) : stripped_of c (Py.strip c).
Proof.
  destruct (lstrip_split c) as (l & Hc & Hl & Hh).
  destruct (rstrip_split (Py.lstrip c)) as (r & Hk & Hr & Ht).
  exists l, r. unfold Py.strip. repeat split; try done.
  - by rewrite <- Hk.
  - by apply rstrip_head.
Qed.

End StringFacts.

(** Every [key_columns] string has its pieces and their trimmed forms:
    the hypotheses of the statement below can always be met. *)
Lemma key_pieces_exist (key_columns : string) :
  exists pieces keys,
    pieces <> [] /\
    Forall (fun p => ","%char ∉ Py.chars p) pieces /\
    Py.join "," pieces = key_columns /\
    Forall2 stripped_of pieces keys.
Proof.
  exists (Py.split ","%char key_columns), (Py.strip <$> Py.split ","%char key_columns).
  split; [apply split_not_nil|]. split; [apply split_no_sep|].
  split; [apply join_split|].
  induction (Py.split ","%char key_columns) as [|p ps IH]; constructor; [|done].
  apply strip_stripped.
Qed.

(** C7.  [generate_merge_sql] returns the MERGE INTO statement that targets
    [database.table] under the alias [t], uses the view under the alias
    [s], and whose ON condition joins with AND one equality [s.k = t.k] per
    comma-separated piece of [key_columns], [k] being the piece without the
    white space around it; the clauses are WHEN MATCHED THEN UPDATE SET *
    and WHEN NOT MATCHED THEN INSERT *.  The pieces are given here by what
    they are (comma-free strings that joined by commas give [key_columns])
    and the keys by what they are (the pieces, trimmed), not by the code
    that computes them. *)
Theorem generate_merge_sql_statement
    (view_name database_name table_name key_columns : string)
    (helper : option Helper) (w : World) (pieces keys : list string) :
  key_columns <> EmptyString ->
  pieces <> [] ->
  Forall (fun p => ","%char ∉ Py.chars p) pieces ->
  Py.join "," pieces = key_columns ->
  Forall2 stripped_of pieces keys ->
  let out := generate_merge_sql view_name database_name table_name key_columns helper w in
  catalog out.1 = catalog w /\
  out.2 = Returns
    (Py.nl +:+ "    MERGE INTO " +:+ database_name +:+ "." +:+ table_name +:+ " AS t" +:+
     Py.nl +:+ "    USING " +:+ view_name +:+ " AS s" +:+
     Py.nl +:+ "    ON " +:+
       Py.join " AND " ((fun k => "s." +:+ k +:+ " = t." +:+ k) <$> keys) +:+
     Py.nl +:+ "    WHEN MATCHED THEN" +:+
     Py.nl +:+ "      UPDATE SET *" +:+
     Py.nl +:+ "    WHEN NOT MATCHED THEN" +:+
     Py.nl +:+ "      INSERT *" +:+
     Py.nl +:+ "    ").
Proof.
  intros _ Hne Hcomma Hjoin Hkeys out. subst out.
  assert (Py.split ","%char key_columns = pieces) as Hsplit.
  { rewrite <- Hjoin. by apply split_join. }
  assert ((fun col => "s." +:+ Py.strip col +:+ " = t." +:+ Py.strip col) <$> pieces
          = (fun k => "s." +:+ k +:+ " = t." +:+ k) <$> keys) as Hmap.
  { clear -Hkeys. induction Hkeys as [|p k ps ks Hpk _ IH]; [done|].
    rewrite !fmap_cons, IH, (strip_unique p k Hpk). done. }
  unfold generate_merge_sql, match_sql, merge_sql_text. rewrite Hsplit, Hmap.
  run. by destruct helper.
Qed.

Lemma generate_merge_sql_statement_witness :
  let out := generate_merge_sql "updates" "sales" "orders" " id , region" None
               empty_world in
  catalog out.1 = catalog empty_world /\
  out.2 = Returns
    (Py.nl +:+ "    MERGE INTO sales.orders AS t" +:+
     Py.nl +:+ "    USING updates AS s" +:+
     Py.nl +:+ "    ON s.id = t.id AND s.region = t.region" +:+
     Py.nl +:+ "    WHEN MATCHED THEN" +:+
     Py.nl +:+ "      UPDATE SET *" +:+
     Py.nl +:+ "    WHEN NOT MATCHED THEN" +:+
     Py.nl +:+ "      INSERT *" +:+
     Py.nl +:+ "    ").
Proof.
  apply (generate_merge_sql_statement "updates" "sales" "orders" " id , region"
           None empty_world [" id "; " region"] ["id"; "region"]).
  - discriminate.
  - discriminate.
  - repeat constructor; apply (bool_decide_unpack _); vm_compute; exact I.
  - reflexivity.
  - repeat constructor.
    + exact (strip_stripped " id ").
    + exact (strip_stripped " region").
Defined.

(** ** The version read, the merge and the driver *)

(** X1.  When the engine answers the DESCRIBE HISTORY statement with a
    history that has a column [version] and at least one row,
    [get_pre_merge_version] returns the cell of that column in the first
    row; it hands this one statement to the engine and writes no
    message. *)
Theorem get_pre_merge_version_first_row
    (spark : SparkSession) (database_name table_name : string)
    (helper : option Helper) (w : World) (views : gmap string DataFrame)
    (history : DataFrame) (i : nat) (r : row) (rest : list row) :
  let q := "DESCRIBE HISTORY " +:+ database_name +:+ "." +:+ table_name +:+
           " LIMIT 1" in
  sql_engine spark (catalog w) q = Returns (views, history) ->
  DF.resolve history "version" = Returns i ->
  rows history = r :: rest ->
  get_pre_merge_version spark database_name table_name helper w =
  (mkWorld views (events w ++ [SqlQuery q]), Returns (DF.at_ r i)).
Proof.
  intros q Hq Hi Hrows. unfold get_pre_merge_version. fold q.
  unfold DF.select, DF.collect, py_index. run.
  rewrite Hq. simpl. rewrite Hi. simpl. rewrite Hrows. reflexivity.
Qed.

(** X2.  When the history the engine answers with has the column
    [version] but no row, [get_pre_merge_version] raises the [IndexError]
    of [collect()[0]], after writing it to the helper when there is
    one. *)
Theorem get_pre_merge_version_empty_history
    (spark : SparkSession) (database_name table_name : string)
    (helper : option Helper) (w : World) (views : gmap string DataFrame)
    (history : DataFrame) (i : nat) :
  let q := "DESCRIBE HISTORY " +:+ database_name +:+ "." +:+ table_name +:+
           " LIMIT 1" in
  sql_engine spark (catalog w) q = Returns (views, history) ->
  DF.resolve history "version" = Returns i ->
  rows history = [] ->
  get_pre_merge_version spark database_name table_name helper w =
  (mkWorld views
     (events w ++ SqlQuery q ::
      match helper with
      | Some _ => [WriteMessage
                     "Error retrieving pre-merge version: list index out of range"]
      | None => []
      end),
   Raises (mkExn IndexError "list index out of range")).
Proof.
  intros q Hq Hi Hrows. unfold get_pre_merge_version. fold q.
  unfold DF.select, DF.collect, py_index. run.
  rewrite Hq. simpl. rewrite Hi. simpl. rewrite Hrows. simpl.
  destruct helper; simpl; by rewrite <- ?app_assoc.
Qed.

(** X3.  The MERGE comes before the version arithmetic: when the version
    handed in is [None] and the engine executes the statement,
    [execute_merge_and_get_post_version] has merged (the session holds the
    views the engine left, the success message is written) and only then
    raises the [TypeError] of [None + 1]. *)
Theorem execute_merge_without_version_merges_then_raises
    (spark : SparkSession) (database_name table_name merge_sql : string)
    (helper : option Helper) (w : World) (views : gmap string DataFrame)
    (answer : DataFrame) :
  sql_engine spark (catalog w) merge_sql = Returns (views, answer) ->
  execute_merge_and_get_post_version spark database_name table_name merge_sql
    None helper w =
  (mkWorld views
     (events w ++ SqlQuery merge_sql ::
      match helper with
      | Some _ =>
          [WriteMessage "Data merged successfully.";
           WriteMessage "Error calculating post-merge version: unsupported operand type(s) for +: 'NoneType' and 'int'"]
      | None => []
      end),
   Raises (mkExn TypeError
             "unsupported operand type(s) for +: 'NoneType' and 'int'")).
Proof.
  intros Hq. unfold execute_merge_and_get_post_version, py_add_one. run.
  rewrite Hq. destruct helper; simpl; by rewrite <- ?app_assoc.
Qed.

(** X4.  A key list of white space only (or empty) is not rejected:
    [generate_merge_sql] returns the statement with the ON condition
    [s. = t.], the two column names empty. *)
Theorem generate_merge_sql_blank_key_columns
    (view_name database_name table_name key_columns : string)
    (helper : option Helper) (w : World) :
  Py.blank key_columns ->
  (generate_merge_sql view_name database_name table_name key_columns helper w).2 =
  Returns (merge_sql_text view_name database_name table_name "s. = t.").
Proof.
  intros Hb.
  assert (","%char ∉ Py.chars key_columns) as Hcomma.
  { intros Hin. unfold Py.blank in Hb. rewrite Forall_forall in Hb.
    specialize (Hb _ Hin). discriminate. }
  assert (Py.strip key_columns = EmptyString) as Hstrip.
  { apply strip_unique. exists EmptyString, key_columns.
    split; [done|]. split; [constructor|]. split; [done|]. by split. }
  unfold generate_merge_sql, match_sql.
  rewrite (split_piece _ _ Hcomma), fmap_cons, Hstrip. simpl.
  run. by destruct helper.
Qed.

Section MergeDriverFacts.

Variable get_destination_path_extended : string -> string -> M string.
Variable get_databricks_table_info_extended : string -> string -> M (string * string).

(** The destination lookup: the three names, and the three lines written
    once both writer functions have returned. *)
Lemma get_merge_destination_details_run (spark : SparkSession)
    (destination_environment source_datasetidentifier : string)
    (helper : option Helper) (w w1 w2 : World)
    (destination_path database_name table_name : string) :
  get_destination_path_extended destination_environment source_datasetidentifier w
    = (w1, Returns destination_path) ->
  get_databricks_table_info_extended destination_environment
    source_datasetidentifier w1 = (w2, Returns (database_name, table_name)) ->
  get_merge_destination_details get_destination_path_extended
    get_databricks_table_info_extended spark destination_environment
    source_datasetidentifier helper w =
  (mkWorld (catalog w2)
     (events w2 ++
      match helper with
      | Some _ => [WriteMessage ("Destination path: " +:+ destination_path);
                   WriteMessage ("Database name: " +:+ database_name);
                   WriteMessage ("Table name: " +:+ table_name)]
      | None => []
      end),
   Returns (destination_path, database_name, table_name)).
Proof.
  intros H1 H2. unfold get_merge_destination_details.
  unfold bind at 1. rewrite H1. unfold bind at 1. rewrite H2. run.
  destruct helper; simpl; rewrite <- ?app_assoc, ?app_nil_r; [done|].
  by destruct w2.
Qed.

(** X5.  [manage_data_merge], when every step succeeds: once the
    destination is known and the history gives the integer version [v],
    the engine receives exactly three statements, in this order: the
    DESCRIBE HISTORY of the table, the MERGE from the view, and the
    difference between the versions [v + 1] and [v]; the first ten rows
    of the answer to the last one are displayed, and nothing else is. *)
Theorem manage_data_merge_sequence (spark : SparkSession)
    (destination_environment source_datasetidentifier view_name key_columns : string)
    (helper : option Helper) (w w1 w2 : World)
    (destination_path database_name table_name : string)
    (views1 views2 views3 : gmap string DataFrame)
    (history answer merged : DataFrame) (i : nat) (r : row) (rest : list row)
    (v : Z) :
  let describe := "DESCRIBE HISTORY " +:+ database_name +:+ "." +:+ table_name +:+
                  " LIMIT 1" in
  let merge := merge_sql_text view_name database_name table_name
                 (match_sql key_columns) in
  let difference := merged_data_sql database_name table_name v (v + 1) in
  get_destination_path_extended destination_environment source_datasetidentifier w
    = (w1, Returns destination_path) ->
  get_databricks_table_info_extended destination_environment
    source_datasetidentifier w1 = (w2, Returns (database_name, table_name)) ->
  sql_engine spark (catalog w2) describe = Returns (views1, history) ->
  DF.resolve history "version" = Returns i ->
  rows history = r :: rest ->
  DF.at_ r i = Some v ->
  sql_engine spark views1 merge = Returns (views2, answer) ->
  sql_engine spark views2 difference = Returns (views3, merged) ->
  let out := manage_data_merge get_destination_path_extended
               get_databricks_table_info_extended spark destination_environment
               source_datasetidentifier view_name key_columns helper w in
  out.2 = Returns tt /\
  catalog out.1 = views3 /\
  sql_queries (events out.1) =
    sql_queries (events w2) ++ [describe; merge; difference] /\
  displayed (events out.1) = displayed (events w2) ++ [DF.limit 10 merged].
Proof.
  intros describe merge difference H1 H2 Hd Hi Hrows Hv Hm Hdiff out. subst out.
  unfold manage_data_merge. unfold bind.
  rewrite (get_merge_destination_details_run spark _ _ helper w w1 w2
             destination_path database_name table_name H1 H2).
  unfold get_pre_merge_version, generate_merge_sql, display_newly_merged_data,
    execute_merge_and_get_post_version, py_add_one.
  fold describe merge.
  unfold DF.select, DF.collect, py_index, sql_queries, displayed.
  clearbody describe merge. run.
  destruct helper; simpl.
  all: rewrite Hd; simpl; rewrite Hi; simpl; rewrite Hrows; simpl.
  all: rewrite Hv; simpl; rewrite Hm; simpl; fold difference; rewrite Hdiff; simpl.
  all: rewrite ?omap_app; simpl; rewrite ?app_nil_r, <- ?app_assoc.
  all: done.
Qed.

(** X6.  Without a version there is no merge: when
    [get_pre_merge_version] raises (the engine rejects DESCRIBE HISTORY,
    the history has no column [version], or it has no row),
    [manage_data_merge] raises the same exception; the DESCRIBE HISTORY
    statement is the only one the engine has received, so the MERGE was
    never executed, and nothing is displayed. *)
Theorem manage_data_merge_needs_version (spark : SparkSession)
    (destination_environment source_datasetidentifier view_name key_columns : string)
    (helper : option Helper) (w w1 w2 : World)
    (destination_path database_name table_name : string) (e : exn) :
  let describe := "DESCRIBE HISTORY " +:+ database_name +:+ "." +:+ table_name +:+
                  " LIMIT 1" in
  let found := get_merge_destination_details get_destination_path_extended
                 get_databricks_table_info_extended spark destination_environment
                 source_datasetidentifier helper w in
  get_destination_path_extended destination_environment source_datasetidentifier w
    = (w1, Returns destination_path) ->
  get_databricks_table_info_extended destination_environment
    source_datasetidentifier w1 = (w2, Returns (database_name, table_name)) ->
  (get_pre_merge_version spark database_name table_name helper found.1).2
    = Raises e ->
  let out := manage_data_merge get_destination_path_extended
               get_databricks_table_info_extended spark destination_environment
               source_datasetidentifier view_name key_columns helper w in
  out.2 = Raises e /\
  sql_queries (events out.1) = sql_queries (events w2) ++ [describe] /\
  displayed (events out.1) = displayed (events w2).
Proof.
  intros describe found H1 H2 Hpre out. subst out found.
  unfold manage_data_merge. unfold bind.
  rewrite (get_merge_destination_details_run spark _ _ helper w w1 w2
             destination_path database_name table_name H1 H2) in *.
  cbn [fst] in Hpre. revert Hpre.
  unfold get_pre_merge_version. fold describe.
  unfold DF.select, DF.collect, py_index, sql_queries, displayed.
  clearbody describe. run.
  destruct helper; simpl.
  all: destruct (sql_engine spark (catalog w2) describe) as [[views history]|e1];
    simpl.
  all: try destruct (DF.resolve history "version") as [i|e2]; simpl.
  all: try destruct (rows history) as [|r rest]; simpl.
  all: try destruct (DF.at_ r i); simpl.
  all: rewrite ?omap_app; simpl; rewrite ?app_nil_r, <- ?app_assoc.
  all: try discriminate.
  all: intros [= <-]; done.
Qed.

(** X7.  When the engine rejects the MERGE statement,
    [manage_data_merge] raises the engine's exception; the statements
    received are the DESCRIBE HISTORY and the MERGE, the difference
    between the versions is not asked for and nothing is displayed. *)
Theorem manage_data_merge_failed_merge (spark : SparkSession)
    (destination_environment source_datasetidentifier view_name key_columns : string)
    (helper : option Helper) (w w1 w2 : World)
    (destination_path database_name table_name : string)
    (views1 : gmap string DataFrame) (history : DataFrame) (i : nat) (r : row)
    (rest : list row) (e : exn) :
  let describe := "DESCRIBE HISTORY " +:+ database_name +:+ "." +:+ table_name +:+
                  " LIMIT 1" in
  let merge := merge_sql_text view_name database_name table_name
                 (match_sql key_columns) in
  get_destination_path_extended destination_environment source_datasetidentifier w
    = (w1, Returns destination_path) ->
  get_databricks_table_info_extended destination_environment
    source_datasetidentifier w1 = (w2, Returns (database_name, table_name)) ->
  sql_engine spark (catalog w2) describe = Returns (views1, history) ->
  DF.resolve history "version" = Returns i ->
  rows history = r :: rest ->
  sql_engine spark views1 merge = Raises e ->
  let out := manage_data_merge get_destination_path_extended
               get_databricks_table_info_extended spark destination_environment
               source_datasetidentifier view_name key_columns helper w in
  out.2 = Raises e /\
  catalog out.1 = views1 /\
  sql_queries (events out.1) = sql_queries (events w2) ++ [describe; merge] /\
  displayed (events out.1) = displayed (events w2).
Proof.
  intros describe merge H1 H2 Hd Hi Hrows Hm out. subst out.
  unfold manage_data_merge. unfold bind.
  rewrite (get_merge_destination_details_run spark _ _ helper w w1 w2
             destination_path database_name table_name H1 H2).
  unfold get_pre_merge_version, generate_merge_sql, display_newly_merged_data,
    execute_merge_and_get_post_version, py_add_one.
  fold describe merge.
  unfold DF.select, DF.collect, py_index, sql_queries, displayed.
  clearbody describe merge. run.
  destruct helper; simpl.
  all: rewrite Hd; simpl; rewrite Hi; simpl; rewrite Hrows; simpl.
  all: rewrite Hm; simpl.
  all: rewrite ?omap_app; simpl; rewrite ?app_nil_r, <- ?app_assoc.
  all: done.
Qed.

(** X8.  The merge is not undone by a failing display: when the engine
    has executed the MERGE and then rejects the difference between the
    versions, [manage_data_merge] raises that exception while the session
    holds the views the MERGE left; nothing is displayed. *)
Theorem manage_data_merge_failed_display (spark : SparkSession)
    (destination_environment source_datasetidentifier view_name key_columns : string)
    (helper : option Helper) (w w1 w2 : World)
    (destination_path database_name table_name : string)
    (views1 views2 : gmap string DataFrame) (history answer : DataFrame)
    (i : nat) (r : row) (rest : list row) (v : Z) (e : exn) :
  let describe := "DESCRIBE HISTORY " +:+ database_name +:+ "." +:+ table_name +:+
                  " LIMIT 1" in
  let merge := merge_sql_text view_name database_name table_name
                 (match_sql key_columns) in
  let difference := merged_data_sql database_name table_name v (v + 1) in
  get_destination_path_extended destination_environment source_datasetidentifier w
    = (w1, Returns destination_path) ->
  get_databricks_table_info_extended destination_environment
    source_datasetidentifier w1 = (w2, Returns (database_name, table_name)) ->
  sql_engine spark (catalog w2) describe = Returns (views1, history) ->
  DF.resolve history "version" = Returns i ->
  rows history = r :: rest ->
  DF.at_ r i = Some v ->
  sql_engine spark views1 merge = Returns (views2, answer) ->
  sql_engine spark views2 difference = Raises e ->
  let out := manage_data_merge get_destination_path_extended
               get_databricks_table_info_extended spark destination_environment
               source_datasetidentifier view_name key_columns helper w in
  out.2 = Raises e /\
  catalog out.1 = views2 /\
  sql_queries (events out.1) =
    sql_queries (events w2) ++ [describe; merge; difference] /\
  displayed (events out.1) = displayed (events w2).
Proof.
  intros describe merge difference H1 H2 Hd Hi Hrows Hv Hm Hdiff out. subst out.
  unfold manage_data_merge. unfold bind.
  rewrite (get_merge_destination_details_run spark _ _ helper w w1 w2
             destination_path database_name table_name H1 H2).
  unfold get_pre_merge_version, generate_merge_sql, display_newly_merged_data,
    execute_merge_and_get_post_version, py_add_one.
  fold describe merge.
  unfold DF.select, DF.collect, py_index, sql_queries, displayed.
  clearbody describe merge. run.
  destruct helper; simpl.
  all: rewrite Hd; simpl; rewrite Hi; simpl; rewrite Hrows; simpl.
  all: rewrite Hv; simpl; rewrite Hm; simpl; fold difference; rewrite Hdiff; simpl.
  all: rewrite ?omap_app; simpl; rewrite ?app_nil_r, <- ?app_assoc.
  all: done.
Qed.

End MergeDriverFacts.

(* ===================================================================== *)
(** * Facts about the reference engine *)
(* ===================================================================== *)

Section DataFrameFacts.

Lemma index_of_first (c : string) (cols : list string) (i j : nat) :
  DF.index_of c cols = Some i -> (j < i)%nat -> cols !! j <> Some c.
Proof.
  revert i j. induction cols as [|c' cols IH]; intros i j; simpl; [done|].
  case_decide as Hc.
  - intros [= <-]. lia.
  - destruct (DF.index_of c cols) as [k|] eqn:Hk; simpl; [|done].
    intros [= <-] Hj. destruct j as [|j]; simpl; [congruence|].
    apply (IH k); [done | lia].
Qed.

Lemma index_of_None (c : string) (cols : list string) :
  DF.index_of c cols = None <-> c ∉ cols.
Proof.
  induction cols as [|c' cols IH]; simpl.
  - split; [intros _; apply not_elem_of_nil | done].
  - case_decide as Hc.
    + subst. split; [done|]. intros Hn. exfalso. apply Hn. by left.
    + rewrite not_elem_of_cons, <- IH.
      destruct (DF.index_of c cols); simpl.
      * split; [done | by intros [_ ?]].
      * split; [intros _; split; [congruence | done] | done].
Qed.

Lemma resolve_all_length (df : DataFrame) (cs : list string) (ixs : list nat) :
  DF.resolve_all df cs = Returns ixs -> length ixs = length cs.
Proof.
  revert ixs. induction cs as [|c cs IH]; intros ixs; simpl.
  - by intros [= <-].
  - destruct (DF.resolve df c); [|done].
    destruct (DF.resolve_all df cs); [|done].
    intros [= <-]. simpl. f_equal. by apply IH.
Qed.

Lemma length_project (ixs : list nat) (r : row) :
  length (DF.project ixs r) = length ixs.
Proof. unfold DF.project. by rewrite length_fmap. Qed.

(** [count] of a filtered frame is positive exactly when some row meets
    the condition. *)
Lemma where_count_pos (cond : row -> option bool) (df : DataFrame) :
  (0 < DF.count (DF.where_ cond df))%nat <->
  exists r, r ∈ rows df /\ cond r = Some true.
Proof.
  unfold DF.count, DF.where_. simpl. split.
  - intros Hpos. destruct (filter _ (rows df)) as [|r rs] eqn:E; [simpl in *; lia|].
    exists r. assert (r ∈ filter (fun r => cond r = Some true) (rows df)) as Hin.
    { rewrite E. by left. }
    apply list_elem_of_filter in Hin as [Hc Hin]. by split.
  - intros (r & Hin & Hc).
    assert (r ∈ filter (fun r => cond r = Some true) (rows df)) as Hf.
    { apply list_elem_of_filter. done. }
    destruct (filter _ (rows df)); [by apply elem_of_nil in Hf | simpl; lia].
Qed.

Lemma occurrences_cons (k p : list cell) (ps : list (list cell)) :
  DF.occurrences k (p :: ps) =
  ((if decide (p = k) then 1 else 0) + DF.occurrences k ps)%nat.
Proof.
  unfold DF.occurrences. rewrite filter_cons. by destruct (decide (p = k)).
Qed.

Lemma occurrences_pos (k : list cell) (ps : list (list cell)) :
  (0 < DF.occurrences k ps)%nat <-> k ∈ ps.
Proof.
  induction ps as [|p ps IH].
  - unfold DF.occurrences. simpl. split; [lia | by intros ?%elem_of_nil].
  - rewrite occurrences_cons, elem_of_cons. destruct (decide (p = k)) as [->|Hne].
    + split; [by left | lia].
    + simpl. rewrite IH. split; [by right|]. by intros [->|?].
Qed.

(** A key occurs more than once exactly when it sits at two positions. *)
Lemma occurrences_twice (k : list cell) (ps : list (list cell)) :
  (1 < DF.occurrences k ps)%nat <->
  exists i j, (i < j)%nat /\ ps !! i = Some k /\ ps !! j = Some k.
Proof.
  induction ps as [|p ps IH].
  - unfold DF.occurrences. simpl. split; [lia | by intros (i & j & _ & ? & _)].
  - rewrite occurrences_cons. destruct (decide (p = k)) as [->|Hne]; split.
    + intros Hocc. assert (0 < DF.occurrences k ps)%nat as Hpos by lia.
      apply occurrences_pos, list_elem_of_lookup in Hpos as [j Hj].
      exists 0%nat, (S j). repeat split; [lia | done].
    + intros (i & j & Hij & Hi & Hj).
      destruct j as [|j]; [lia|]. simpl in Hj.
      assert (0 < DF.occurrences k ps)%nat; [|lia].
      apply occurrences_pos, list_elem_of_lookup. by exists j.
    + simpl. intros Hocc. apply IH in Hocc as (i & j & Hij & Hi & Hj).
      exists (S i), (S j). repeat split; [lia | done..].
    + simpl. intros (i & j & Hij & Hi & Hj). apply IH.
      destruct i as [|i]; [simpl in Hi; congruence|].
      destruct j as [|j]; [lia|].
      exists i, j. repeat split; [lia | done..].
Qed.

(** *** What the rules look for, in terms of rows and cells *)

Lemma isNull_true (a : cell) : DF.isNull a = Some true <-> a = None.
Proof.
  unfold DF.isNull. case_bool_decide; split; intros Heq; by simplify_eq.
Qed.

Lemma out_of_range_true (a : cell) (lo hi : Z) :
  DF.or3 (DF.lt3 a (Some lo)) (DF.gt3 a (Some hi)) = Some true <->
  exists v, a = Some v /\ (v < lo \/ hi < v).
Proof.
  unfold DF.gt3, DF.lt3. destruct a as [v|]; simpl.
  - repeat case_bool_decide; simpl; split; try done;
      try (intros _; exists v; split; [done | lia]);
      intros (v' & [= <-] & Hv); lia.
  - split; [done | by intros (v & ? & _)].
Qed.

Lemma gt3_true (a b : cell) :
  DF.gt3 a b = Some true <-> exists x y, a = Some x /\ b = Some y /\ y < x.
Proof.
  unfold DF.gt3, DF.lt3. destruct a as [x|], b as [y|]; simpl;
    try (split; [done | by intros (? & ? & ? & ? & _)]).
  case_bool_decide; split; try done.
  - intros _. by exists x, y.
  - intros (x' & y' & [= <-] & [= <-] & ?). lia.
Qed.

Lemma eq3_true (a b : cell) :
  DF.eq3 a b = Some true <-> exists v, a = Some v /\ b = Some v.
Proof.
  unfold DF.eq3. destruct a as [x|], b as [y|]; simpl;
    try (split; [done | by intros (? & ? & ?)]).
  case_bool_decide; split; try done.
  - intros _. subst. by exists y.
  - intros (v & [= <-] & [= <-]). done.
Qed.

Lemma filter_isNull_finds (df : DataFrame) (c : string) :
  fails_or_has_rows (DF.filter_isNull df c) <->
  raises (DF.resolve df c) \/ has_null df c.
Proof.
  unfold fails_or_has_rows, raises, has_null, DF.filter_isNull.
  destruct (DF.resolve df c) as [i|e].
  - split.
    + intros [[e ?]|(d & [= <-] & Hpos)]; [done|]. right.
      apply where_count_pos in Hpos as (r & Hin & Hc).
      exists i, r. by rewrite <- isNull_true.
    + intros [[e ?]|(i' & r & [= <-] & Hin & Hnone)]; [done|]. right.
      eexists; split; [done|]. apply where_count_pos. exists r.
      by rewrite isNull_true.
  - split; intros _; left; by eexists.
Qed.

Lemma filter_out_of_range_finds (df : DataFrame) (c : string) (lo hi : Z) :
  fails_or_has_rows (DF.filter_out_of_range df c lo hi) <->
  raises (DF.resolve df c) \/ has_out_of_range df c lo hi.
Proof.
  unfold fails_or_has_rows, raises, has_out_of_range, DF.filter_out_of_range.
  destruct (DF.resolve df c) as [i|e].
  - split.
    + intros [[e ?]|(d & [= <-] & Hpos)]; [done|]. right.
      apply where_count_pos in Hpos as (r & Hin & Hc).
      apply out_of_range_true in Hc as (v & Hv & Hout). by exists i, r, v.
    + intros [[e ?]|(i' & r & v & [= <-] & Hin & Hv & Hout)]; [done|]. right.
      eexists; split; [done|]. apply where_count_pos. exists r.
      split; [done|]. apply out_of_range_true. by exists v.
  - split; intros _; left; by eexists.
Qed.

Lemma filter_gt_columns_finds (df : DataFrame) (c1 c2 : string) :
  fails_or_has_rows (DF.filter_gt_columns df c1 c2) <->
  raises (DF.resolve df c1) \/ raises (DF.resolve df c2) \/
  has_inconsistent df c1 c2.
Proof.
  unfold fails_or_has_rows, raises, has_inconsistent, DF.filter_gt_columns.
  destruct (DF.resolve df c1) as [i|e]; [|split; intros _; left; by eexists].
  destruct (DF.resolve df c2) as [j|e];
    [|split; intros _; [right|]; left; by eexists].
  split.
  - intros [[e ?]|(d & [= <-] & Hpos)]; [done|]. right. right.
    apply where_count_pos in Hpos as (r & Hin & Hc).
    apply gt3_true in Hc as (a & b & Ha & Hb & Hlt). by exists i, j, r, a, b.
  - intros [[e ?]|[[e ?]|(i' & j' & r & a & b & [= <-] & [= <-] & Hin & Ha & Hb & Hlt)]];
      [done..|]. right.
    eexists; split; [done|]. apply where_count_pos. exists r.
    split; [done|]. apply gt3_true. by exists a, b.
Qed.

Lemma join_left_anti_finds (df ref : DataFrame) (c : string) :
  fails_or_has_rows (DF.join_left_anti df ref c) <->
  raises (DF.resolve df c) \/ raises (DF.resolve ref c) \/ has_unmatched df ref c.
Proof.
  unfold fails_or_has_rows, raises, has_unmatched, DF.join_left_anti.
  destruct (DF.resolve df c) as [i|e]; [|split; intros _; left; by eexists].
  destruct (DF.resolve ref c) as [j|e];
    [|split; intros _; [right|]; left; by eexists].
  assert (forall r, Forall (fun r' => DF.eq3 (DF.at_ r i) (DF.at_ r' j) <> Some true)
                           (rows ref)
                    <-> forall r' v, r' ∈ rows ref -> DF.at_ r i = Some v ->
                                     DF.at_ r' j <> Some v) as Hmatch.
  { intros r. rewrite Forall_forall. split.
    - intros H r' v Hin Hv Hv'. apply (H r' Hin). apply eq3_true. by exists v.
    - intros H r' Hin (v & Hv & Hv')%eq3_true. by apply (H r' v). }
  split.
  - intros [[e ?]|(d & [= <-] & Hpos)]; [done|]. right. right.
    unfold DF.count in Hpos. simpl in Hpos.
    destruct (filter _ (rows df)) as [|r rs] eqn:E; [simpl in Hpos; lia|].
    assert (r ∈ filter (fun r => Forall (fun r' => DF.eq3 (DF.at_ r i) (DF.at_ r' j)
                                                    <> Some true) (rows ref))
                       (rows df)) as Hin by (rewrite E; by left).
    apply list_elem_of_filter in Hin as [Hall Hin].
    exists i, j, r. repeat split; try done. by apply Hmatch.
  - intros [[e ?]|[[e ?]|(i' & j' & r & [= <-] & [= <-] & Hin & Hno)]]; [done..|].
    right. eexists; split; [done|]. unfold DF.count. simpl.
    assert (r ∈ filter (fun r => Forall (fun r' => DF.eq3 (DF.at_ r i) (DF.at_ r' j)
                                                    <> Some true) (rows ref))
                       (rows df)) as Hf.
    { apply list_elem_of_filter. split; [|done]. by apply Hmatch. }
    destruct (filter _ (rows df)); [by apply elem_of_nil in Hf | simpl; lia].
Qed.

Lemma index_of_last (c : string) (l : list string) :
  c ∉ l -> DF.index_of c (l ++ [c]) = Some (length l).
Proof.
  induction l as [|x l IH]; simpl; intros Hn.
  - by case_decide.
  - apply not_elem_of_cons in Hn as [Hx Hl]. case_decide; [congruence|].
    by rewrite (IH Hl).
Qed.

(** The [count] column of a grouped frame resolves unless a key column
    has the same name. *)
Lemma resolve_count (keys : list string) (rs : list row) :
  DF.resolve (mkDataFrame (keys ++ ["count"]) rs) "count" =
  if decide ("count" ∈ keys) then Raises (DF.ambiguous "count")
  else Returns (length keys).
Proof.
  unfold DF.resolve. simpl. case_decide as Hin.
  - destruct (DF.index_of "count" (keys ++ ["count"])) as [i|] eqn:Hi.
    + apply list_elem_of_lookup in Hin as [j Hj].
      assert (i <= j)%nat as Hij.
      { destruct (decide (i <= j)%nat); [done|]. exfalso.
        apply (index_of_first _ _ _ j Hi); [lia|].
        by apply lookup_app_l_Some. }
      apply lookup_lt_Some in Hj.
      rewrite decide_True; [done|].
      rewrite drop_app_le by lia. apply elem_of_app. right. by left.
    + apply index_of_None in Hi. exfalso. apply Hi, elem_of_app. right. by left.
  - rewrite index_of_last by done.
    rewrite decide_False; [done|].
    rewrite drop_app, drop_ge by lia.
    replace (S (length keys) - length keys)%nat with 1%nat by lia.
    simpl. apply not_elem_of_nil.
Qed.

Lemma at_app_last (k : row) (x : cell) : DF.at_ (k ++ [x]) (length k) = x.
Proof.
  unfold DF.at_. rewrite lookup_app_r by lia.
  by replace (length k - length k)%nat with 0%nat by lia.
Qed.

(** Two rows agree on the keys exactly when some key occurs twice among
    the projections. *)
Lemma duplicate_projection (ixs : list nat) (rs : list row) :
  (exists k, k ∈ (DF.project ixs <$> rs) /\
             (1 < DF.occurrences k (DF.project ixs <$> rs))%nat) <->
  exists i j r1 r2, i <> j /\ rs !! i = Some r1 /\ rs !! j = Some r2 /\
                    DF.project ixs r1 = DF.project ixs r2.
Proof.
  split.
  - intros (k & _ & Hocc).
    apply occurrences_twice in Hocc as (i & j & Hij & Hi & Hj).
    rewrite list_lookup_fmap in Hi, Hj.
    destruct (rs !! i) as [r1|] eqn:E1; [|done].
    destruct (rs !! j) as [r2|] eqn:E2; [|done].
    simpl in *. exists i, j, r1, r2. repeat split; [lia | done.. | congruence].
  - intros (i & j & r1 & r2 & Hij & Hi & Hj & Heq).
    exists (DF.project ixs r1). split.
    + apply list_elem_of_fmap. exists r1. split; [done|].
      by apply list_elem_of_lookup_2 in Hi.
    + apply occurrences_twice.
      destruct (decide (i < j)%nat).
      * exists i, j. rewrite !list_lookup_fmap, Hi, Hj. simpl.
        split; [done|]. split; [done | by rewrite Heq].
      * exists j, i. rewrite !list_lookup_fmap, Hi, Hj. simpl.
        split; [lia|]. split; [by rewrite Heq | done].
Qed.

(** The duplicate pipeline of the DataFrame path: the engine rejects it
    when a key column does not resolve or is itself named [count];
    otherwise it finds a row exactly when two rows agree on the keys. *)
Lemma duplicates_df_finds (df : DataFrame) (keys : list string) :
  fails_or_has_rows (duplicates_df reference_api df keys) <->
  raises (DF.resolve_all df keys) \/ "count" ∈ keys \/ has_duplicate_key df keys.
Proof.
  unfold fails_or_has_rows, raises, has_duplicate_key, duplicates_df.
  cbn [reference_api api_groupBy_count api_filter_gt]. unfold DF.groupBy_count.
  destruct (DF.resolve_all df keys) as [ixs|e] eqn:Hres;
    [|split; intros _; left; by eexists].
  unfold DF.filter_gt. rewrite resolve_count.
  destruct (decide ("count" ∈ keys)) as [Hc|Hc].
  { split; intros _; [right|]; left; [done | by eexists]. }
  simpl. split.
  - intros [[e ?]|(d & [= <-] & Hpos)]; [done|]. right. right.
    apply where_count_pos in Hpos as (r & Hin & Hgt). simpl in Hin.
    exists ixs. destruct keys as [|key keys'].
    + apply list_elem_of_singleton in Hin as ->. simpl in Hgt.
      injection Hgt as Hlt. apply bool_decide_eq_true in Hlt.
      destruct (rows df) as [|r1 [|r2 rs]] eqn:E; simpl in Hlt; [lia..|].
      exists 0%nat, 1%nat, r1, r2. simpl in Hres. simplify_eq. done.
    + apply list_elem_of_fmap in Hin as (k & -> & Hk).
      rewrite elem_of_remove_dups in Hk.
      assert (length k = length (key :: keys')) as Hlen.
      { apply list_elem_of_fmap in Hk as (r & -> & _).
        rewrite length_project. by apply resolve_all_length in Hres. }
      rewrite <- Hlen, at_app_last in Hgt.
      injection Hgt as Hlt. apply bool_decide_eq_true in Hlt.
      assert (exists k, k ∈ (DF.project ixs <$> rows df) /\
                (1 < DF.occurrences k (DF.project ixs <$> rows df))%nat) as Hdup.
      { exists k. split; [done | lia]. }
      apply duplicate_projection in Hdup as (i & j & r1 & r2 & Hij & Hi & Hj & Heq).
      by exists i, j, r1, r2.
  - intros [[e ?]|[?|(ixs' & i & j & r1 & r2 & [= <-] & Hij & Hi & Hj & Heq)]];
      [done..|]. right. eexists; split; [done|].
    apply where_count_pos. simpl.
    destruct keys as [|key keys'].
    + exists [Some (Z.of_nat (length (rows df)))]. split; [by left|].
      simpl. f_equal. apply bool_decide_eq_true.
      assert (i < length (rows df))%nat by by eapply lookup_lt_Some.
      assert (j < length (rows df))%nat by by eapply lookup_lt_Some.
      lia.
    + assert (exists k, k ∈ (DF.project ixs <$> rows df) /\
                (1 < DF.occurrences k (DF.project ixs <$> rows df))%nat)
        as (k & Hk & Hocc).
      { apply duplicate_projection. by exists i, j, r1, r2. }
      exists (k ++ [Some (Z.of_nat (DF.occurrences k (DF.project ixs <$> rows df)))]).
      split.
      * apply list_elem_of_fmap. exists k. split; [done|].
        by apply elem_of_remove_dups.
      * assert (length k = length (key :: keys')) as Hlen.
        { apply list_elem_of_fmap in Hk as (r & -> & _).
          rewrite length_project. by apply resolve_all_length in Hres. }
        rewrite <- Hlen, at_app_last. f_equal. apply bool_decide_eq_true. lia.
Qed.

(** *** The window of _handle_multiple_files *)

Lemma insert_desc_elem (o : list nat) (r x : row) (l : list row) :
  x ∈ DF.insert_desc o r l <-> x = r \/ x ∈ l.
Proof.
  induction l as [|e l IH]; simpl.
  - rewrite list_elem_of_singleton. split; [by left | by intros [?|?%elem_of_nil]].
  - destruct (DF.desc_before _ _).
    + rewrite !elem_of_cons, IH. tauto.
    + rewrite !elem_of_cons. tauto.
Qed.

Lemma sort_desc_elem (o : list nat) (x : row) (l : list row) :
  x ∈ DF.sort_desc o l <-> x ∈ l.
Proof.
  induction l as [|r l IH]; simpl; [done|].
  rewrite insert_desc_elem, elem_of_cons, IH. done.
Qed.

Lemma number_from_above (n : Z) (l : list row) :
  1 < n -> filter (fun rn : row * Z => rn.2 = 1) (DF.number_from n l) = [].
Proof.
  revert n. induction l as [|r l IH]; intros n Hn; simpl; [done|].
  rewrite filter_cons. simpl. destruct (decide (n = 1)); [lia|].
  apply IH. lia.
Qed.

Lemma number_first (l : list row) :
  fst <$> filter (fun rn : row * Z => rn.2 = 1) (DF.number l) = option_list (head l).
Proof.
  unfold DF.number. destruct l as [|r l]; [done|].
  cbn [DF.number_from]. rewrite filter_cons. cbn [snd].
  rewrite decide_True by done. rewrite number_from_above by lia. done.
Qed.

Lemma row_number_first (p o : list nat) (rs : list row) :
  fst <$> filter (fun rn : row * Z => rn.2 = 1) (DF.row_number_over p o rs)
  = first_rows p o rs.
Proof.
  unfold DF.row_number_over, first_rows.
  induction (remove_dups (DF.project p <$> rs)) as [|k ks IH]; [done|].
  rewrite fmap_cons. cbn [concat]. rewrite filter_app, fmap_app, IH, number_first.
  cbn [omap list_omap]. by destruct (head _).
Qed.

(** Every partition has its first row, and that row carries the key. *)
Lemma first_rows_keys (p o : list nat) (rs : list row) :
  DF.project p <$> first_rows p o rs = remove_dups (DF.project p <$> rs).
Proof.
  unfold first_rows.
  assert (forall k, k ∈ remove_dups (DF.project p <$> rs) ->
            exists r, head (DF.sort_desc o (filter (fun r => DF.project p r = k) rs))
                      = Some r /\ DF.project p r = k) as Hhead.
  { intros k Hk. rewrite elem_of_remove_dups in Hk.
    apply list_elem_of_fmap in Hk as (r0 & -> & Hin).
    destruct (DF.sort_desc o (filter (fun r => DF.project p r = DF.project p r0) rs))
      as [|r l] eqn:E.
    - exfalso. assert (r0 ∈ DF.sort_desc o
                 (filter (fun r => DF.project p r = DF.project p r0) rs)) as H.
      { apply sort_desc_elem, list_elem_of_filter. done. }
      rewrite E in H. by apply elem_of_nil in H.
    - exists r. split; [done|].
      assert (r ∈ DF.sort_desc o
                (filter (fun r => DF.project p r = DF.project p r0) rs)) as H.
      { rewrite E. by left. }
      apply sort_desc_elem, list_elem_of_filter in H. by destruct H. }
  induction (remove_dups (DF.project p <$> rs)) as [|k ks IH]; [done|].
  cbn [omap list_omap].
  destruct (Hhead k) as (r & -> & Hr); [by left|].
  rewrite fmap_cons, Hr, IH; [done|]. intros k' Hk'. apply Hhead. by right.
Qed.

Lemma first_rows_elem (p o : list nat) (rs : list row) (r : row) :
  r ∈ first_rows p o rs -> r ∈ rs.
Proof.
  unfold first_rows. intros Hin. apply list_elem_of_omap in Hin as (k & _ & Hh).
  assert (r ∈ DF.sort_desc o (filter (fun r => DF.project p r = k) rs)) as H.
  { destruct (DF.sort_desc o _) as [|r' l]; simplify_eq/=. by left. }
  apply sort_desc_elem, list_elem_of_filter in H. by destruct H.
Qed.

(** *** The descending order of the window *)

Lemma cell_desc_irrefl (a : cell) : DF.cell_desc_before a a = false.
Proof. destruct a as [x|]; simpl; [|done]. apply bool_decide_eq_false. lia. Qed.

Lemma cell_desc_trans (a b c : cell) :
  DF.cell_desc_before a b = true -> DF.cell_desc_before b c = true ->
  DF.cell_desc_before a c = true.
Proof.
  destruct a as [x|], b as [y|], c as [z|]; simpl; try done.
  rewrite !bool_decide_eq_true. lia.
Qed.

Lemma cell_desc_total (a b : cell) :
  a = b \/ DF.cell_desc_before a b = true \/ DF.cell_desc_before b a = true.
Proof.
  destruct a as [x|], b as [y|]; simpl; auto.
  rewrite !bool_decide_eq_true.
  destruct (Z.lt_trichotomy x y) as [?|[->|?]]; auto.
Qed.

Lemma desc_before_cons (x y : cell) (a b : list cell) :
  DF.desc_before (x :: a) (y :: b) = true <->
  DF.cell_desc_before x y = true \/ (x = y /\ DF.desc_before a b = true).
Proof.
  simpl. rewrite orb_true_iff, andb_true_iff, bool_decide_eq_true. done.
Qed.

Lemma desc_irrefl (a : list cell) : DF.desc_before a a = false.
Proof.
  induction a as [|x a IH]; [done|].
  apply not_true_is_false. rewrite desc_before_cons.
  rewrite cell_desc_irrefl, IH. by intros [?|[_ ?]].
Qed.

Lemma desc_trans (a b c : list cell) :
  DF.desc_before a b = true -> DF.desc_before b c = true ->
  DF.desc_before a c = true.
Proof.
  revert b c. induction a as [|x a IH]; intros [|y b] [|z c]; try done.
  rewrite !desc_before_cons.
  intros [Hxy|[-> Hab]] [Hyz|[-> Hbc]].
  - left. by eapply cell_desc_trans.
  - by left.
  - by left.
  - right. split; [done|]. by eapply IH.
Qed.

Lemma desc_total (a b : list cell) :
  length a = length b ->
  a = b \/ DF.desc_before a b = true \/ DF.desc_before b a = true.
Proof.
  revert b. induction a as [|x a IH]; intros [|y b] Hlen; try done; [by left|].
  injection Hlen as Hlen. rewrite !desc_before_cons.
  destruct (cell_desc_total x y) as [->|[?|?]]; [|by auto..].
  destruct (IH b Hlen) as [->|[?|?]]; auto.
Qed.

(** If [x] sorts before [r], any [e] of the same width is after [x] or
    before [r]. *)
Lemma desc_between (x e r : list cell) :
  length x = length e ->
  DF.desc_before x r = true ->
  DF.desc_before x e = true \/ DF.desc_before e r = true.
Proof.
  intros Hlen Hxr. destruct (desc_total x e Hlen) as [->|[?|Hex]]; auto.
  right. by eapply desc_trans.
Qed.

(** The head of a sorted partition: no row of the partition sorts
    strictly before it. *)
Lemma insert_desc_head (o : list nat) (r : row) (l : list row) :
  (forall w, head l = Some w -> forall x, x ∈ l ->
             DF.desc_before (DF.project o x) (DF.project o w) = false) ->
  forall w, head (DF.insert_desc o r l) = Some w ->
  forall x, x ∈ DF.insert_desc o r l ->
            DF.desc_before (DF.project o x) (DF.project o w) = false.
Proof.
  intros Hl w Hw x Hx. apply insert_desc_elem in Hx.
  destruct l as [|e l]; simpl in Hw.
  - simplify_eq. destruct Hx as [->|?%elem_of_nil]; [|done]. apply desc_irrefl.
  - destruct (DF.desc_before (DF.project o e) (DF.project o r)) eqn:Her;
      simpl in Hw; simplify_eq.
    + destruct Hx as [->|Hx]; [|by apply Hl].
      apply not_true_is_false. intros Hre.
      pose proof (desc_trans _ _ _ Her Hre) as Hee.
      by rewrite desc_irrefl in Hee.
    + destruct Hx as [->|Hx]; [apply desc_irrefl|].
      apply not_true_is_false. intros Hxw.
      destruct (desc_between (DF.project o x) (DF.project o e) (DF.project o w))
        as [Hxe|Hew]; [by rewrite !length_project | done | |].
      * by rewrite (Hl e eq_refl x Hx) in Hxe.
      * by rewrite Her in Hew.
Qed.

Lemma sort_desc_head (o : list nat) (l : list row) (w : row) :
  head (DF.sort_desc o l) = Some w ->
  forall x, x ∈ l -> DF.desc_before (DF.project o x) (DF.project o w) = false.
Proof.
  intros Hw x Hx. apply (sort_desc_elem o) in Hx. revert w Hw x Hx.
  induction l as [|r l IH]; simpl; [done|].
  apply insert_desc_head. exact IH.
Qed.

Lemma first_rows_latest (p o : list nat) (rs : list row) (w r : row) :
  w ∈ first_rows p o rs -> r ∈ rs -> DF.project p r = DF.project p w ->
  DF.desc_before (DF.project o r) (DF.project o w) = false.
Proof.
  unfold first_rows. intros Hw Hr Hkey.
  apply list_elem_of_omap in Hw as (k & _ & Hh).
  assert (w ∈ DF.sort_desc o (filter (fun r => DF.project p r = k) rs)) as Hin.
  { destruct (DF.sort_desc o _) as [|r' l]; simplify_eq/=. by left. }
  apply sort_desc_elem, list_elem_of_filter in Hin as [Hk _].
  apply (sort_desc_head o _ w Hh). apply list_elem_of_filter. split; [|done].
  congruence.
Qed.

(** *** withColumn, filter and drop around the row number *)

Lemma resolve_appended (cols : list string) (c : string) (rs : list row) :
  c ∉ cols -> DF.resolve (mkDataFrame (cols ++ [c]) rs) c = Returns (length cols).
Proof.
  intros Hc. unfold DF.resolve. simpl. rewrite index_of_last by done.
  rewrite decide_False; [done|].
  rewrite drop_app, drop_ge by lia.
  replace (S (length cols) - length cols)%nat with 1%nat by lia.
  simpl. apply not_elem_of_nil.
Qed.

Lemma without_appended {A} (c : string) (cols : list string) (l : list A) (x : A) :
  c ∉ cols -> length l = length cols ->
  DF.without [c] (cols ++ [c]) (l ++ [x]) = l.
Proof.
  revert l. induction cols as [|c' cols IH]; intros [|y l] Hc Hlen; try done.
  - simpl. rewrite decide_True; [done | by left].
  - apply not_elem_of_cons in Hc as [Hne Hc]. simpl.
    rewrite decide_False.
    + f_equal. apply IH; [done|]. by injection Hlen.
    + rewrite list_elem_of_singleton. congruence.
Qed.

Lemma number_from_elem (n : Z) (l : list row) (rn : row * Z) :
  rn ∈ DF.number_from n l -> rn.1 ∈ l.
Proof.
  revert n. induction l as [|r l IH]; intros n; simpl; [by intros ?%elem_of_nil|].
  intros [->|Hin]%elem_of_cons; [by left|]. right. by eapply IH.
Qed.

Lemma row_number_over_elem (p o : list nat) (rs : list row) (rn : row * Z) :
  rn ∈ DF.row_number_over p o rs -> rn.1 ∈ rs.
Proof.
  unfold DF.row_number_over.
  induction (remove_dups (DF.project p <$> rs)) as [|k ks IH];
    [by intros ?%elem_of_nil|].
  rewrite fmap_cons. cbn [concat]. intros [Hrn|Hin]%elem_of_app; [|by apply IH].
  apply number_from_elem, sort_desc_elem, list_elem_of_filter in Hrn.
  by destruct Hrn.
Qed.

Lemma keep_first_drop_number (cols : list string) (numbered : list (row * Z)) :
  "rnr" ∉ cols ->
  Forall (fun rn : row * Z => length rn.1 = length cols) numbered ->
  DF.without ["rnr"] (cols ++ ["rnr"])
    <$> filter (fun r => DF.eq3 (DF.at_ r (length cols)) (Some 1) = Some true)
               ((fun rn : row * Z => rn.1 ++ [Some rn.2]) <$> numbered)
  = fst <$> filter (fun rn : row * Z => rn.2 = 1) numbered.
Proof.
  intros Hc. induction 1 as [|[r n] l Hlen _ IH]; [done|].
  simpl in Hlen. rewrite fmap_cons, !filter_cons. cbn [fst snd].
  rewrite <- Hlen, at_app_last, Hlen.
  destruct (decide (n = 1)) as [->|Hn].
  - rewrite decide_True by done. rewrite !fmap_cons, IH. cbn [fst].
    by rewrite without_appended.
  - rewrite decide_False; [exact IH|].
    simpl. intros [= Heq]. by apply bool_decide_eq_true in Heq.
Qed.

(** The DataFrame pipeline of [_handle_multiple_files]: on a well-formed
    frame without a column [rnr], whose partition and order columns
    resolve, it keeps the schema and the first row of each partition. *)
Lemma keep_first_rows (df : DataFrame) (partition_by order_by : list string)
    (p o : list nat) :
  DF.well_formed df -> "rnr" ∉ columns df ->
  DF.resolve_all df partition_by = Returns p ->
  DF.resolve_all df order_by = Returns o ->
  exists numbered first,
    DF.withColumn_row_number "rnr" partition_by order_by df = Returns numbered /\
    DF.filter_eq numbered "rnr" 1 = Returns first /\
    DF.drop_columns ["rnr"] first =
      mkDataFrame (columns df) (first_rows p o (rows df)).
Proof.
  intros Hwf Hc Hp Ho. unfold DF.withColumn_row_number. rewrite Hp, Ho.
  destruct (decide ("rnr" ∈ columns df)) as [?|_]; [done|].
  do 2 eexists. split; [done|].
  unfold DF.filter_eq. rewrite resolve_appended by done. split; [done|].
  unfold DF.drop_columns, DF.where_. cbn [columns rows]. f_equal.
  - by apply without_appended.
  - rewrite <- row_number_first.
    rewrite <- (keep_first_drop_number (columns df)); [|done|].
    + do 2 f_equal. apply list_fmap_ext. intros i [r n] _.
      unfold DF.set_cell. by destruct (decide ("rnr" ∈ columns df)).
    + apply Forall_forall. intros rn Hin.
      apply row_number_over_elem in Hin.
      unfold DF.well_formed in Hwf. rewrite Forall_forall in Hwf. by apply Hwf.
Qed.

End DataFrameFacts.

(* ===================================================================== *)
(** * Properties of quality.py *)
(* ===================================================================== *)

Lemma log_message_error (self : DataQualityManager) (message : string) :
  _log_message self message "error" = emit (LogMessage message "error").
Proof. unfold _log_message. simpl. by rewrite orb_true_r. Qed.

Lemma log_message_info (self : DataQualityManager) (message : string) :
  _log_message self message "info" = when (debug self) (emit (LogMessage message "info")).
Proof. unfold _log_message. simpl. by rewrite orb_false_r. Qed.

(** [_raise_error] logs the message at level error and raises a
    [RuntimeError] carrying it. *)
Lemma raise_error_run {A} (self : DataQualityManager) (message : string) (w : World) :
  @_raise_error A self message w =
  (mkWorld (catalog w) (events w ++ [LogMessage message "error"]),
   Raises (mkExn RuntimeError message)).
Proof. unfold _raise_error. by rewrite log_message_error. Qed.

Ltac qrun :=
  repeat (progress (rewrite ?log_message_info, ?log_message_error, ?raise_error_run;
                    unfold _log_block; run)).

Section QualityFacts.

Variable sqlparse_format : string -> string.
Variable Number : Type.
Variable str_number : Number -> string.
Variable set_order : SetOrder.
Variable api : DataFrameAPI Number.

(** A well-formed call reaches the body with the arguments as written. *)
Lemma call_handle_multiple_files_bound (self : DataQualityManager)
    (spark : SparkSession) (df : DataFrame) (key_columns : StrOrList)
    (order_by : option StrOrList) (use_sql : bool) :
  call_handle_multiple_files sqlparse_format set_order api self
    [PySparkSession spark; PyDataFrame df; of_keys key_columns]
    [("order_by", of_opt_keys order_by); ("use_sql", PyBool use_sql)]
  = _handle_multiple_files sqlparse_format set_order api self spark df key_columns
      order_by use_sql.
Proof. by destruct key_columns, order_by as [[]|]. Qed.

(** C9.  [run_all_checks] raises a [RuntimeError] on every input and never
    returns the view name.  Its first step calls [_handle_multiple_files]
    with two positional arguments, [df] and [key_columns], which land in
    the parameters [spark] and [df]; [key_columns] stays unbound, the call
    raises [TypeError] before the body runs, and the outer handler turns
    it into a [RuntimeError] through [_raise_error].  No pass starts and
    no view is registered. *)
Theorem run_all_checks_always_raises (self : DataQualityManager)
    (spark : SparkSession) (df : DataFrame) (key_columns : list string)
    (critical_columns : option (list string))
    (column_ranges : option (list (string * (Number * Number))))
    (reference_df : option DataFrame) (join_column : option string)
    (consistency_pairs : option (list (string * string)))
    (columns_to_exclude : option (list string)) (use_sql : bool) (w : World) :
  let out := run_all_checks sqlparse_format str_number set_order api self spark df
               key_columns critical_columns column_ranges reference_df join_column
               consistency_pairs columns_to_exclude use_sql w in
  let cause :=
    mkExn TypeError
      "DataQualityManager._handle_multiple_files() missing 1 required positional argument: 'key_columns'" in
  call_handle_multiple_files sqlparse_format set_order api self
    [PyDataFrame df; PyList key_columns] [("use_sql", PyBool use_sql)] w
    = (w, Raises cause) /\
  out.2 = Raises (mkExn RuntimeError
                    ("Data quality checks failed: " +:+ str_exn cause)) /\
  (forall name : string, out.2 <> Returns name) /\
  catalog out.1 = catalog w /\
  passes (events out.1) = passes (events w).
Proof.
  intros out cause. subst out cause. unfold run_all_checks.
  unfold call_handle_multiple_files. simpl. qrun.
  unfold passes. repeat split; try done.
  rewrite omap_app. simpl. by rewrite app_nil_r.
Qed.

(** ** The ORDER BY clause of the SQL path *)

Lemma partition_columns_distinct (key_columns : StrOrList) :
  partition_columns set_order key_columns ≡ₚ
  remove_dups ("input_file_name" :: as_list key_columns).
Proof. apply list_set_distinct. Qed.

Lemma partition_columns_elem (key_columns : StrOrList) (c : string) :
  c ∈ partition_columns set_order key_columns <->
  c = "input_file_name" \/ c ∈ as_list key_columns.
Proof.
  rewrite partition_columns_distinct. by rewrite elem_of_remove_dups, elem_of_cons.
Qed.

(** The clause, from the caller's [order_by]: an empty string or list
    counts as not given; [input_file_name] is left out. *)
Lemma order_by_clause_explicit (order_by : option StrOrList) :
  order_by_clause (order_by_columns order_by) =
  Py.join ", "
    ((fun c => c +:+ " DESC")
       <$> filter (fun c => c <> "input_file_name")
                  match order_by with
                  | None => []
                  | Some (Str s) => if decide (s = EmptyString) then [] else [s]
                  | Some (List l) => l
                  end).
Proof.
  unfold order_by_clause. rewrite filter_cons.
  destruct (decide ("input_file_name" ∉ ["input_file_name"])) as [Hn|_].
  { exfalso. apply Hn. by left. }
  do 2 f_equal.
  assert (forall l : list string,
            filter (fun col => col ∉ ["input_file_name"]) l =
                    filter (fun c => c <> "input_file_name") l) as Hfilter.
  { intros l. apply list_filter_iff. intros c.
    rewrite list_elem_of_singleton. done. }
  rewrite Hfilter. unfold order_by_columns.
  destruct order_by as [[s|l]|]; simpl.
  - case_bool_decide as Hs; simpl.
    + subst s. by rewrite decide_True.
    + by rewrite decide_False.
  - destruct l as [|c l]; [|done]. simpl. rewrite filter_cons.
    by rewrite decide_False by (by intros H; apply H).
  - rewrite filter_cons. by rewrite decide_False by (by intros H; apply H).
Qed.

Lemma handle_multiple_files_first_query (self : DataQualityManager)
    (spark : SparkSession) (df : DataFrame) (key_columns : StrOrList)
    (order_by : option StrOrList) (w : World) :
  exists rest,
    sql_queries
      (events (_handle_multiple_files sqlparse_format set_order api self spark df
                 key_columns order_by true w).1) =
    sql_queries (events w) ++
    recent_data_query (partition_columns set_order key_columns)
      (order_by_clause (order_by_columns order_by)) :: rest.
Proof.
  unfold _handle_multiple_files.
  generalize (recent_data_query (partition_columns set_order key_columns)
                (order_by_clause (order_by_columns order_by))) as q.
  intros q. unfold sql_queries. qrun.
  destruct (debug self); simpl;
    repeat match goal with
           | |- context [sql_engine ?s ?c ?t] =>
               destruct (sql_engine s c t) as [[? ?]|?]; simpl
           | |- context [decide (exn_class ?e = AnalysisException)] =>
               destruct (decide (exn_class e = AnalysisException)); simpl
           end;
    rewrite ?raise_error_run; simpl;
    rewrite ?omap_app; simpl; rewrite ?app_nil_r, <- ?app_assoc; simpl;
    eexists; reflexivity.
Qed.

(** C10.  In the SQL path of [_handle_multiple_files] the first statement
    handed to the engine is the ROW_NUMBER query.  Its ORDER BY part
    lists, each followed by DESC and in the caller's order, the columns
    the caller gave as [order_by] other than [input_file_name], and
    nothing else; it is the empty string when [order_by] is not given, is
    empty, or names only [input_file_name].  Its PARTITION BY part lists
    [input_file_name] and the key columns, each once, in the order that
    Python's [set] gives them. *)
Theorem handle_multiple_files_sql_order_by (self : DataQualityManager)
    (spark : SparkSession) (df : DataFrame) (key_columns : StrOrList)
    (order_by : option StrOrList) (w : World) :
  let given :=
    match order_by with
    | None => []
    | Some (Str s) => if decide (s = EmptyString) then [] else [s]
    | Some (List l) => l
    end in
  let explicit := filter (fun c => c <> "input_file_name") given in
  let order_by_part := Py.join ", " ((fun c => c +:+ " DESC") <$> explicit) in
  let partition_by := list_set set_order ("input_file_name" :: as_list key_columns) in
  let out := _handle_multiple_files sqlparse_format set_order api self spark df
               key_columns order_by true w in
  (exists rest,
     sql_queries (events out.1) =
     sql_queries (events w) ++
     (Py.nl +:+ "                    CREATE OR REPLACE TEMPORARY VIEW temp_recent_data AS" +:+
      Py.nl +:+ "                    SELECT *" +:+
      Py.nl +:+ "                    FROM (" +:+
      Py.nl +:+ "                        SELECT t.*, ROW_NUMBER() OVER (PARTITION BY " +:+
                Py.join ", " partition_by +:+
                " ORDER BY " +:+ order_by_part +:+ ") AS rnr" +:+
      Py.nl +:+ "                        FROM temp_original_data t" +:+
      Py.nl +:+ "                    ) x" +:+
      Py.nl +:+ "                    WHERE rnr = 1" +:+
      Py.nl +:+ "                ") :: rest) /\
  partition_by ≡ₚ remove_dups ("input_file_name" :: as_list key_columns) /\
  (Forall (fun c => c = "input_file_name") given -> order_by_part = EmptyString).
Proof.
  intros given explicit order_by_part partition_by out. subst out. split.
  - pose proof (handle_multiple_files_first_query self spark df key_columns
                  order_by w) as [rest Hq].
    exists rest. rewrite Hq, order_by_clause_explicit. reflexivity.
  - split; [apply list_set_distinct|].
    subst order_by_part explicit. intros H.
    assert (filter (fun c => c <> "input_file_name") given = []) as ->; [|done].
    induction H as [|c' l' -> _ IH]; [done|].
    rewrite filter_cons. by destruct (decide _).
Qed.

(** ** The threshold of the checks *)

Lemma threshold_raises o failed found :
  raises (threshold o failed found) <-> fails_or_finds o.
Proof.
  unfold threshold, fails_or_finds, raises. destruct o as [n|e].
  - case_bool_decide as Hn; split.
    + intros _. right. by exists n.
    + intros _. by eexists.
    + intros [e He]. discriminate.
    + intros [[e He]|(n' & Hn' & Hpos)]; [discriminate|]. by simplify_eq.
  - split; [intros _; left; by eexists | intros _; by eexists].
Qed.

Lemma threshold_class o failed found e :
  threshold o failed found = Raises e -> exn_class e = RuntimeError.
Proof.
  unfold threshold. destruct o as [n|e']; [case_bool_decide|];
    intros Heq; by simplify_eq.
Qed.

Ltac crunch :=
  qrun;
  repeat match goal with
         | H : Returns _ = Returns _ |- _ => injection H as H; simplify_eq
         | H : Returns _ = Raises _ |- _ => discriminate H
         | H : Raises _ = Returns _ |- _ => discriminate H
         | |- context [sql_engine ?s ?c ?t] =>
             let E := fresh "E" in
             destruct (sql_engine s c t) as [[? ?]|?] eqn:E; simpl in *; rewrite ?E
         | |- context [match ?o with Returns _ => _ | Raises _ => _ end] =>
             let E := fresh "E" in
             destruct o eqn:E; simpl in *; rewrite ?E
         | |- context [if debug ?s then _ else _] => destruct (debug s); simpl
         | |- context [bool_decide ?P] => destruct (bool_decide P); simpl
         | |- context [decide (exn_class ?e = ?c)] =>
             destruct (decide (exn_class e = c)); simpl
         | _ => rewrite raise_error_run; simpl
         end;
  rewrite ?omap_app; simpl; rewrite ?app_nil_r;
  try done; try (simplify_eq; done).

Lemma first_raise_raises (os : list (Outcome unit)) :
  raises (first_raise os) <-> exists o, o ∈ os /\ raises o.
Proof.
  unfold raises. induction os as [|o os IH]; simpl.
  - split; [by intros [e ?] | by intros (o & ?%elem_of_nil & _)].
  - destruct o as [[]|e].
    + rewrite IH. split.
      * intros (o & Hin & Ho). exists o. split; [by right | done].
      * intros (o & Hin & e & ->). apply elem_of_cons in Hin as [?|Hin]; [done|].
        exists (Raises e). split; [done | by exists e].
    + split; [|by eexists]. intros _. exists (Raises e). split; [by left | by exists e].
Qed.

Lemma first_raise_class (os : list (Outcome unit)) (e : exn) :
  Forall (fun o => forall e', o = Raises e' -> exn_class e' = RuntimeError) os ->
  first_raise os = Raises e -> exn_class e = RuntimeError.
Proof.
  induction 1 as [|o os Ho _ IH]; simpl; [done|].
  destruct o as [[]|e']; [done|]. intros [= <-]. by apply Ho.
Qed.

(** The iterations that pass do not count. *)
Lemma first_raise_skip (passed : list (Outcome unit)) (o : Outcome unit)
    (rest : list (Outcome unit)) :
  Forall (fun o => o = Returns tt) passed ->
  first_raise (passed ++ o :: rest) =
  match o with Raises e => Raises e | Returns _ => first_raise rest end.
Proof. induction 1 as [|? ? -> _ IH]; [done|]. exact IH. Qed.

(** A loop whose iterations leave views and passes alone and whose outcome
    does not depend on the world. *)
Lemma for_each_run {A} (xs : list A) (body : A -> M unit) (f : A -> Outcome unit) :
  (forall x w, catalog (body x w).1 = catalog w /\
               passes (events (body x w).1) = passes (events w) /\
               (body x w).2 = f x) ->
  forall w, catalog (for_each xs body w).1 = catalog w /\
            passes (events (for_each xs body w).1) = passes (events w) /\
            (for_each xs body w).2 = first_raise (f <$> xs).
Proof.
  intros Hbody. induction xs as [|x xs IH]; intros w; simpl; [done|].
  unfold bind. destruct (Hbody x w) as (Hc & Hp & Ho).
  destruct (body x w) as [w1 o]. simpl in *. subst o.
  destruct (f x) as [[]|e]; simpl; [|done].
  destruct (IH w1) as (Hc' & Hp' & Ho'). rewrite Hc', Hp', Ho'. done.
Qed.

(** *** What each check comes to *)

Ltac loop_body f :=
  match goal with
  | |- context [for_each ?xs ?b] =>
      let Hb := fresh "Hbody" in
      assert (forall x w, catalog (b x w).1 = catalog w /\
                          passes (events (b x w).1) = passes (events w) /\
                          (b x w).2 = f x) as Hb;
      [ intros x w'; unfold threshold, counted, passes;
        try destruct x as [? [? ?]]; try destruct x as [? ?]; crunch
      | generalize (for_each_run xs b f Hb); clear Hb;
        generalize (for_each xs b); intros loop Hloop ]
  end.

Ltac loop_done :=
  unfold passes in *; qrun;
  repeat match goal with
         | |- context [if debug ?s then _ else _] => destruct (debug s); simpl
         end;
  match goal with
  | Hloop : forall w : World, _ |- context [?loop ?w0] =>
      destruct (Hloop w0) as (Hc & Hp & Ho); destruct (loop w0);
      simpl in *; rewrite Hc, Hp, Ho; simpl;
      rewrite ?omap_app; simpl; rewrite ?app_nil_r;
      (split; [done | split; [done | eauto]])
  end.

Lemma check_for_nulls_run (self : DataQualityManager) (df : DataFrame)
    (critical_columns : list string) (w : World) :
  let out := _check_for_nulls api self df critical_columns w in
  catalog out.1 = catalog w /\
  passes (events out.1) = passes (events w) ++ [NullValuesCheck] /\
  out.2 = first_raise
            ((fun col =>
                threshold (counted api (api_filter_isNull api df col))
                  (fun e => "Failed to check for null values in column " +:+
                            Py.repr_str col +:+ ": " +:+ str_exn e)
                  (fun n => "Null values check failed: Column " +:+
                            Py.repr_str col +:+ " has " +:+ pretty n +:+
                            " missing values."))
               <$> critical_columns).
Proof.
  unfold _check_for_nulls.
  loop_body (fun col =>
    threshold (counted api (api_filter_isNull api df col))
      (fun e => "Failed to check for null values in column " +:+
                Py.repr_str col +:+ ": " +:+ str_exn e)
      (fun n => "Null values check failed: Column " +:+ Py.repr_str col +:+
                " has " +:+ pretty n +:+ " missing values.")).
  loop_done.
Qed.

Lemma check_value_ranges_run (self : DataQualityManager) (df : DataFrame)
    (column_ranges : list (string * (Number * Number))) (w : World) :
  let out := _check_value_ranges str_number api self df column_ranges w in
  catalog out.1 = catalog w /\
  passes (events out.1) = passes (events w) ++ [ValueRangeCheck] /\
  out.2 = first_raise
            ((fun r : string * (Number * Number) =>
                threshold
                  (counted api (api_filter_out_of_range api df r.1 r.2.1 r.2.2))
                  (fun e => "Failed to check value ranges for column " +:+
                            Py.repr_str r.1 +:+ ": " +:+ str_exn e)
                  (fun n => "Value range check failed: Column " +:+
                            Py.repr_str r.1 +:+ " has " +:+ pretty n +:+
                            " values out of range [" +:+ str_number r.2.1 +:+
                            ", " +:+ str_number r.2.2 +:+ "]."))
               <$> column_ranges).
Proof.
  unfold _check_value_ranges.
  loop_body (fun r : string * (Number * Number) =>
    threshold (counted api (api_filter_out_of_range api df r.1 r.2.1 r.2.2))
      (fun e => "Failed to check value ranges for column " +:+ Py.repr_str r.1 +:+
                ": " +:+ str_exn e)
      (fun n => "Value range check failed: Column " +:+ Py.repr_str r.1 +:+
                " has " +:+ pretty n +:+ " values out of range [" +:+
                str_number r.2.1 +:+ ", " +:+ str_number r.2.2 +:+ "].")).
  loop_done.
Qed.

Lemma check_consistency_run (self : DataQualityManager) (df : DataFrame)
    (consistency_pairs : list (string * string)) (w : World) :
  let out := _check_consistency_between_fields api self df consistency_pairs w in
  catalog out.1 = catalog w /\
  passes (events out.1) = passes (events w) ++ [FieldConsistencyCheck] /\
  out.2 = first_raise
            ((fun p : string * string =>
                threshold (counted api (api_filter_gt_columns api df p.1 p.2))
                  (fun e => "Failed to check consistency between fields " +:+
                            Py.repr_str p.1 +:+ " and " +:+ Py.repr_str p.2 +:+
                            ": " +:+ str_exn e)
                  (fun n => "Consistency check failed: " +:+ pretty n +:+
                            " records have " +:+ Py.repr_str p.1 +:+
                            " greater than " +:+ Py.repr_str p.2 +:+ "."))
               <$> consistency_pairs).
Proof.
  unfold _check_consistency_between_fields.
  loop_body (fun p : string * string =>
    threshold (counted api (api_filter_gt_columns api df p.1 p.2))
      (fun e => "Failed to check consistency between fields " +:+
                Py.repr_str p.1 +:+ " and " +:+ Py.repr_str p.2 +:+ ": " +:+
                str_exn e)
      (fun n => "Consistency check failed: " +:+ pretty n +:+
                " records have " +:+ Py.repr_str p.1 +:+ " greater than " +:+
                Py.repr_str p.2 +:+ ".")).
  loop_done.
Qed.

Lemma check_referential_integrity_run (self : DataQualityManager)
    (df reference_df : DataFrame) (join_column : string) (w : World) :
  let out := _check_referential_integrity api self df reference_df join_column w in
  catalog out.1 = catalog w /\
  passes (events out.1) = passes (events w) ++ [ReferentialIntegrityCheck] /\
  out.2 = threshold
            (counted api (api_join_left_anti api df reference_df join_column))
            (fun e => "Failed to check referential integrity for column " +:+
                      Py.repr_str join_column +:+ ": " +:+ str_exn e)
            (fun n => "Referential integrity check failed: " +:+ pretty n +:+
                      " records in " +:+ Py.repr_str join_column +:+
                      " do not match the reference data.").
Proof.
  unfold _check_referential_integrity, threshold, counted, passes. crunch.
Qed.

Lemma check_for_duplicates_run (self : DataQualityManager) (spark : SparkSession)
    (df : DataFrame) (key_columns : StrOrList) (w : World) :
  let out := _check_for_duplicates sqlparse_format api self spark df key_columns
               false w in
  catalog out.1 = catalog w /\
  passes (events out.1) = passes (events w) ++ [DuplicateCheck] /\
  out.2 = threshold
            (counted api (duplicates_df api df (as_list key_columns)))
            (fun e => "Failed to check for duplicates: " +:+ str_exn e)
            (fun n => "Duplicate check failed: Found " +:+ pretty n +:+
                      " duplicates based on key columns " +:+
                      Py.repr_list (as_list key_columns) +:+ ".").
Proof.
  unfold _check_for_duplicates, threshold, counted, passes.
  generalize (duplicates_df api df (as_list key_columns)) as found. intros found.
  crunch.
Qed.

(** With [use_sql], the frame counted is the engine's answer to the
    GROUP BY ... HAVING COUNT > 1 statement, run with the frame
    registered as [temp_view_check_duplicates]. *)
Lemma check_for_duplicates_sql_run (self : DataQualityManager)
    (spark : SparkSession) (df : DataFrame) (key_columns : StrOrList) (w : World) :
  let out := _check_for_duplicates sqlparse_format api self spark df key_columns
               true w in
  passes (events out.1) = passes (events w) ++ [DuplicateCheck] /\
  out.2 = threshold
            (counted api
               match sql_engine spark
                       (<["temp_view_check_duplicates" := df]> (catalog w))
                       (duplicate_check_query (as_list key_columns)) with
               | Returns (_, d) => Returns d
               | Raises e => Raises e
               end)
            (fun e => "Failed to check for duplicates: " +:+ str_exn e)
            (fun n => "Duplicate check failed: Found " +:+ pretty n +:+
                      " duplicates based on key columns " +:+
                      Py.repr_list (as_list key_columns) +:+ ".").
Proof.
  unfold _check_for_duplicates, threshold, counted, passes.
  generalize (duplicate_check_query (as_list key_columns)) as q. intros q.
  crunch.
Qed.

Lemma loop_raises {A} (xs : list A) (pipeline : A -> Outcome nat)
    (failed : A -> exn -> string) (found : A -> nat -> string) :
  raises (first_raise
            ((fun x => threshold (pipeline x) (failed x) (found x)) <$> xs)) <->
  exists x, x ∈ xs /\ fails_or_finds (pipeline x).
Proof.
  rewrite first_raise_raises. split.
  - intros (o & Hin & Ho). apply list_elem_of_fmap in Hin as (x & -> & Hin).
    exists x. split; [done|]. by apply threshold_raises in Ho.
  - intros (x & Hin & Hf). eexists. split.
    + apply list_elem_of_fmap. by exists x.
    + by apply threshold_raises.
Qed.

Lemma loop_class {A} (xs : list A) (pipeline : A -> Outcome nat)
    (failed : A -> exn -> string) (found : A -> nat -> string) (e : exn) :
  first_raise ((fun x => threshold (pipeline x) (failed x) (found x)) <$> xs)
    = Raises e ->
  exn_class e = RuntimeError.
Proof.
  apply first_raise_class. apply Forall_fmap, Forall_forall.
  intros x _ e'. apply threshold_class.
Qed.

(** Whatever a check raises is a [RuntimeError]. *)
Lemma checks_raise_RuntimeError (self : DataQualityManager)
    (spark : SparkSession) (df : DataFrame) (w : World) (e : exn) :
  (forall key_columns use_sql,
     (_check_for_duplicates sqlparse_format api self spark df key_columns use_sql
        w).2 = Raises e -> exn_class e = RuntimeError) /\
  (forall critical_columns,
     (_check_for_nulls api self df critical_columns w).2 = Raises e ->
     exn_class e = RuntimeError) /\
  (forall column_ranges,
     (_check_value_ranges str_number api self df column_ranges w).2 = Raises e ->
     exn_class e = RuntimeError) /\
  (forall reference_df join_column,
     (_check_referential_integrity api self df reference_df join_column w).2
       = Raises e -> exn_class e = RuntimeError) /\
  (forall consistency_pairs,
     (_check_consistency_between_fields api self df consistency_pairs w).2
       = Raises e -> exn_class e = RuntimeError).
Proof.
  repeat split.
  - intros key_columns [].
    + destruct (check_for_duplicates_sql_run self spark df key_columns w)
        as (_ & ->). apply threshold_class.
    + destruct (check_for_duplicates_run self spark df key_columns w)
        as (_ & _ & ->). apply threshold_class.
  - intros critical_columns.
    destruct (check_for_nulls_run self df critical_columns w) as (_ & _ & ->).
    apply loop_class.
  - intros column_ranges.
    destruct (check_value_ranges_run self df column_ranges w) as (_ & _ & ->).
    apply (loop_class column_ranges
             (fun r => counted api (api_filter_out_of_range api df r.1 r.2.1 r.2.2))).
  - intros reference_df join_column.
    destruct (check_referential_integrity_run self df reference_df join_column w)
      as (_ & _ & ->). apply threshold_class.
  - intros consistency_pairs.
    destruct (check_consistency_run self df consistency_pairs w) as (_ & _ & ->).
    apply (loop_class consistency_pairs
             (fun p => counted api (api_filter_gt_columns api df p.1 p.2))).
Qed.

(** C1 (amended).  Each check raises exactly when the engine raises while
    it answers the check's query or counts its rows, or the count is
    greater than zero; otherwise the check returns.  The queries are:
    - [_check_for_duplicates]: the frame grouped by the key columns and
      counted, filtered on [count > 1]; with [use_sql], the answer to
      the GROUP BY ... HAVING COUNT > 1 statement, run with the frame
      registered as [temp_view_check_duplicates];
    - [_check_for_nulls]: for some listed column, the rows where it is
      NULL;
    - [_check_value_ranges]: for some listed column, the rows where it is
      below the minimum or above the maximum;
    - [_check_referential_integrity]: the left anti join with the
      reference on the join column;
    - [_check_consistency_between_fields]: for some listed pair, the rows
      where the first column is greater than the second. *)
Theorem checks_raise_iff_engine_fails_or_violation (self : DataQualityManager)
    (spark : SparkSession) (df : DataFrame) (w : World) :
  (forall key_columns,
     raises (_check_for_duplicates sqlparse_format api self spark df key_columns
               false w).2 <->
     fails_or_finds
       (counted api
          match api_groupBy_count api df (as_list key_columns) with
          | Returns grouped => api_filter_gt api grouped "count" 1
          | Raises e => Raises e
          end)) /\
  (forall key_columns,
     raises (_check_for_duplicates sqlparse_format api self spark df key_columns
               true w).2 <->
     fails_or_finds
       (counted api
          match sql_engine spark
                  (<["temp_view_check_duplicates" := df]> (catalog w))
                  (duplicate_check_query (as_list key_columns)) with
          | Returns (_, found) => Returns found
          | Raises e => Raises e
          end)) /\
  (forall critical_columns,
     raises (_check_for_nulls api self df critical_columns w).2 <->
     exists c, c ∈ critical_columns /\
               fails_or_finds (counted api (api_filter_isNull api df c))) /\
  (forall column_ranges,
     raises (_check_value_ranges str_number api self df column_ranges w).2 <->
     exists c lo hi,
       (c, (lo, hi)) ∈ column_ranges /\
       fails_or_finds (counted api (api_filter_out_of_range api df c lo hi))) /\
  (forall reference_df join_column,
     raises (_check_referential_integrity api self df reference_df join_column
               w).2 <->
     fails_or_finds
       (counted api (api_join_left_anti api df reference_df join_column))) /\
  (forall consistency_pairs,
     raises (_check_consistency_between_fields api self df consistency_pairs
               w).2 <->
     exists c1 c2,
       (c1, c2) ∈ consistency_pairs /\
       fails_or_finds (counted api (api_filter_gt_columns api df c1 c2))).
Proof.
  split; [|split; [|split; [|split; [|split]]]].
  - intros key_columns.
    destruct (check_for_duplicates_run self spark df key_columns w)
      as (_ & _ & ->).
    apply threshold_raises.
  - intros key_columns.
    destruct (check_for_duplicates_sql_run self spark df key_columns w)
      as (_ & ->).
    apply threshold_raises.
  - intros critical_columns.
    destruct (check_for_nulls_run self df critical_columns w) as (_ & _ & ->).
    apply loop_raises.
  - intros column_ranges.
    destruct (check_value_ranges_run self df column_ranges w) as (_ & _ & ->).
    rewrite (loop_raises column_ranges
               (fun r => counted api
                           (api_filter_out_of_range api df r.1 r.2.1 r.2.2))).
    split.
    + intros ([c [lo hi]] & Hin & Hf). by exists c, lo, hi.
    + intros (c & lo & hi & Hin & Hf). by exists (c, (lo, hi)).
  - intros reference_df join_column.
    destruct (check_referential_integrity_run self df reference_df join_column w)
      as (_ & _ & ->).
    apply threshold_raises.
  - intros consistency_pairs.
    destruct (check_consistency_run self df consistency_pairs w) as (_ & _ & ->).
    rewrite (loop_raises consistency_pairs
               (fun p => counted api (api_filter_gt_columns api df p.1 p.2))).
    split.
    + intros ([c1 c2] & Hin & Hf). by exists c1, c2.
    + intros (c1 & c2 & Hin & Hf). by exists (c1, c2).
Qed.

(** ** Exceptions of the engine *)

Lemma raises_logged_returns {A} (m : M A) :
  (forall w, exists a, (m w).2 = Returns a) -> raises_logged m.
Proof. intros Hm w e He. destruct (Hm w) as [a Ha]. congruence. Qed.

Lemma raises_logged_raise_error {A} (self : DataQualityManager) (message : string) :
  raises_logged (@_raise_error A self message).
Proof.
  intros w e. rewrite raise_error_run. simpl. intros [= <-].
  split; [done|]. by eexists.
Qed.

Lemma raises_logged_bind {A B} (m : M A) (k : A -> M B) :
  raises_logged m -> (forall a, raises_logged (k a)) -> raises_logged (bind m k).
Proof.
  intros Hm Hk w e. unfold bind. specialize (Hm w).
  destruct (m w) as [w1 [a|e1]]; simpl in *; [apply Hk|].
  intros [= <-]. by apply Hm.
Qed.

Lemma raises_logged_try_except {A} (body : M A) (handler : exn -> M A) :
  (forall e, raises_logged (handler e)) -> raises_logged (try_except body handler).
Proof.
  intros Hh w e. unfold try_except.
  destruct (body w) as [w1 [a|e1]]; simpl; [done | apply Hh].
Qed.

Lemma raises_logged_when (b : bool) (m : M unit) :
  raises_logged m -> raises_logged (when b m).
Proof. intros Hm. destruct b; [exact Hm | by apply raises_logged_returns; eexists]. Qed.

Lemma raises_logged_for_each {A} (xs : list A) (body : A -> M unit) :
  (forall x, raises_logged (body x)) -> raises_logged (for_each xs body).
Proof.
  intros Hb. induction xs as [|x xs IH]; simpl.
  - by apply raises_logged_returns; eexists.
  - apply raises_logged_bind; [apply Hb | intros _; exact IH].
Qed.

Lemma raises_logged_emit (ev : Event) : raises_logged (emit ev).
Proof. by apply raises_logged_returns; eexists. Qed.

Lemma raises_logged_log_block (self : DataQualityManager) (header : string)
    (content_lines : list string) :
  raises_logged (_log_block self header content_lines).
Proof. apply raises_logged_when, raises_logged_emit. Qed.

Ltac raises_logged_step :=
  cbv beta zeta;
  match goal with
  | |- raises_logged (bind _ _) => apply raises_logged_bind; [|intros ?]
  | |- raises_logged (try_except _ _) =>
      apply raises_logged_try_except; intros ?
  | |- raises_logged (for_each _ _) => apply raises_logged_for_each; intros ?
  | |- raises_logged (emit _) => apply raises_logged_emit
  | |- raises_logged (_log_block _ _ _) => apply raises_logged_log_block
  | |- raises_logged (_raise_error _ _) => apply raises_logged_raise_error
  | |- raises_logged (match ?x with _ => _ end) => destruct x
  end.

(** Whatever a check raises is a [RuntimeError] that it has logged. *)
Lemma checks_raise_logged (self : DataQualityManager) (spark : SparkSession)
    (df : DataFrame) :
  (forall key_columns use_sql,
     raises_logged (_check_for_duplicates sqlparse_format api self spark df
                      key_columns use_sql)) /\
  (forall critical_columns,
     raises_logged (_check_for_nulls api self df critical_columns)) /\
  (forall column_ranges,
     raises_logged (_check_value_ranges str_number api self df column_ranges)) /\
  (forall reference_df join_column,
     raises_logged (_check_referential_integrity api self df reference_df
                      join_column)) /\
  (forall consistency_pairs,
     raises_logged (_check_consistency_between_fields api self df
                      consistency_pairs)).
Proof.
  split; [|split; [|split; [|split]]]; intros.
  - unfold _check_for_duplicates. repeat raises_logged_step.
  - unfold _check_for_nulls. repeat raises_logged_step.
  - unfold _check_value_ranges. repeat raises_logged_step.
  - unfold _check_referential_integrity. repeat raises_logged_step.
  - unfold _check_consistency_between_fields. repeat raises_logged_step.
Qed.

(** An engine failure inside [_handle_multiple_files], at either of the
    two calls of each path: replaced when it is an [AnalysisException],
    passed on otherwise. *)
Lemma handle_multiple_files_engine_failure (self : DataQualityManager)
    (spark : SparkSession) (df : DataFrame) (key_columns : StrOrList)
    (order_by : option StrOrList) (w : World) (e : exn) :
  let first :=
    sql_engine spark (<["temp_original_data" := df]> (catalog w))
      (recent_data_query (partition_columns set_order key_columns)
         (order_by_clause (order_by_columns order_by))) in
  first = Raises e \/
  (exists views answer,
     first = Returns (views, answer) /\
     sql_engine spark views "SELECT * FROM temp_recent_data" = Raises e) ->
  (_handle_multiple_files sqlparse_format set_order api self spark df key_columns
     order_by true w).2 =
  Raises (if decide (exn_class e = AnalysisException)
          then mkExn RuntimeError ("Failed to handle multiple files: " +:+ str_exn e)
          else e).
Proof.
  intros first Hq. subst first. revert Hq. unfold _handle_multiple_files.
  generalize (recent_data_query (partition_columns set_order key_columns)
                (order_by_clause (order_by_columns order_by))) as q.
  intros q Hq. qrun.
  destruct Hq as [Hq|(views & answer & Hq & Hs)];
    destruct (debug self); simpl; rewrite Hq; simpl; rewrite ?Hs; simpl;
    destruct (decide (exn_class e = AnalysisException)); simpl;
    rewrite ?raise_error_run; done.
Qed.

Lemma handle_multiple_files_window_failure (self : DataQualityManager)
    (spark : SparkSession) (df : DataFrame) (key_columns : StrOrList)
    (order_by : option StrOrList) (w : World) (e : exn) :
  let numbered :=
    api_withColumn_row_number api "rnr" (partition_columns set_order key_columns)
      (order_by_columns order_by) df in
  numbered = Raises e \/
  (exists d, numbered = Returns d /\ api_filter_eq api d "rnr" 1 = Raises e) ->
  (_handle_multiple_files sqlparse_format set_order api self spark df key_columns
     order_by false w).2 =
  Raises (if decide (exn_class e = AnalysisException)
          then mkExn RuntimeError ("Failed to handle multiple files: " +:+ str_exn e)
          else e).
Proof.
  intros numbered Hq. subst numbered. unfold _handle_multiple_files. qrun.
  destruct Hq as [Hq|(d & Hq & Hs)];
    destruct (debug self); simpl; rewrite Hq; simpl; rewrite ?Hs; simpl;
    destruct (decide (exn_class e = AnalysisException)); simpl;
    rewrite ?raise_error_run; done.
Qed.

(** A loop reaches the first column on which the engine raises when the
    columns before it pass. *)
Lemma loop_engine_failure {A} (passed : list A) (x : A) (rest : list A)
    (pipeline : A -> Outcome nat) (failed : A -> exn -> string)
    (found : A -> nat -> string) (e : exn) :
  Forall (fun y => pipeline y = Returns 0%nat) passed ->
  pipeline x = Raises e ->
  first_raise ((fun y => threshold (pipeline y) (failed y) (found y))
                 <$> passed ++ x :: rest) =
  Raises (mkExn RuntimeError (failed x e)).
Proof.
  intros Hpassed Hx. rewrite fmap_app, fmap_cons, first_raise_skip.
  - by rewrite Hx.
  - apply Forall_fmap. eapply Forall_impl; [exact Hpassed|].
    intros y Hy. simpl. by rewrite Hy.
Qed.

Ltac loop_fails pipeline passed x rest :=
  match goal with
  | He : _ = Raises ?e
    |- first_raise ((fun y => threshold _ (@?failed y) (@?found y)) <$> _) = _ =>
      exact (loop_engine_failure passed x rest pipeline failed found e
               ltac:(assumption) He)
  end.

(** C6 (amended).  What becomes of an exception [e] of the engine.
    In merge_management.py, [get_pre_merge_version] (whether the
    DESCRIBE HISTORY statement or the selection of [version] raises),
    [execute_merge_and_get_post_version] and [display_newly_merged_data]
    write one message to the helper, when there is one, and re-raise the
    very same exception; they change nothing else.
    In quality.py the exception is replaced: each check (the duplicate
    check on both paths, and the null, range, referential and consistency
    checks at the first column or pair on which the engine raises, those
    before it passing) raises a new [RuntimeError] whose message is the
    check's "Failed to ..." text followed by the text of [e];
    [_handle_multiple_files] does so for an [AnalysisException], at
    either call of the engine on both paths, and lets any other exception
    through unchanged.  Whatever a
    check raises is a [RuntimeError] that it has logged at level error
    just before.  In every case the operation raises: no exception is
    suppressed. *)
Theorem engine_exceptions_reraised_or_replaced (self : DataQualityManager)
    (spark : SparkSession) (database_name table_name : string)
    (helper : option Helper) (df : DataFrame) (w : World) (e : exn) :
  let logged (text : string) :=
    match helper with
    | Some _ => [WriteMessage (text +:+ str_exn e)]
    | None => []
    end in
  let describe := "DESCRIBE HISTORY " +:+ database_name +:+ "." +:+ table_name +:+
                  " LIMIT 1" in
  (sql_engine spark (catalog w) describe = Raises e ->
   get_pre_merge_version spark database_name table_name helper w =
   (mkWorld (catalog w)
      (events w ++ SqlQuery describe ::
       logged "Error retrieving pre-merge version: "),
    Raises e)) /\
  (forall views history,
     sql_engine spark (catalog w) describe = Returns (views, history) ->
     DF.select history ["version"] = Raises e ->
     get_pre_merge_version spark database_name table_name helper w =
     (mkWorld views
        (events w ++ SqlQuery describe ::
         logged "Error retrieving pre-merge version: "),
      Raises e)) /\
  (forall merge_sql pre_merge_version,
     sql_engine spark (catalog w) merge_sql = Raises e ->
     execute_merge_and_get_post_version spark database_name table_name merge_sql
       pre_merge_version helper w =
     (mkWorld (catalog w)
        (events w ++ SqlQuery merge_sql :: logged "Error during data merge: "),
      Raises e)) /\
  (forall p q,
     let query := merged_data_sql database_name table_name p q in
     sql_engine spark (catalog w) query = Raises e ->
     display_newly_merged_data spark database_name table_name p q helper w =
     (mkWorld (catalog w)
        (events w ++
         match helper with
         | Some _ => [WriteMessage ("Displaying newly merged data with query: "
                                    +:+ query)]
         | None => []
         end ++ SqlQuery query :: logged "Error displaying merged data: "),
      Raises e)) /\
  (forall key_columns,
     counted api
       match api_groupBy_count api df (as_list key_columns) with
       | Returns grouped => api_filter_gt api grouped "count" 1
       | Raises e' => Raises e'
       end = Raises e ->
     (_check_for_duplicates sqlparse_format api self spark df key_columns false
        w).2 =
     Raises (mkExn RuntimeError ("Failed to check for duplicates: " +:+ str_exn e))) /\
  (forall key_columns,
     counted api
       match sql_engine spark
               (<["temp_view_check_duplicates" := df]> (catalog w))
               (duplicate_check_query (as_list key_columns)) with
       | Returns (_, found) => Returns found
       | Raises e' => Raises e'
       end = Raises e ->
     (_check_for_duplicates sqlparse_format api self spark df key_columns true
        w).2 =
     Raises (mkExn RuntimeError ("Failed to check for duplicates: " +:+ str_exn e))) /\
  (forall passed col rest,
     Forall (fun c => counted api (api_filter_isNull api df c) = Returns 0%nat)
            passed ->
     counted api (api_filter_isNull api df col) = Raises e ->
     (_check_for_nulls api self df (passed ++ col :: rest) w).2 =
     Raises (mkExn RuntimeError
               ("Failed to check for null values in column " +:+
                Py.repr_str col +:+ ": " +:+ str_exn e))) /\
  (forall passed col lo hi rest,
     Forall (fun r : string * (Number * Number) =>
               counted api (api_filter_out_of_range api df r.1 r.2.1 r.2.2)
               = Returns 0%nat) passed ->
     counted api (api_filter_out_of_range api df col lo hi) = Raises e ->
     (_check_value_ranges str_number api self df
        (passed ++ (col, (lo, hi)) :: rest) w).2 =
     Raises (mkExn RuntimeError
               ("Failed to check value ranges for column " +:+
                Py.repr_str col +:+ ": " +:+ str_exn e))) /\
  (forall reference_df join_column,
     counted api (api_join_left_anti api df reference_df join_column) = Raises e ->
     (_check_referential_integrity api self df reference_df join_column w).2 =
     Raises (mkExn RuntimeError
               ("Failed to check referential integrity for column " +:+
                Py.repr_str join_column +:+ ": " +:+ str_exn e))) /\
  (forall passed col1 col2 rest,
     Forall (fun p : string * string =>
               counted api (api_filter_gt_columns api df p.1 p.2) = Returns 0%nat)
            passed ->
     counted api (api_filter_gt_columns api df col1 col2) = Raises e ->
     (_check_consistency_between_fields api self df
        (passed ++ (col1, col2) :: rest) w).2 =
     Raises (mkExn RuntimeError
               ("Failed to check consistency between fields " +:+
                Py.repr_str col1 +:+ " and " +:+ Py.repr_str col2 +:+ ": " +:+
                str_exn e))) /\
  (forall key_columns order_by,
     let first :=
       sql_engine spark (<["temp_original_data" := df]> (catalog w))
         (recent_data_query (list_set set_order
                               ("input_file_name" :: as_list key_columns))
            (order_by_clause (order_by_columns order_by))) in
     first = Raises e \/
     (exists views answer,
        first = Returns (views, answer) /\
        sql_engine spark views "SELECT * FROM temp_recent_data" = Raises e) ->
     (_handle_multiple_files sqlparse_format set_order api self spark df
        key_columns order_by true w).2 =
     Raises (if decide (exn_class e = AnalysisException)
             then mkExn RuntimeError
                    ("Failed to handle multiple files: " +:+ str_exn e)
             else e)) /\
  (forall key_columns order_by,
     let numbered :=
       api_withColumn_row_number api "rnr"
         (list_set set_order ("input_file_name" :: as_list key_columns))
         (order_by_columns order_by) df in
     numbered = Raises e \/
     (exists d, numbered = Returns d /\ api_filter_eq api d "rnr" 1 = Raises e) ->
     (_handle_multiple_files sqlparse_format set_order api self spark df
        key_columns order_by false w).2 =
     Raises (if decide (exn_class e = AnalysisException)
             then mkExn RuntimeError
                    ("Failed to handle multiple files: " +:+ str_exn e)
             else e)) /\
  (forall key_columns use_sql,
     raises_logged (_check_for_duplicates sqlparse_format api self spark df
                      key_columns use_sql)) /\
  (forall critical_columns,
     raises_logged (_check_for_nulls api self df critical_columns)) /\
  (forall column_ranges,
     raises_logged (_check_value_ranges str_number api self df column_ranges)) /\
  (forall reference_df join_column,
     raises_logged (_check_referential_integrity api self df reference_df
                      join_column)) /\
  (forall consistency_pairs,
     raises_logged (_check_consistency_between_fields api self df
                      consistency_pairs)).
Proof.
  intros logged describe. subst logged.
  split; [|split; [|split; [|split; [|split; [|split; [|split; [|split; [|split;
    [|split; [|split; [|split]]]]]]]]]]].
  - intros Hq. unfold get_pre_merge_version. fold describe. run. rewrite Hq.
    destruct helper; simpl; by rewrite <- ?app_assoc.
  - intros views history Hq Hs. unfold get_pre_merge_version. fold describe.
    run. rewrite Hq. simpl. rewrite Hs. simpl.
    destruct helper; simpl; by rewrite <- ?app_assoc.
  - intros merge_sql v Hq. unfold execute_merge_and_get_post_version. run.
    rewrite Hq. destruct helper; simpl; by rewrite <- ?app_assoc.
  - intros p q query Hq. unfold display_newly_merged_data. fold query. run.
    destruct helper; simpl; rewrite Hq; simpl; by rewrite <- ?app_assoc.
  - intros key_columns He.
    destruct (check_for_duplicates_run self spark df key_columns w)
      as (_ & _ & ->).
    unfold duplicates_df. by rewrite He.
  - intros key_columns He.
    destruct (check_for_duplicates_sql_run self spark df key_columns w)
      as (_ & ->).
    by rewrite He.
  - intros passed col rest Hpassed He.
    destruct (check_for_nulls_run self df (passed ++ col :: rest) w)
      as (_ & _ & ->).
    loop_fails (fun c => counted api (api_filter_isNull api df c)) passed col rest.
  - intros passed col lo hi rest Hpassed He.
    destruct (check_value_ranges_run self df (passed ++ (col, (lo, hi)) :: rest) w)
      as (_ & _ & ->).
    loop_fails (fun r : string * (Number * Number) =>
                  counted api (api_filter_out_of_range api df r.1 r.2.1 r.2.2))
               passed (col, (lo, hi)) rest.
  - intros reference_df join_column He.
    destruct (check_referential_integrity_run self df reference_df join_column w)
      as (_ & _ & ->).
    by rewrite He.
  - intros passed col1 col2 rest Hpassed He.
    destruct (check_consistency_run self df (passed ++ (col1, col2) :: rest) w)
      as (_ & _ & ->).
    loop_fails (fun p : string * string =>
                  counted api (api_filter_gt_columns api df p.1 p.2))
               passed (col1, col2) rest.
  - intros key_columns order_by. apply handle_multiple_files_engine_failure.
  - intros key_columns order_by. apply handle_multiple_files_window_failure.
  - apply checks_raise_logged.
Qed.

(** ** The driver *)

Lemma handle_multiple_files_passes (self : DataQualityManager)
    (spark : SparkSession) (df : DataFrame) (key_columns : StrOrList)
    (order_by : option StrOrList) (use_sql : bool) (w : World) :
  passes (events (_handle_multiple_files sqlparse_format set_order api self spark df key_columns
                    order_by use_sql w).1) =
  passes (events w) ++ [HandlingMultipleFiles].
Proof.
  unfold _handle_multiple_files, passes.
  generalize (recent_data_query (partition_columns set_order key_columns)
                (order_by_clause (order_by_columns order_by))) as q.
  intros q. destruct use_sql; crunch.
Qed.

Lemma announce_checks_run (self : DataQualityManager) (key_columns : StrOrList)
    (critical_columns : option (list string))
    (column_ranges : option (list (string * (Number * Number))))
    (reference_df : option DataFrame) (join_column : option string)
    (consistency_pairs : option (list (string * string)))
    (columns_to_exclude : option (list string)) (w : World) :
  let out := announce_checks self key_columns critical_columns column_ranges
               reference_df join_column consistency_pairs columns_to_exclude w in
  out.2 = Returns tt /\ catalog out.1 = catalog w /\
  passes (events out.1) = passes (events w).
Proof. unfold announce_checks, passes. crunch. Qed.

Lemma exclude_columns_run (self : DataQualityManager) (df : DataFrame)
    (columns_to_exclude : option (list string)) (w : World) :
  let out := exclude_columns api self df columns_to_exclude w in
  out.2 = Returns (if truthy_list columns_to_exclude
                   then api_drop api (default [] columns_to_exclude) df
                   else df) /\
  catalog out.1 = catalog w /\
  passes (events out.1) =
    passes (events w) ++
    (if truthy_list columns_to_exclude then [ExcludeColumns] else []).
Proof.
  unfold exclude_columns, passes.
  destruct (truthy_list columns_to_exclude); crunch.
Qed.

(** A guarded check that keeps the views and adds its pass. *)
Lemma when_run (b : bool) (m : M unit) (p : Pass) (w : World) :
  (forall w, catalog (m w).1 = catalog w /\
             passes (events (m w).1) = passes (events w) ++ [p]) ->
  catalog (when b m w).1 = catalog w /\
  passes (events (when b m w).1) = passes (events w) ++ (if b then [p] else []).
Proof.
  intros Hm. destruct b; simpl; [apply Hm|]. by rewrite app_nil_r.
Qed.


Lemma try_except_bind {A B} (m : M A) (k : A -> M B) (h : exn -> M B) (w : World) :
  try_except (bind m k) h w =
  match m w with
  | (w', Returns a) => try_except (k a) h w'
  | (w', Raises e) => h e w'
  end.
Proof. unfold try_except, bind. by destruct (m w) as [w' [a|e]]. Qed.

Lemma failure_handler_passes {A} (self : DataQualityManager) (e : exn) (w : World) :
  passes (events ((emit (LogEnd "Data Quality Check Process" false None) ;;;
                   @_raise_error A self
                     ("Data quality checks failed: " +:+ str_exn e)) w).1)
  = passes (events w).
Proof. unfold passes. crunch. Qed.

(** In every run, whether it ends well or not, the passes started are an
    initial part of the expected ones: a pass whose parameter is absent is
    never started, the duplicate check apart, which is always expected. *)
Lemma perform_data_quality_checks_passes_prefix (self : DataQualityManager)
    (spark : SparkSession) (df : DataFrame) (key_columns : StrOrList)
    (critical_columns : option (list string))
    (column_ranges : option (list (string * (Number * Number))))
    (reference_df : option DataFrame) (join_column : option string)
    (consistency_pairs : option (list (string * string)))
    (columns_to_exclude : option (list string))
    (order_by : option StrOrList) (use_sql : bool) (w : World) :
  exists started,
    passes (events (perform_data_quality_checks sqlparse_format str_number set_order api self spark df
                      key_columns critical_columns column_ranges reference_df
                      join_column consistency_pairs columns_to_exclude order_by
                      use_sql w).1) = passes (events w) ++ started /\
    started `prefix_of`
      expected_passes key_columns critical_columns column_ranges reference_df
        join_column consistency_pairs columns_to_exclude.
Proof.
  unfold perform_data_quality_checks, expected_passes.
  rewrite call_handle_multiple_files_bound.
  set (X1 := if truthy_keys key_columns then [HandlingMultipleFiles] else []).
  set (X3 := if truthy_list critical_columns then [NullValuesCheck] else []).
  set (X4 := if truthy_list column_ranges then [ValueRangeCheck] else []).
  set (X5 := if truthy_df reference_df && truthy_str join_column
             then [ReferentialIntegrityCheck] else []).
  set (X6 := if truthy_list consistency_pairs then [FieldConsistencyCheck] else []).
  set (X7 := if truthy_list columns_to_exclude then [ExcludeColumns] else []).
  unfold bind at 1.
  destruct (announce_checks_run self key_columns critical_columns column_ranges
              reference_df join_column consistency_pairs columns_to_exclude w)
    as (H0 & _ & Hp0).
  destruct (announce_checks _ _ _ _ _ _ _ _ w) as [w0 o0]. simpl in H0, Hp0. subst o0.
  (* deduplication *)
  rewrite try_except_bind.
  assert (forall w', passes (events
            ((if truthy_keys key_columns
              then _handle_multiple_files sqlparse_format set_order api self spark df key_columns
                     order_by use_sql
              else ret df) w').1) = passes (events w') ++ X1) as Hs1.
  { intros w'. subst X1. destruct (truthy_keys key_columns).
    - apply handle_multiple_files_passes.
    - simpl. by rewrite app_nil_r. }
  specialize (Hs1 w0).
  match type of Hs1 with
  | passes (events (?stage).1) = _ => destruct stage as [w1 [df1|e]]
  end; simpl in Hs1.
  2: { exists X1. rewrite failure_handler_passes, Hs1, Hp0.
       split; [done|]. by apply prefix_app_r. }
  (* duplicate check *)
  rewrite try_except_bind.
  assert (passes (events (_check_for_duplicates sqlparse_format api self spark df1
                            key_columns use_sql w1).1)
          = passes (events w1) ++ [DuplicateCheck]) as Hs2.
  { destruct use_sql.
    - by destruct (check_for_duplicates_sql_run self spark df1 key_columns w1)
        as (? & _).
    - by destruct (check_for_duplicates_run self spark df1 key_columns w1)
        as (_ & ? & _). }
  destruct (_check_for_duplicates _ _ _ _ _ _ _ w1) as [w2 [[]|e]]; simpl in Hs2.
  2: { exists (X1 ++ [DuplicateCheck]).
       rewrite failure_handler_passes, Hs2, Hs1, Hp0, <- !app_assoc.
       split; [done|]. apply prefix_app. by apply prefix_app_r. }
  (* null check *)
  rewrite try_except_bind.
  destruct (when_run (truthy_list critical_columns)
              (_check_for_nulls api self df1 (default [] critical_columns))
              NullValuesCheck w2) as [_ Hs3].
  { intros w'. by destruct (check_for_nulls_run self df1
                             (default [] critical_columns) w') as (? & ? & _). }
  fold X3 in Hs3.
  destruct (when _ _ w2) as [w3 [[]|e]]; simpl in Hs3.
  2: { exists (X1 ++ [DuplicateCheck] ++ X3).
       rewrite failure_handler_passes, Hs3, Hs2, Hs1, Hp0, <- !app_assoc.
       split; [done|]. do 2 apply prefix_app. by apply prefix_app_r. }
  (* range check *)
  rewrite try_except_bind.
  destruct (when_run (truthy_list column_ranges)
              (_check_value_ranges str_number api self df1 (default [] column_ranges))
              ValueRangeCheck w3) as [_ Hs4].
  { intros w'. by destruct (check_value_ranges_run self df1
                             (default [] column_ranges) w') as (? & ? & _). }
  fold X4 in Hs4.
  destruct (when _ _ w3) as [w4 [[]|e]]; simpl in Hs4.
  2: { exists (X1 ++ [DuplicateCheck] ++ X3 ++ X4).
       rewrite failure_handler_passes, Hs4, Hs3, Hs2, Hs1, Hp0, <- !app_assoc.
       split; [done|]. do 3 apply prefix_app. by apply prefix_app_r. }
  (* referential integrity *)
  rewrite try_except_bind.
  destruct (when_run (truthy_df reference_df && truthy_str join_column)
              (_check_referential_integrity api self df1
                 (default (mkDataFrame [] []) reference_df)
                 (default EmptyString join_column))
              ReferentialIntegrityCheck w4) as [_ Hs5].
  { intros w'. by destruct (check_referential_integrity_run self df1
                             (default (mkDataFrame [] []) reference_df)
                             (default EmptyString join_column) w')
                    as (? & ? & _). }
  fold X5 in Hs5.
  destruct (when _ _ w4) as [w5 [[]|e]]; simpl in Hs5.
  2: { exists (X1 ++ [DuplicateCheck] ++ X3 ++ X4 ++ X5).
       rewrite failure_handler_passes, Hs5, Hs4, Hs3, Hs2, Hs1, Hp0, <- !app_assoc.
       split; [done|]. do 4 apply prefix_app. by apply prefix_app_r. }
  (* field consistency *)
  rewrite try_except_bind.
  destruct (when_run (truthy_list consistency_pairs)
              (_check_consistency_between_fields api self df1
                 (default [] consistency_pairs))
              FieldConsistencyCheck w5) as [_ Hs6].
  { intros w'. by destruct (check_consistency_run self df1
                             (default [] consistency_pairs) w') as (? & ? & _). }
  fold X6 in Hs6.
  destruct (when _ _ w5) as [w6 [[]|e]]; simpl in Hs6.
  2: { exists (X1 ++ [DuplicateCheck] ++ X3 ++ X4 ++ X5 ++ X6).
       rewrite failure_handler_passes, Hs6, Hs5, Hs4, Hs3, Hs2, Hs1, Hp0,
         <- !app_assoc.
       split; [done|]. do 5 apply prefix_app. by apply prefix_app_r. }
  (* exclusion and the final view *)
  rewrite try_except_bind.
  destruct (exclude_columns_run self df1 columns_to_exclude w6) as (H7 & _ & Hs7).
  fold X7 in Hs7.
  destruct (exclude_columns api self df1 columns_to_exclude w6) as [w7 o7].
  simpl in H7, Hs7. subst o7.
  exists (X1 ++ [DuplicateCheck] ++ X3 ++ X4 ++ X5 ++ X6 ++ X7).
  split; [|done].
  transitivity (passes (events w7)).
  { unfold passes, temp_view_name. crunch. }
  by rewrite Hs7, Hs6, Hs5, Hs4, Hs3, Hs2, Hs1, Hp0, <- !app_assoc.
Qed.

(** ** Deduplication in the reference engine *)

(** What the DataFrame path of [_handle_multiple_files] does instead of
    keeping one row per key: in the reference engine, on a well-formed
    frame without a column [rnr] whose partition and order columns
    resolve, it keeps the schema and returns one row of the input for
    every combination of values of the key columns together with
    [input_file_name], a row that no row of its partition precedes in
    descending order of the [order_by] columns. *)
Lemma handle_multiple_files_one_row_per_key_and_file
    (self : DataQualityManager) (spark : SparkSession) (df : DataFrame)
    (key_columns : StrOrList) (order_by : option StrOrList) (w : World)
    (p o : list nat) :
  DF.well_formed df ->
  "rnr" ∉ columns df ->
  DF.resolve_all df (partition_columns set_order key_columns) = Returns p ->
  DF.resolve_all df (order_by_columns order_by) = Returns o ->
  exists latest,
    (_handle_multiple_files sqlparse_format set_order reference_api self spark df
       key_columns order_by false w).2 = Returns latest /\
    columns latest = columns df /\
    (forall r, r ∈ rows latest -> r ∈ rows df) /\
    NoDup (DF.project p <$> rows latest) /\
    (forall r, r ∈ rows df -> DF.project p r ∈ DF.project p <$> rows latest) /\
    (forall kept r, kept ∈ rows latest -> r ∈ rows df ->
       DF.project p r = DF.project p kept ->
       DF.desc_before (DF.project o r) (DF.project o kept) = false).
Proof.
  intros Hwf Hc Hp Ho.
  destruct (keep_first_rows df _ _ p o Hwf Hc Hp Ho)
    as (numbered & first & Hn & Hf & Hd).
  exists (mkDataFrame (columns df) (first_rows p o (rows df))).
  split.
  - unfold _handle_multiple_files. qrun. rewrite Hn. simpl. rewrite Hf. simpl.
    rewrite Hd. by destruct (debug self).
  - cbn [columns rows]. split; [done|]. split; [apply first_rows_elem|].
    rewrite first_rows_keys. split; [apply NoDup_remove_dups|]. split.
    + intros r Hr. apply elem_of_remove_dups, list_elem_of_fmap. by exists r.
    + intros kept r. apply first_rows_latest.
Qed.

(** ** Runs that stay away from the engine *)

Lemma untouched_refl (w : World) : untouched w w.
Proof. by split. Qed.

Lemma untouched_trans (w1 w2 w3 : World) :
  untouched w1 w2 -> untouched w2 w3 -> untouched w1 w3.
Proof. intros [Hc1 Hq1] [Hc2 Hq2]. split; congruence. Qed.

Lemma offline_ret {A} (a : A) : offline (ret a).
Proof. intros w. apply untouched_refl. Qed.

Lemma offline_raise {A} (e : exn) : offline (@raise A e).
Proof. intros w. apply untouched_refl. Qed.

Lemma offline_lift {A} (o : Outcome A) : offline (lift o).
Proof. intros w. apply untouched_refl. Qed.

Lemma offline_emit (ev : Event) :
  (forall q, ev <> SqlQuery q) -> offline (emit ev).
Proof.
  intros Hev w. split; [done|]. unfold emit, sql_queries. simpl.
  rewrite omap_app. simpl. destruct ev; try by rewrite app_nil_r.
  by destruct (Hev query).
Qed.

Lemma offline_bind {A B} (m : M A) (k : A -> M B) :
  offline m -> (forall a, offline (k a)) -> offline (bind m k).
Proof.
  intros Hm Hk w. unfold bind. specialize (Hm w).
  destruct (m w) as [w1 [a|e]]; simpl in *; [|done].
  eapply untouched_trans; [exact Hm | apply Hk].
Qed.

Lemma offline_try_except {A} (body : M A) (handler : exn -> M A) :
  offline body -> (forall e, offline (handler e)) ->
  offline (try_except body handler).
Proof.
  intros Hm Hh w. unfold try_except. specialize (Hm w).
  destruct (body w) as [w1 [a|e]]; simpl in *; [done|].
  eapply untouched_trans; [exact Hm | apply Hh].
Qed.

Lemma offline_try_except_class {A} (c : ExnClass) (body : M A)
    (handler : exn -> M A) :
  offline body -> (forall e, offline (handler e)) ->
  offline (try_except_class c body handler).
Proof.
  intros Hm Hh. apply offline_try_except; [done|]. intros e.
  destruct (decide (exn_class e = c)); [apply Hh | apply offline_raise].
Qed.

Lemma offline_when (b : bool) (m : M unit) : offline m -> offline (when b m).
Proof. intros Hm. destruct b; [exact Hm | apply offline_ret]. Qed.

Lemma offline_for_each {A} (xs : list A) (body : A -> M unit) :
  (forall x, offline (body x)) -> offline (for_each xs body).
Proof.
  intros Hb. induction xs as [|x xs IH]; simpl; [apply offline_ret|].
  apply offline_bind; [apply Hb | intros _; exact IH].
Qed.

Lemma offline_log_message (self : DataQualityManager) (message level : string) :
  offline (_log_message self message level).
Proof. apply offline_when, offline_emit. discriminate. Qed.

Lemma offline_log_block (self : DataQualityManager) (header : string)
    (content_lines : list string) :
  offline (_log_block self header content_lines).
Proof. apply offline_when, offline_emit. discriminate. Qed.

Lemma offline_raise_error {A} (self : DataQualityManager) (message : string) :
  offline (@_raise_error A self message).
Proof.
  apply offline_bind; [apply offline_log_message | intros _; apply offline_raise].
Qed.

Ltac offline_step :=
  cbv beta zeta match;
  match goal with
  | |- offline (bind _ _) => apply offline_bind; [|intros ?]
  | |- offline (try_except_class _ _ _) =>
      apply offline_try_except_class; [|intros ?]
  | |- offline (try_except _ _) => apply offline_try_except; [|intros ?]
  | |- offline (when _ _) => apply offline_when
  | |- offline (for_each _ _) => apply offline_for_each; intros ?
  | |- offline (ret _) => apply offline_ret
  | |- offline (raise _) => apply offline_raise
  | |- offline (lift _) => apply offline_lift
  | |- offline (emit _) => apply offline_emit; discriminate
  | |- offline (_log_message _ _ _) => apply offline_log_message
  | |- offline (_log_block _ _ _) => apply offline_log_block
  | |- offline (_raise_error _ _) => apply offline_raise_error
  | |- offline (if ?b then _ else _) => destruct b
  | |- offline (match ?x with _ => _ end) => destruct x
  end.

(** On the DataFrame path no pass reaches the session. *)
Lemma handle_multiple_files_offline (self : DataQualityManager)
    (spark : SparkSession) (df : DataFrame) (key_columns : StrOrList)
    (order_by : option StrOrList) :
  offline (_handle_multiple_files sqlparse_format set_order api self spark df key_columns
             order_by false).
Proof. unfold _handle_multiple_files. repeat offline_step. Qed.

Lemma check_for_duplicates_offline (self : DataQualityManager)
    (spark : SparkSession) (df : DataFrame) (key_columns : StrOrList) :
  offline (_check_for_duplicates sqlparse_format api self spark df key_columns false).
Proof. unfold _check_for_duplicates. repeat offline_step. Qed.

Lemma check_for_nulls_offline (self : DataQualityManager) (df : DataFrame)
    (critical_columns : list string) :
  offline (_check_for_nulls api self df critical_columns).
Proof. unfold _check_for_nulls. repeat offline_step. Qed.

Lemma check_value_ranges_offline (self : DataQualityManager) (df : DataFrame)
    (column_ranges : list (string * (Number * Number))) :
  offline (_check_value_ranges str_number api self df column_ranges).
Proof. unfold _check_value_ranges. repeat offline_step. Qed.

Lemma check_referential_integrity_offline (self : DataQualityManager)
    (df reference_df : DataFrame) (join_column : string) :
  offline (_check_referential_integrity api self df reference_df join_column).
Proof. unfold _check_referential_integrity. repeat offline_step. Qed.

Lemma check_consistency_offline (self : DataQualityManager) (df : DataFrame)
    (consistency_pairs : list (string * string)) :
  offline (_check_consistency_between_fields api self df consistency_pairs).
Proof. unfold _check_consistency_between_fields. repeat offline_step. Qed.

Lemma exclude_columns_offline (self : DataQualityManager) (df : DataFrame)
    (columns_to_exclude : option (list string)) :
  offline (exclude_columns api self df columns_to_exclude).
Proof. unfold exclude_columns. repeat offline_step. Qed.

Lemma announce_checks_offline (self : DataQualityManager) (key_columns : StrOrList)
    (critical_columns : option (list string))
    (column_ranges : option (list (string * (Number * Number))))
    (reference_df : option DataFrame) (join_column : option string)
    (consistency_pairs : option (list (string * string)))
    (columns_to_exclude : option (list string)) :
  offline (announce_checks self key_columns critical_columns column_ranges
             reference_df join_column consistency_pairs columns_to_exclude).
Proof. unfold announce_checks. repeat offline_step. Qed.

(** ** Every run of the driver *)

Lemma failure_handler_run {A} (self : DataQualityManager) (e : exn) (w : World) :
  (emit (LogEnd "Data Quality Check Process" false None) ;;;
   @_raise_error A self ("Data quality checks failed: " +:+ str_exn e)) w =
  (mkWorld (catalog w)
     (events w ++
      [LogEnd "Data Quality Check Process" false None;
       LogMessage ("Data quality checks failed: " +:+ str_exn e) "error"]),
   Raises (mkExn RuntimeError ("Data quality checks failed: " +:+ str_exn e))).
Proof.
  unfold bind, emit. cbn [fst snd]. rewrite raise_error_run. cbn [catalog events].
  by rewrite <- app_assoc.
Qed.

Lemma bind_returns {A B} (m : M A) (k : A -> M B) (w : World) (a : A) :
  (m w).2 = Returns a -> bind m k w = k a (m w).1.
Proof. unfold bind. destruct (m w) as [w' o]. simpl. by intros ->. Qed.

(** One stage of a [try] block: either it returns and the block goes on
    from the world it left, or it raises and the handler takes over. *)
Lemma try_except_bind_cases {A B} (m : M A) (k : A -> M B) (h : exn -> M B)
    (w : World) (Q : World * Outcome B -> Prop) :
  (forall w' a, m w = (w', Returns a) -> Q (try_except (k a) h w')) ->
  (forall w' e, m w = (w', Raises e) -> Q (h e w')) ->
  Q (try_except (bind m k) h w).
Proof.
  intros Hr He. rewrite try_except_bind.
  destruct (m w) as [w' [a|e]]; [by apply Hr | by apply He].
Qed.

Ltac stage_offline :=
  intros ->;
  first [ apply check_for_duplicates_offline
        | apply exclude_columns_offline
        | apply offline_when;
          first [ apply check_for_nulls_offline
                | apply check_value_ranges_offline
                | apply check_referential_integrity_offline
                | apply check_consistency_offline ]
        | destruct (truthy_keys _);
          [apply handle_multiple_files_offline | apply offline_ret] ].

(** Goes through the next stage of the [try] block of the driver: the
    case in which it raises is closed, the run continues with the other. *)
Ltac stage :=
  match goal with
  | Hu : ?c -> untouched ?w ?w0
    |- context [try_except (bind ?m ?k) ?h ?w0] =>
      let Hoff := fresh "Hoff" in
      let w1 := fresh "w" in
      let E := fresh "E" in
      let Hf := fresh "Hf" in
      assert (c -> offline m) as Hoff by stage_offline;
      pattern (try_except (bind m k) h w0);
      apply try_except_bind_cases;
      [ intros w1 ? E
      | intros w1 ?e E; exists w1; split;
        [ intros Hf; eapply untouched_trans; [exact (Hu Hf)|];
          pose proof (Hoff Hf w0) as Hoff; by rewrite E in Hoff
        | right; eexists; apply failure_handler_run ] ];
      assert (c -> untouched w w1)
        by (intros Hf; eapply untouched_trans; [exact (Hu Hf)|];
            pose proof (Hoff Hf w0) as Hoff; by rewrite E in Hoff);
      clear Hu Hoff
  end.

(** How every run of [perform_data_quality_checks] ends: with the frame
    that went through the checks registered, columns excluded, and the
    end of the process logged as a success; or with the end logged as a
    failure and a [RuntimeError] that carries the text of the cause.  On
    the DataFrame path the session is as before when the [try] block
    ends. *)
Lemma perform_data_quality_checks_run (self : DataQualityManager)
    (spark : SparkSession) (df : DataFrame) (key_columns : StrOrList)
    (critical_columns : option (list string))
    (column_ranges : option (list (string * (Number * Number))))
    (reference_df : option DataFrame) (join_column : option string)
    (consistency_pairs : option (list (string * string)))
    (columns_to_exclude : option (list string))
    (order_by : option StrOrList) (use_sql : bool) (w : World) :
  exists w',
    (use_sql = false -> untouched w w') /\
    ((exists checked,
        let cleaned :=
          if truthy_list columns_to_exclude
          then api_drop api (default [] columns_to_exclude) checked
          else checked in
        perform_data_quality_checks sqlparse_format str_number set_order api self spark df key_columns
          critical_columns column_ranges reference_df join_column
          consistency_pairs columns_to_exclude order_by use_sql w =
        (mkWorld (<[temp_view_name := cleaned]> (catalog w'))
           (events w' ++ TempView temp_view_name cleaned ::
            (if debug self
             then [LogBlock "Finishing Results"
                     ["New temporary view " +:+ Py.repr_str temp_view_name +:+
                      " created.";
                      "All quality checks completed successfully."]]
             else []) ++
            [LogEnd "Data Quality Check Process" true
               (Some "Proceeding with notebook execution.")]),
         Returns temp_view_name)) \/
     (exists cause,
        perform_data_quality_checks sqlparse_format str_number set_order api self spark df key_columns
          critical_columns column_ranges reference_df join_column
          consistency_pairs columns_to_exclude order_by use_sql w =
        (mkWorld (catalog w')
           (events w' ++
            [LogEnd "Data Quality Check Process" false None;
             LogMessage ("Data quality checks failed: " +:+ str_exn cause)
               "error"]),
         Raises (mkExn RuntimeError
                   ("Data quality checks failed: " +:+ str_exn cause))))).
Proof.
  unfold perform_data_quality_checks.
  rewrite call_handle_multiple_files_bound.
  pose proof (announce_checks_offline self key_columns critical_columns
                column_ranges reference_df join_column consistency_pairs
                columns_to_exclude w) as Hu0.
  destruct (announce_checks_run self key_columns critical_columns column_ranges
              reference_df join_column consistency_pairs columns_to_exclude w)
    as (H0 & _ & _).
  rewrite (bind_returns _ _ w tt H0).
  set (w0 := (announce_checks self key_columns critical_columns column_ranges
                reference_df join_column consistency_pairs columns_to_exclude
                w).1) in *.
  clearbody w0. clear H0.
  assert (use_sql = false -> untouched w w0) as Hu by (intros _; exact Hu0).
  clear Hu0.
  do 6 stage.
  (* the exclusion, then the view *)
  rewrite try_except_bind.
  match goal with
  | Hu : use_sql = false -> untouched w ?w6
    |- context [exclude_columns api self ?checked columns_to_exclude ?w6] =>
      pose proof (exclude_columns_offline self checked columns_to_exclude w6)
        as Hoff;
      destruct (exclude_columns_run self checked columns_to_exclude w6)
        as (H7 & _ & _);
      destruct (exclude_columns api self checked columns_to_exclude w6) as [w7 o7];
      cbn [fst snd] in H7, Hoff; subst o7;
      exists w7; split;
      [intros Hf; eapply untouched_trans; [exact (Hu Hf) | exact Hoff]|];
      left; exists checked; cbv zeta;
      generalize (if truthy_list columns_to_exclude
                  then api_drop api (default [] columns_to_exclude) checked
                  else checked)
  end.
  intros cleaned. unfold _log_block, temp_view_name. run.
  destruct (debug self); simpl; by rewrite <- ?app_assoc.
Qed.


(** X10.  On the DataFrame path ([use_sql] false)
    [perform_data_quality_checks] never reaches the session: no statement
    is handed to the engine, and the views are as before, apart from
    [cleaned_data_view], which is registered when the run returns and only
    then; after a failed run a view of that name left by an earlier run
    is still the old one. *)
Theorem perform_data_quality_checks_dataframe_path (self : DataQualityManager)
    (spark : SparkSession) (df : DataFrame) (key_columns : StrOrList)
    (critical_columns : option (list string))
    (column_ranges : option (list (string * (Number * Number))))
    (reference_df : option DataFrame) (join_column : option string)
    (consistency_pairs : option (list (string * string)))
    (columns_to_exclude : option (list string))
    (order_by : option StrOrList) (w : World) :
  let out := perform_data_quality_checks sqlparse_format str_number set_order api self spark df key_columns
               critical_columns column_ranges reference_df join_column
               consistency_pairs columns_to_exclude order_by false w in
  sql_queries (events out.1) = sql_queries (events w) /\
  match out.2 with
  | Returns _ =>
      exists cleaned,
        catalog out.1 = <["cleaned_data_view" := cleaned]> (catalog w)
  | Raises _ => catalog out.1 = catalog w
  end.
Proof.
  intros out. subst out.
  destruct (perform_data_quality_checks_run self spark df key_columns
              critical_columns column_ranges reference_df join_column
              consistency_pairs columns_to_exclude order_by false w)
    as (w' & Hu & [(checked & ->)|(cause & ->)]);
    destruct (Hu eq_refl) as [Hc Hq]; cbn [fst snd catalog events].
  - split.
    + unfold sql_queries in *. rewrite omap_app, <- Hq. cbn [omap list_omap].
      rewrite omap_app. destruct (debug self); simpl; by rewrite app_nil_r.
    + eexists. by rewrite Hc.
  - split; [|done].
    unfold sql_queries in *. rewrite omap_app, <- Hq. simpl. by rewrite app_nil_r.
Qed.

(** ** The two lists of checks *)

(** X11.  Every check that [_list_checks_to_perform] names has its
    description in [_list_available_checks], and the names come in the
    order of that catalogue. *)
Theorem list_checks_to_perform_available (kwargs : Kwargs Number) :
  _list_checks_to_perform kwargs `sublist_of` (fst <$> _list_available_checks).
Proof.
  unfold _list_checks_to_perform, _list_available_checks.
  destruct (truthy_opt_keys _), (truthy_list (kw_critical_columns kwargs)),
    (truthy_list (kw_column_ranges kwargs)), (truthy_df _ && truthy_str _),
    (truthy_list (kw_consistency_pairs kwargs)),
    (truthy_list (kw_columns_to_exclude kwargs)); simpl;
    repeat first [apply sublist_nil | apply sublist_skip | apply sublist_cons].
Qed.

(** X12.  What [perform_data_quality_checks] announces before it starts:
    the start of the process, then (with [debug]) the block "Quality
    Checks to Perform", whose line lists the names that
    [_list_checks_to_perform] gives for the same arguments, the duplicate
    check left out: the announcement never names the duplicate check. *)
Theorem announcement_omits_duplicate_check (self : DataQualityManager)
    (key_columns : StrOrList) (critical_columns : option (list string))
    (column_ranges : option (list (string * (Number * Number))))
    (reference_df : option DataFrame) (join_column : option string)
    (consistency_pairs : option (list (string * string)))
    (columns_to_exclude : option (list string)) (w : World) :
  let listed :=
    _list_checks_to_perform
      (mkKwargs (Some key_columns) critical_columns column_ranges reference_df
         join_column consistency_pairs columns_to_exclude) in
  announce_checks self key_columns critical_columns column_ranges reference_df
    join_column consistency_pairs columns_to_exclude w =
  (mkWorld (catalog w)
     (events w ++
      LogStart "Data Quality Check Process" ::
      (if debug self
       then [LogBlock "Quality Checks to Perform"
               ["Checks to be performed: " +:+
                Py.join ", " (filter (fun c => c <> "Duplicate Check") listed)]]
       else [])),
   Returns tt).
Proof.
  intros listed. subst listed.
  unfold announce_checks, _list_checks_to_perform, _log_block. cbn [kw_key_columns
    kw_critical_columns kw_column_ranges kw_reference_df kw_join_column
    kw_consistency_pairs kw_columns_to_exclude truthy_opt_keys].
  run.
  destruct (debug self); simpl; [|done].
  rewrite <- app_assoc. do 5 f_equal.
  destruct (truthy_keys key_columns), (truthy_list critical_columns),
    (truthy_list column_ranges), (truthy_df reference_df && truthy_str join_column),
    (truthy_list consistency_pairs), (truthy_list columns_to_exclude);
    reflexivity.
Qed.

(** ** More on _handle_multiple_files *)

(** X13.  The SQL path of [_handle_multiple_files], when the engine
    accepts both statements: the input frame is registered as
    [temp_original_data] before the first statement runs, the engine
    receives the ROW_NUMBER statement and then SELECT * FROM
    temp_recent_data, and the function returns the answer to the second
    without its column [rnr]; the session is left as the engine left
    it. *)
Theorem handle_multiple_files_sql_path (self : DataQualityManager)
    (spark : SparkSession) (df : DataFrame) (key_columns : StrOrList)
    (order_by : option StrOrList) (w : World)
    (views1 views2 : gmap string DataFrame) (answer recent : DataFrame) :
  let q := recent_data_query (partition_columns set_order key_columns)
             (order_by_clause (order_by_columns order_by)) in
  sql_engine spark (<["temp_original_data" := df]> (catalog w)) q
    = Returns (views1, answer) ->
  sql_engine spark views1 "SELECT * FROM temp_recent_data"
    = Returns (views2, recent) ->
  let out := _handle_multiple_files sqlparse_format set_order api self spark df key_columns
               order_by true w in
  out.2 = Returns (api_drop api ["rnr"] recent) /\
  catalog out.1 = views2 /\
  sql_queries (events out.1) =
    sql_queries (events w) ++ [q; "SELECT * FROM temp_recent_data"].
Proof.
  intros q. unfold _handle_multiple_files. fold q. clearbody q.
  intros H1 H2. unfold sql_queries. qrun.
  destruct (debug self); simpl; rewrite H1; simpl; rewrite H2; simpl;
    rewrite ?omap_app; simpl; rewrite ?app_nil_r, <- ?app_assoc; done.
Qed.

(** ** What a failed check logs *)


End QualityFacts.

(** ** The checks in the reference engine, in terms of rows *)

Lemma reference_counted (o : Outcome DataFrame) :
  fails_or_finds (counted reference_api o) <-> fails_or_has_rows o.
Proof.
  unfold fails_or_finds, fails_or_has_rows, counted, raises.
  destruct o as [d|e]; simpl.
  - split.
    + intros [[e ?]|(n & [= <-] & Hn)]; [done|]. right. by exists d.
    + intros [[e ?]|(d' & [= <-] & Hn)]; [done|]. right. by eexists.
  - split; intros _; left; by eexists.
Qed.

(** In the reference engine (integer cells, names resolved exactly) the
    checks raise when a listed column does not resolve, and otherwise
    exactly when the rows hold what the check looks for. *)
Lemma reference_checks_in_terms_of_rows (sqlparse_format : string -> string)
    (self : DataQualityManager) (spark : SparkSession) (df : DataFrame)
    (w : World) :
  (forall key_columns,
     raises (_check_for_duplicates sqlparse_format reference_api self spark df
               key_columns false w).2 <->
     raises (DF.resolve_all df (as_list key_columns)) \/
     "count" ∈ as_list key_columns \/
     has_duplicate_key df (as_list key_columns)) /\
  (forall critical_columns,
     raises (_check_for_nulls reference_api self df critical_columns w).2 <->
     exists c, c ∈ critical_columns /\
               (raises (DF.resolve df c) \/ has_null df c)) /\
  (forall column_ranges,
     raises (_check_value_ranges pretty reference_api self df column_ranges w).2 <->
     exists c lo hi, (c, (lo, hi)) ∈ column_ranges /\
                     (raises (DF.resolve df c) \/ has_out_of_range df c lo hi)) /\
  (forall reference_df join_column,
     raises (_check_referential_integrity reference_api self df reference_df
               join_column w).2 <->
     raises (DF.resolve df join_column) \/
     raises (DF.resolve reference_df join_column) \/
     has_unmatched df reference_df join_column) /\
  (forall consistency_pairs,
     raises (_check_consistency_between_fields reference_api self df
               consistency_pairs w).2 <->
     exists c1 c2, (c1, c2) ∈ consistency_pairs /\
                   (raises (DF.resolve df c1) \/ raises (DF.resolve df c2) \/
                    has_inconsistent df c1 c2)).
Proof.
  split; [|split; [|split; [|split]]].
  - intros key_columns.
    destruct (check_for_duplicates_run sqlparse_format Z reference_api self spark
                df key_columns w) as (_ & _ & ->).
    by rewrite threshold_raises, reference_counted, duplicates_df_finds.
  - intros critical_columns.
    destruct (check_for_nulls_run Z reference_api self df critical_columns w)
      as (_ & _ & ->).
    rewrite loop_raises.
    split; intros (c & Hin & Hf); exists c; (split; [done|]).
    + by apply filter_isNull_finds, reference_counted.
    + by apply reference_counted, filter_isNull_finds.
  - intros column_ranges.
    destruct (check_value_ranges_run Z pretty reference_api self df column_ranges w)
      as (_ & _ & ->).
    rewrite (loop_raises column_ranges
               (fun r => counted reference_api
                           (api_filter_out_of_range reference_api df r.1 r.2.1
                              r.2.2))).
    split.
    + intros ([c [lo hi]] & Hin & Hf). exists c, lo, hi. split; [done|].
      by apply filter_out_of_range_finds, reference_counted.
    + intros (c & lo & hi & Hin & Hf). exists (c, (lo, hi)). split; [done|].
      by apply reference_counted, filter_out_of_range_finds.
  - intros reference_df join_column.
    destruct (check_referential_integrity_run Z reference_api self df reference_df
                join_column w) as (_ & _ & ->).
    by rewrite threshold_raises, reference_counted, join_left_anti_finds.
  - intros consistency_pairs.
    destruct (check_consistency_run Z reference_api self df consistency_pairs w)
      as (_ & _ & ->).
    rewrite (loop_raises consistency_pairs
               (fun p => counted reference_api
                           (api_filter_gt_columns reference_api df p.1 p.2))).
    split.
    + intros ([c1 c2] & Hin & Hf). exists c1, c2. split; [done|].
      by apply filter_gt_columns_finds, reference_counted.
    + intros (c1 & c2 & Hin & Hf). exists (c1, c2). split; [done|].
      by apply reference_counted, filter_gt_columns_finds.
Qed.

(** ** The order of the partition columns *)

(** [_handle_multiple_files] and [perform_data_quality_checks] depend on
    the order of the set only through the list of partition columns. *)
Lemma handle_multiple_files_set_order {Number} (sqlparse_format : string -> string)
    (str_number : Number -> string) (set_order set_order' : SetOrder)
    (api : DataFrameAPI Number) (self : DataQualityManager)
    (spark : SparkSession) (df : DataFrame) (key_columns : StrOrList)
    (order_by : option StrOrList) (use_sql : bool) (w : World) :
  list_set set_order ("input_file_name" :: as_list key_columns) =
  list_set set_order' ("input_file_name" :: as_list key_columns) ->
  _handle_multiple_files sqlparse_format set_order api self spark df key_columns
    order_by use_sql w =
  _handle_multiple_files sqlparse_format set_order' api self spark df key_columns
    order_by use_sql w /\
  forall critical_columns column_ranges reference_df join_column
         consistency_pairs columns_to_exclude,
    perform_data_quality_checks sqlparse_format str_number set_order api self
      spark df key_columns critical_columns column_ranges reference_df
      join_column consistency_pairs columns_to_exclude order_by use_sql w =
    perform_data_quality_checks sqlparse_format str_number set_order' api self
      spark df key_columns critical_columns column_ranges reference_df
      join_column consistency_pairs columns_to_exclude order_by use_sql w.
Proof.
  intros H. split.
  - unfold _handle_multiple_files, partition_columns. by rewrite H.
  - intros *. unfold perform_data_quality_checks.
    rewrite !call_handle_multiple_files_bound.
    unfold _handle_multiple_files, partition_columns. by rewrite H.
Qed.

(** A set of two elements comes in one of two orders. *)
Lemma list_set_two (set_order : SetOrder) (a b : string) :
  a <> b ->
  list_set set_order [a; b] = list_set first_seen [a; b] \/
  list_set set_order [a; b] = list_set last_first [a; b].
Proof.
  intros Hab. pose proof (list_set_distinct set_order [a; b]) as H.
  assert (remove_dups [a; b] = [a; b]) as Hd.
  { cbn [remove_dups]. destruct (decide_rel elem_of a [b]) as [Hin|_]; [|done].
    by apply list_elem_of_singleton in Hin. }
  cbn [list_set first_seen last_first]. rewrite Hd in *.
  symmetry in H. apply Permutation_length_2_inv in H as [->| ->]; auto.
Qed.

(* ===================================================================== *)
(** * Concrete runs *)
(* ===================================================================== *)

(** C1 as stated fails: the null check raises on a frame that lacks the
    listed column, although no listed column holds a NULL. *)
Lemma check_for_nulls_raises_without_null :
  raises (_check_for_nulls reference_api (mkManager false) ids_only ["name"]
            empty_world).2 /\
  ~ (exists c, c ∈ ["name"] /\ has_null ids_only c).
Proof.
  split.
  - eexists. vm_compute. reflexivity.
  - intros (c & Hc & i & r & Hres & _).
    apply list_elem_of_singleton in Hc as ->. vm_compute in Hres. discriminate.
Qed.

Lemma checks_raise_iff_engine_fails_or_violation_witness :
  raises (_check_for_nulls reference_api (mkManager false) ids_only ["name"]
            empty_world).2 /\
  ~ raises (_check_for_nulls reference_api (mkManager false) ids_only ["id"]
              empty_world).2 /\
  raises (_check_value_ranges pretty reference_api (mkManager false) orders
            [("amount", (0, 6))] empty_world).2 /\
  raises (_check_for_nulls (failing_api connection_lost) (mkManager false)
            ids_only ["id"] empty_world).2.
Proof.
  pose proof (checks_raise_iff_engine_fails_or_violation plain_format Z pretty
                reference_api (mkManager false) (constant_engine ids_only) ids_only
                empty_world) as (_ & _ & Hnulls & _).
  pose proof (checks_raise_iff_engine_fails_or_violation plain_format Z pretty
                reference_api (mkManager false) (constant_engine ids_only) orders
                empty_world) as (_ & _ & _ & Hranges & _).
  pose proof (checks_raise_iff_engine_fails_or_violation plain_format Z pretty
                (failing_api connection_lost) (mkManager false)
                (constant_engine ids_only) ids_only empty_world)
    as (_ & _ & Hfailing & _).
  split; [|split; [|split]].
  - apply Hnulls. exists "name". split; [by left|]. left. eexists.
    vm_compute. reflexivity.
  - intros (c & Hc & Hbad)%Hnulls. apply list_elem_of_singleton in Hc as ->.
    destruct Hbad as [[e He]|(n & Hn & Hpos)].
    + vm_compute in He. discriminate.
    + vm_compute in Hn. injection Hn as <-. lia.
  - apply Hranges. exists "amount", 0, 6. split; [by left|]. right. exists 1%nat.
    split; [vm_compute; reflexivity | lia].
  - apply Hfailing. exists "id". split; [by left|]. left. by eexists.
Defined.

(** C2.  The latest record per key is not what [_handle_multiple_files]
    keeps.  In [arrivals] the key 7 comes twice in file 1 and once in
    file 2.  With key column [id], ordered by [amount], the reference
    engine keeps the row of the greatest amount of file 1 and the row of
    file 2: two rows with the key 7, whatever the order in which the set
    gives the partition columns.  With the default order it keeps two
    rows with the key 7 as well.  [perform_data_quality_checks] on that
    input hands the two rows to the duplicate check, which fails. *)
Theorem handle_multiple_files_keeps_key_of_each_file (set_order : SetOrder) :
  let kept := mkDataFrame ["input_file_name"; "id"; "amount"]
                [[Some 1; Some 7; Some 9]; [Some 2; Some 7; Some 3]] in
  (_handle_multiple_files plain_format set_order reference_api (mkManager false)
     (constant_engine arrivals) arrivals (Str "id") (Some (Str "amount")) false
     empty_world).2 = Returns kept /\
  has_duplicate_key kept ["id"] /\
  (exists kept',
     (_handle_multiple_files plain_format set_order reference_api
        (mkManager false) (constant_engine arrivals) arrivals (Str "id") None false
        empty_world).2 = Returns kept' /\
     has_duplicate_key kept' ["id"]) /\
  (perform_data_quality_checks plain_format pretty set_order reference_api
     (mkManager false) (constant_engine arrivals) arrivals (Str "id") None None
     None None None None (Some (Str "amount")) false empty_world).2 =
  Raises (mkExn RuntimeError
    "Data quality checks failed: Failed to check for duplicates: Duplicate check failed: Found 1 duplicates based on key columns ['id'].").
Proof.
  intros kept.
  assert (has_duplicate_key kept ["id"]) as Hkept.
  { exists [1%nat], 0%nat, 1%nat, [Some 1; Some 7; Some 9], [Some 2; Some 7; Some 3].
    repeat split; done. }
  assert (has_duplicate_key
            (mkDataFrame ["input_file_name"; "id"; "amount"]
               [[Some 1; Some 7; Some 5]; [Some 2; Some 7; Some 3]]) ["id"])
    as Hdefault.
  { exists [1%nat], 0%nat, 1%nat, [Some 1; Some 7; Some 5], [Some 2; Some 7; Some 3].
    repeat split; done. }
  destruct (list_set_two set_order "input_file_name" "id") as [Hs|Hs]; [done| |];
    destruct (handle_multiple_files_set_order plain_format pretty _ _ reference_api
                (mkManager false) (constant_engine arrivals) arrivals (Str "id")
                (Some (Str "amount")) false empty_world Hs) as [-> Hperform];
    rewrite Hperform;
    destruct (handle_multiple_files_set_order plain_format pretty _ _ reference_api
                (mkManager false) (constant_engine arrivals) arrivals (Str "id")
                None false empty_world Hs) as [-> _];
    (split; [vm_compute; reflexivity|]); (split; [exact Hkept|]);
    (split; [|vm_compute; reflexivity]);
    eexists; (split; [vm_compute; reflexivity | exact Hdefault]).
Qed.

(** C4: with an empty [key_columns] the duplicate check runs all the same
    (and fails a frame of two rows), while [_list_checks_to_perform] does
    not list it. *)
Lemma perform_runs_duplicate_check_without_key_columns :
  let out := perform_data_quality_checks plain_format pretty last_first
               reference_api (mkManager false) (constant_engine ids_only) ids_only
               (List []) None None None None None None None false empty_world in
  truthy_keys (List []) = false /\
  _list_checks_to_perform
    (mkKwargs (Number := Z) (Some (List [])) None None None None None None) = [] /\
  passes (events out.1) = [DuplicateCheck] /\
  out.2 = Raises (mkExn RuntimeError
    "Data quality checks failed: Failed to check for duplicates: Duplicate check failed: Found 1 duplicates based on key columns [].").
Proof. vm_compute. done. Qed.


(** C6 as stated fails: an exception of the engine inside the duplicate
    check does not come out; a [RuntimeError] does. *)
Lemma check_for_duplicates_replaces_engine_exception :
  sql_engine (failing_engine connection_lost)
    (<["temp_view_check_duplicates" := ids_only]> ∅)
    (duplicate_check_query ["id"]) = Raises connection_lost /\
  (_check_for_duplicates plain_format reference_api (mkManager false)
     (failing_engine connection_lost) ids_only (Str "id") true empty_world).2
  = Raises (mkExn RuntimeError "Failed to check for duplicates: connection lost") /\
  mkExn RuntimeError "Failed to check for duplicates: connection lost"
  <> connection_lost.
Proof. split; [done|]. split; [vm_compute; reflexivity | discriminate]. Qed.

Lemma engine_exceptions_reraised_or_replaced_witness :
  get_pre_merge_version (failing_engine connection_lost) "sales" "orders"
    (Some LoggingHelper) empty_world =
  (mkWorld ∅ [SqlQuery "DESCRIBE HISTORY sales.orders LIMIT 1";
              WriteMessage "Error retrieving pre-merge version: connection lost"],
   Raises connection_lost) /\
  (_check_for_duplicates plain_format (failing_api connection_lost)
     (mkManager false) (failing_engine connection_lost) ids_only (Str "id") false
     empty_world).2 =
  Raises (mkExn RuntimeError "Failed to check for duplicates: connection lost") /\
  (_check_for_nulls (failing_api connection_lost) (mkManager false) ids_only
     ["id"] empty_world).2 =
  Raises (mkExn RuntimeError
            "Failed to check for null values in column 'id': connection lost") /\
  (_handle_multiple_files plain_format last_first (failing_api connection_lost)
     (mkManager false) (failing_engine connection_lost) ids_only (Str "id") None
     true empty_world).2 = Raises connection_lost /\
  (_handle_multiple_files plain_format last_first
     (failing_api (mkExn AnalysisException "cannot resolve 'id'"))
     (mkManager false) (failing_engine connection_lost) ids_only (Str "id") None
     false empty_world).2 =
  Raises (mkExn RuntimeError
            "Failed to handle multiple files: cannot resolve 'id'").
Proof.
  destruct (engine_exceptions_reraised_or_replaced plain_format Z pretty last_first
              (failing_api connection_lost) (mkManager false)
              (failing_engine connection_lost) "sales" "orders"
              (Some LoggingHelper) ids_only empty_world connection_lost)
    as (Hpre & _ & _ & _ & Hdup & _ & Hnulls & _ & _ & _ & Hsql & _).
  destruct (engine_exceptions_reraised_or_replaced plain_format Z pretty last_first
              (failing_api (mkExn AnalysisException "cannot resolve 'id'"))
              (mkManager false) (failing_engine connection_lost) "sales" "orders"
              (Some LoggingHelper) ids_only empty_world
              (mkExn AnalysisException "cannot resolve 'id'"))
    as (_ & _ & _ & _ & _ & _ & _ & _ & _ & _ & _ & Hwindow & _).
  split; [|split; [|split; [|split]]].
  - apply Hpre. reflexivity.
  - apply (Hdup (Str "id")). reflexivity.
  - apply (Hnulls [] "id" []); [constructor | reflexivity].
  - apply (Hsql (Str "id") None). left. reflexivity.
  - apply (Hwindow (Str "id") None). left. reflexivity.
Defined.

Lemma display_newly_merged_data_query_witness :
  let out := display_newly_merged_data (constant_engine orders) "sales" "orders"
               41 42 None empty_world in
  sql_queries (events out.1) =
    [Py.nl +:+ "    SELECT * FROM sales.orders VERSION AS OF 42" +:+
     Py.nl +:+ "    EXCEPT" +:+
     Py.nl +:+ "    SELECT * FROM sales.orders VERSION AS OF 41" +:+
     Py.nl +:+ "    "] /\
  displayed (events out.1) = [orders].
Proof.
  destruct (display_newly_merged_data_query (constant_engine orders) "sales" "orders"
              41 42 None empty_world) as (Hq & Hd).
  split; [exact Hq|]. simpl in Hd. destruct Hd as (_ & Hd & _). exact Hd.
Defined.

Lemma run_all_checks_always_raises_witness :
  (run_all_checks plain_format pretty last_first reference_api (mkManager false)
     (constant_engine orders) orders ["id"] None None None None None None false
     empty_world).2 =
  Raises (mkExn RuntimeError
    "Data quality checks failed: DataQualityManager._handle_multiple_files() missing 1 required positional argument: 'key_columns'").
Proof.
  destruct (run_all_checks_always_raises plain_format Z pretty last_first
              reference_api (mkManager false) (constant_engine orders) orders ["id"]
              None None None None None None false empty_world) as (_ & Hraise & _).
  exact Hraise.
Defined.

Lemma handle_multiple_files_sql_order_by_witness :
  (exists rest,
     sql_queries
       (events (_handle_multiple_files plain_format last_first reference_api
                  (mkManager false) (failing_engine connection_lost) arrivals
                  (Str "id") (Some (List ["amount"; "input_file_name"; "ts"])) true
                  empty_world).1) =
     (Py.nl +:+ "                    CREATE OR REPLACE TEMPORARY VIEW temp_recent_data AS" +:+
      Py.nl +:+ "                    SELECT *" +:+
      Py.nl +:+ "                    FROM (" +:+
      Py.nl +:+ "                        SELECT t.*, ROW_NUMBER() OVER (PARTITION BY id, input_file_name ORDER BY amount DESC, ts DESC) AS rnr" +:+
      Py.nl +:+ "                        FROM temp_original_data t" +:+
      Py.nl +:+ "                    ) x" +:+
      Py.nl +:+ "                    WHERE rnr = 1" +:+
      Py.nl +:+ "                ") :: rest) /\
  (exists rest,
     sql_queries
       (events (_handle_multiple_files plain_format first_seen reference_api
                  (mkManager false) (failing_engine connection_lost) arrivals
                  (Str "id") (Some (Str "input_file_name")) true empty_world).1) =
     (Py.nl +:+ "                    CREATE OR REPLACE TEMPORARY VIEW temp_recent_data AS" +:+
      Py.nl +:+ "                    SELECT *" +:+
      Py.nl +:+ "                    FROM (" +:+
      Py.nl +:+ "                        SELECT t.*, ROW_NUMBER() OVER (PARTITION BY input_file_name, id ORDER BY ) AS rnr" +:+
      Py.nl +:+ "                        FROM temp_original_data t" +:+
      Py.nl +:+ "                    ) x" +:+
      Py.nl +:+ "                    WHERE rnr = 1" +:+
      Py.nl +:+ "                ") :: rest) /\
  Py.join ", "
    ((fun c => c +:+ " DESC") <$>
     filter (fun c => c <> "input_file_name") ["input_file_name"]) = EmptyString.
Proof.
  destruct (handle_multiple_files_sql_order_by plain_format Z last_first
              reference_api (mkManager false) (failing_engine connection_lost)
              arrivals (Str "id") (Some (List ["amount"; "input_file_name"; "ts"]))
              empty_world) as (Hquery & _).
  destruct (handle_multiple_files_sql_order_by plain_format Z first_seen
              reference_api (mkManager false) (failing_engine connection_lost)
              arrivals (Str "id") (Some (Str "input_file_name")) empty_world)
    as (Hdefault & _ & Hempty).
  split; [exact Hquery|]. split; [exact Hdefault|].
  apply Hempty. repeat constructor.
Defined.

(** ** More runs of quality.py *)

Lemma handle_multiple_files_sql_path_witness :
  let out := _handle_multiple_files plain_format last_first reference_api
               (mkManager false)
               (constant_engine
                  (mkDataFrame ["input_file_name"; "id"; "rnr"]
                     [[Some 1; Some 7; Some 1]; [Some 2; Some 7; Some 1]]))
               two_files (Str "id") (Some (Str "ts")) true empty_world in
  out.2 = Returns two_files /\
  catalog out.1 = <["temp_original_data" := two_files]> ∅ /\
  sql_queries (events out.1) =
    [recent_data_query ["id"; "input_file_name"] "ts DESC";
     "SELECT * FROM temp_recent_data"].
Proof.
  apply (handle_multiple_files_sql_path plain_format Z last_first reference_api
           (mkManager false)
           (constant_engine
              (mkDataFrame ["input_file_name"; "id"; "rnr"]
                 [[Some 1; Some 7; Some 1]; [Some 2; Some 7; Some 1]]))
           two_files (Str "id") (Some (Str "ts")) empty_world
           (<["temp_original_data" := two_files]> ∅)
           (<["temp_original_data" := two_files]> ∅)
           (mkDataFrame ["input_file_name"; "id"; "rnr"]
              [[Some 1; Some 7; Some 1]; [Some 2; Some 7; Some 1]])
           (mkDataFrame ["input_file_name"; "id"; "rnr"]
              [[Some 1; Some 7; Some 1]; [Some 2; Some 7; Some 1]]));
    reflexivity.
Defined.


(** ** Runs of merge_management.py *)

Lemma get_pre_merge_version_first_row_witness :
  get_pre_merge_version
    (answering "DESCRIBE HISTORY" table_history (failing_engine connection_lost))
    "sales" "orders" None empty_world =
  (mkWorld ∅ [SqlQuery "DESCRIBE HISTORY sales.orders LIMIT 1"], Returns (Some 41)).
Proof.
  apply (get_pre_merge_version_first_row
           (answering "DESCRIBE HISTORY" table_history (failing_engine connection_lost))
           "sales" "orders" None empty_world ∅ table_history 0%nat
           [Some 41; Some 1700000000] []); reflexivity.
Defined.

Lemma get_pre_merge_version_empty_history_witness :
  get_pre_merge_version (constant_engine (mkDataFrame ["version"] []))
    "sales" "orders" (Some LoggingHelper) empty_world =
  (mkWorld ∅ [SqlQuery "DESCRIBE HISTORY sales.orders LIMIT 1";
              WriteMessage "Error retrieving pre-merge version: list index out of range"],
   Raises (mkExn IndexError "list index out of range")).
Proof.
  apply (get_pre_merge_version_empty_history
           (constant_engine (mkDataFrame ["version"] [])) "sales" "orders"
           (Some LoggingHelper) empty_world ∅ (mkDataFrame ["version"] []) 0%nat);
    reflexivity.
Defined.

Lemma execute_merge_without_version_merges_then_raises_witness :
  execute_merge_and_get_post_version (constant_engine orders) "sales" "orders"
    "MERGE INTO sales.orders AS t USING v AS s ON s.id = t.id" None None
    empty_world =
  (mkWorld ∅ [SqlQuery "MERGE INTO sales.orders AS t USING v AS s ON s.id = t.id"],
   Raises (mkExn TypeError
             "unsupported operand type(s) for +: 'NoneType' and 'int'")).
Proof.
  apply (execute_merge_without_version_merges_then_raises (constant_engine orders)
           "sales" "orders"
           "MERGE INTO sales.orders AS t USING v AS s ON s.id = t.id" None
           empty_world ∅ orders).
  reflexivity.
Defined.

Lemma generate_merge_sql_blank_key_columns_witness :
  (generate_merge_sql "updates" "sales" "orders" "  " None empty_world).2 =
  Returns
    (Py.nl +:+ "    MERGE INTO sales.orders AS t" +:+
     Py.nl +:+ "    USING updates AS s" +:+
     Py.nl +:+ "    ON s. = t." +:+
     Py.nl +:+ "    WHEN MATCHED THEN" +:+
     Py.nl +:+ "      UPDATE SET *" +:+
     Py.nl +:+ "    WHEN NOT MATCHED THEN" +:+
     Py.nl +:+ "      INSERT *" +:+
     Py.nl +:+ "    ").
Proof.
  apply (generate_merge_sql_blank_key_columns "updates" "sales" "orders" "  " None
           empty_world).
  repeat constructor.
Defined.

Lemma manage_data_merge_sequence_witness :
  let out := manage_data_merge mounted_path named_table
               (answering "DESCRIBE HISTORY" table_history (constant_engine orders))
               "sales" "orders" "updates" "id" None empty_world in
  out.2 = Returns tt /\
  catalog out.1 = ∅ /\
  sql_queries (events out.1) =
    ["DESCRIBE HISTORY sales.orders LIMIT 1";
     merge_sql_text "updates" "sales" "orders" "s.id = t.id";
     merged_data_sql "sales" "orders" 41 42] /\
  displayed (events out.1) = [orders].
Proof.
  apply (manage_data_merge_sequence mounted_path named_table
           (answering "DESCRIBE HISTORY" table_history (constant_engine orders))
           "sales" "orders" "updates" "id" None empty_world empty_world empty_world
           "/mnt/sales/orders" "sales" "orders" ∅ ∅ ∅ table_history orders orders
           0%nat [Some 41; Some 1700000000] [] 41); reflexivity.
Defined.

Lemma manage_data_merge_needs_version_witness :
  let out := manage_data_merge mounted_path named_table
               (failing_engine connection_lost)
               "sales" "orders" "updates" "id" None empty_world in
  out.2 = Raises connection_lost /\
  sql_queries (events out.1) = ["DESCRIBE HISTORY sales.orders LIMIT 1"] /\
  displayed (events out.1) = [].
Proof.
  apply (manage_data_merge_needs_version mounted_path named_table
           (failing_engine connection_lost)
           "sales" "orders" "updates" "id" None empty_world empty_world empty_world
           "/mnt/sales/orders" "sales" "orders" connection_lost); reflexivity.
Defined.

Lemma manage_data_merge_failed_merge_witness :
  let out := manage_data_merge mounted_path named_table
               (answering "DESCRIBE HISTORY" table_history
                  (failing_engine connection_lost))
               "sales" "orders" "updates" "id" None empty_world in
  out.2 = Raises connection_lost /\
  catalog out.1 = ∅ /\
  sql_queries (events out.1) =
    ["DESCRIBE HISTORY sales.orders LIMIT 1";
     merge_sql_text "updates" "sales" "orders" "s.id = t.id"] /\
  displayed (events out.1) = [].
Proof.
  apply (manage_data_merge_failed_merge mounted_path named_table
           (answering "DESCRIBE HISTORY" table_history
              (failing_engine connection_lost))
           "sales" "orders" "updates" "id" None empty_world empty_world empty_world
           "/mnt/sales/orders" "sales" "orders" ∅ table_history
           0%nat [Some 41; Some 1700000000] [] connection_lost); reflexivity.
Defined.

Lemma manage_data_merge_failed_display_witness :
  let out := manage_data_merge mounted_path named_table
               (answering "DESCRIBE HISTORY" table_history
                  (answering (Py.nl +:+ "    MERGE") orders
                     (failing_engine connection_lost)))
               "sales" "orders" "updates" "id" None empty_world in
  out.2 = Raises connection_lost /\
  catalog out.1 = ∅ /\
  sql_queries (events out.1) =
    ["DESCRIBE HISTORY sales.orders LIMIT 1";
     merge_sql_text "updates" "sales" "orders" "s.id = t.id";
     merged_data_sql "sales" "orders" 41 42] /\
  displayed (events out.1) = [].
Proof.
  apply (manage_data_merge_failed_display mounted_path named_table
           (answering "DESCRIBE HISTORY" table_history
              (answering (Py.nl +:+ "    MERGE") orders
                 (failing_engine connection_lost)))
           "sales" "orders" "updates" "id" None empty_world empty_world empty_world
           "/mnt/sales/orders" "sales" "orders" ∅ ∅ table_history orders
           0%nat [Some 41; Some 1700000000] [] 41 connection_lost); reflexivity.
Defined.
